(** * Metadata wizard (dataplexutils/metadata/wizard.py): a shallow embedding

    The Python module is embedded method by method.  Mutable objects (the
    shared [ClientOptions], the BigQuery tables, the Dataplex catalog) live in
    an explicit [World]; a method is a function from a world to a result and
    the world it leaves behind, also when it raises.  The external services
    answer through an [Env] of oracles.  The values of [constants.toml] are
    not part of the sources and are taken as a [Constants] record. *)

From Stdlib Require Import Ascii String ZArith Lia.
From stdpp Require Import base option list strings gmap sorting pretty.

(** ** Python values and exceptions *)

#[local] Set Warnings "-register-all".

(** The Python objects that flow through the methods below as data: JSON
    documents, protobuf values, the values of keyword arguments. *)
Inductive PyVal :=
| PNone
| PBool (b : bool)
| PNum (literal : string)
| PStr (s : string)
| PList (l : list PyVal)
| PTuple (l : list PyVal)
| PDict (items : list (string * PyVal)).

(** [a == b]: structural, and never true across different types. *)
Fixpoint py_eqb (a b : PyVal) : bool :=
  let fix all_eqb (l1 l2 : list PyVal) : bool :=
    match l1, l2 with
    | [], [] => true
    | x :: l1', y :: l2' => py_eqb x y && all_eqb l1' l2'
    | _, _ => false
    end in
  let fix items_eqb (l1 l2 : list (string * PyVal)) : bool :=
    match l1, l2 with
    | [], [] => true
    | (k1, x) :: l1', (k2, y) :: l2' => String.eqb k1 k2 && py_eqb x y && items_eqb l1' l2'
    | _, _ => false
    end in
  match a, b with
  | PNone, PNone => true
  | PBool x, PBool y => Bool.eqb x y
  | PNum x, PNum y => String.eqb x y
  | PStr x, PStr y => String.eqb x y
  | PList x, PList y => all_eqb x y
  | PTuple x, PTuple y => all_eqb x y
  | PDict x, PDict y => items_eqb x y
  | _, _ => false
  end.

(** [x in l] and [x not in l] on a Python list. *)
Definition py_in (x : PyVal) (l : list PyVal) : bool := existsb (py_eqb x) l.
Definition py_not_in (x : PyVal) (l : list PyVal) : bool := negb (py_in x l).

(** A Python list of [str], and the pair a CSV line is split into. *)
Definition str_list (l : list string) : list PyVal := map PStr l.
Definition pair_tuple (t : string * string) : PyVal := PTuple [PStr (fst t); PStr (snd t)].

(** [d[key]] and [key in d] on a dictionary. *)
Fixpoint dict_get (key : string) (items : list (string * PyVal)) : option PyVal :=
  match items with
  | [] => None
  | (k, v) :: rest => if String.eqb k key then Some v else dict_get key rest
  end.

(** What a [ValueError] of the module is about (its message, structured). *)
Inductive value_error :=
| InvalidStrategy (strategy : string)
| DocumentationURIRequired
| TableNotInDataset (table : PyVal) (dataset_fqn : string)
| UnpackMismatch
| PassAStringOrNone.

(** Exception classes that the methods raise or meet. *)
Inductive exn :=
| NotFound (message : string)
| ValueError (why : value_error)
| AttributeError
| TypeError
| UnboundLocalError
| IndexError
| KeyError
| BadRequest
| ServiceError (message : string).

Definition is_NotFound (e : exn) : bool :=
  match e with NotFound _ => true | _ => false end.
Definition is_BadRequest (e : exn) : bool :=
  match e with BadRequest => true | _ => false end.

(** A call either raises or returns. *)
Inductive result (A : Type) :=
| Raise (e : exn)
| Return (a : A).
Arguments Raise {A} e.
Arguments Return {A} a.

(** ** constants.toml *)

(** The constants the module reads.  The file is not part of the sources, so
    every value is a field of this record. *)
Record Constants := {
  SYSTEM_PROMPT : string;
  TABLE_DESCRIPTION_PROMPT_BASE : string;
  TABLE_DESCRIPTION_PROMPT_PROFILE : string;
  TABLE_DESCRIPTION_PROMPT_QUALITY : string;
  TABLE_DESCRIPTION_PROMPT_LINEAGE_TABLES : string;
  TABLE_DESCRIPTION_PROMPT_LINEAGE_PROCESSES : string;
  TABLE_DESCRIPTION_PROMPT_DOCUMENT : string;
  TABLE_DESCRIPTION_GENERATION_BASE : string;
  TABLE_DESCRIPTION_GENERATION_LINEAGE : string;
  COLUMN_DESCRIPTION_PROMPT_BASE : string;
  OUTPUT_FORMAT_PROMPT : string;
  AI_WARNING : string;
  NUM_ROWS_TO_SAMPLE : nat;
  MAX_COLUMN_DESC_LENGTH : nat;
  PDF_MIME_TYPE : string;
  LLM_TYPE : string;
  LLM_VISION_TYPE : string;
  ASPECT_TEMPLATE_name : string;
  STRATEGY_NAIVE : Z;
  STRATEGY_DOCUMENTED : Z;
  STRATEGY_DOCUMENTED_THEN_REST : Z;
  STRATEGY_RANDOM : Z;
  STRATEGY_ALPHABETICAL : Z
}.

(** Modelled from the spec: the table [GENERATION_STRATEGY] of
    [constants.toml], which is not in the sources.  Its keys are the five
    strategy names of the design's GenerationStrategy; the integer codes are
    fields of [Constants]. *)
Definition GENERATION_STRATEGY (c : Constants) : list (string * Z) :=
  [ ("NAIVE", STRATEGY_NAIVE c);
    ("DOCUMENTED", STRATEGY_DOCUMENTED c);
    ("DOCUMENTED_THEN_REST", STRATEGY_DOCUMENTED_THEN_REST c);
    ("RANDOM", STRATEGY_RANDOM c);
    ("ALPHABETICAL", STRATEGY_ALPHABETICAL c) ].

(** The five codes are pairwise different. *)
Definition strategies_distinct (c : Constants) : Prop :=
  NoDup (map snd (GENERATION_STRATEGY c)).

(** ** ClientOptions and PromptManager *)

Record ClientOptions := {
  _use_lineage_tables : bool;
  _use_lineage_processes : bool;
  _use_profile : bool;
  _use_data_quality : bool;
  _use_ext_documents : bool;
  _persist_to_dataplex_catalog : bool;
  _stage_for_review : bool;
  _add_ai_warning : bool
}.

(** [ClientOptions()] with the defaults of [__init__]. *)
Definition ClientOptions_default : ClientOptions :=
  {| _use_lineage_tables := false; _use_lineage_processes := false;
     _use_profile := false; _use_data_quality := false;
     _use_ext_documents := false; _persist_to_dataplex_catalog := true;
     _stage_for_review := false; _add_ai_warning := true |}.

Inductive PromtType := PROMPT_TYPE_TABLE | PROMPT_TYPE_COLUMN.

(** [if cond: prompt = prompt + fragment]. *)
Definition add_if (cond : bool) (prompt fragment : string) : string :=
  if cond then prompt +:+ fragment else prompt.

Definition _get_prompt_table (c : Constants) (o : ClientOptions) : string :=
  let p := SYSTEM_PROMPT c in
  let p := p +:+ TABLE_DESCRIPTION_PROMPT_BASE c in
  let p := add_if (_use_profile o) p (TABLE_DESCRIPTION_PROMPT_PROFILE c) in
  let p := add_if (_use_data_quality o) p (TABLE_DESCRIPTION_PROMPT_QUALITY c) in
  let p := add_if (_use_lineage_tables o) p (TABLE_DESCRIPTION_PROMPT_LINEAGE_TABLES c) in
  let p := add_if (_use_lineage_processes o) p (TABLE_DESCRIPTION_PROMPT_LINEAGE_PROCESSES c) in
  let p := add_if (_use_ext_documents o) p (TABLE_DESCRIPTION_PROMPT_DOCUMENT c) in
  let p := p +:+ TABLE_DESCRIPTION_GENERATION_BASE c in
  let p := add_if (_use_lineage_tables o || _use_lineage_processes o) p
             (TABLE_DESCRIPTION_GENERATION_LINEAGE c) in
  p +:+ OUTPUT_FORMAT_PROMPT c.

Definition _get_prompt_columns (c : Constants) (o : ClientOptions) : string :=
  let p := SYSTEM_PROMPT c in
  let p := p +:+ COLUMN_DESCRIPTION_PROMPT_BASE c in
  let p := add_if (_use_profile o) p (TABLE_DESCRIPTION_PROMPT_PROFILE c) in
  let p := add_if (_use_data_quality o) p (TABLE_DESCRIPTION_PROMPT_QUALITY c) in
  let p := add_if (_use_lineage_tables o) p (TABLE_DESCRIPTION_PROMPT_LINEAGE_TABLES c) in
  let p := add_if (_use_lineage_processes o) p (TABLE_DESCRIPTION_PROMPT_LINEAGE_PROCESSES c) in
  p +:+ OUTPUT_FORMAT_PROMPT c.

Definition get_promtp (c : Constants) (t : PromtType) (o : ClientOptions) : string :=
  match t with
  | PROMPT_TYPE_TABLE => _get_prompt_table c o
  | PROMPT_TYPE_COLUMN => _get_prompt_columns c o
  end.

(** ** Python string methods

    A [str] is modelled by a string of 8-bit characters; the methods below
    are the Python ones on 7-bit text. *)

Definition chars (s : string) : list ascii := String.list_ascii_of_string s.
Definition str (l : list ascii) : string := String.string_of_list_ascii l.

(** [s.endswith(suffix)]. *)
Definition endswith (s suffix : string) : bool :=
  let n := String.length s in
  let k := String.length suffix in
  (k <=? n)%nat && String.eqb (String.substring (n - k) k s) suffix.

(** [s[0:n]]. *)
Definition slice_to (n : nat) (s : string) : string := String.substring 0 n s.

(** [s.split(sep)] for a one-character separator, on the characters. *)
Fixpoint split_chars (sep : ascii) (cur : list ascii) (s : list ascii) : list string :=
  match s with
  | [] => [str (rev cur)]
  | a :: s' =>
      if Ascii.eqb a sep then str (rev cur) :: split_chars sep [] s'
      else split_chars sep (a :: cur) s'
  end.
Definition split (sep : ascii) (s : string) : list string :=
  split_chars sep [] (chars s).

(** [s.split(sep, maxsplit)]: at most [maxsplit] cuts, the rest is kept whole. *)
Fixpoint split_max_chars (sep : ascii) (maxsplit : nat) (cur s : list ascii) : list string :=
  match maxsplit with
  | O => [str (rev cur ++ s)]
  | S m =>
      match s with
      | [] => [str (rev cur)]
      | a :: s' =>
          if Ascii.eqb a sep then str (rev cur) :: split_max_chars sep m [] s'
          else split_max_chars sep maxsplit (a :: cur) s'
      end
  end.
Definition split_max (sep : ascii) (maxsplit : nat) (s : string) : list string :=
  split_max_chars sep maxsplit [] (chars s).

(** The characters [str.strip()] removes, among the 7-bit ones. *)
Definition py_isspace (a : ascii) : bool :=
  let n := nat_of_ascii a in
  ((9 <=? n) && (n <=? 13) || (28 <=? n) && (n <=? 32))%nat.

Fixpoint lstrip_chars (s : list ascii) : list ascii :=
  match s with
  | a :: s' => if py_isspace a then lstrip_chars s' else s
  | [] => []
  end.

(** [s.strip()]. *)
Definition strip (s : string) : string :=
  str (rev (lstrip_chars (rev (lstrip_chars (chars s))))).

(** [s.replace(old, new)] for a non-empty [old]: occurrences are replaced
    from the left, without overlap; [skip] counts the characters of the
    occurrence just replaced that are still to be passed over. *)
Fixpoint replace_from (old new : string) (skip : nat) (s : string) : string :=
  match s with
  | EmptyString => EmptyString
  | String a s' =>
      match skip with
      | S k => replace_from old new k s'
      | O =>
          if String.prefix old s
          then new +:+ replace_from old new (String.length old - 1) s'
          else String a (replace_from old new 0 s')
      end
  end.
Definition replace (old new s : string) : string := replace_from old new 0 s.

(** [s.lower()] on the 7-bit letters. *)
Definition lower_char (a : ascii) : ascii :=
  let n := nat_of_ascii a in
  if ((65 <=? n) && (n <=? 90))%nat then ascii_of_nat (n + 32) else a.
Definition lower (s : string) : string := str (map lower_char (chars s)).

(** ** The regular expressions of [_split_table_fqn] and [_split_dataset_fqn] *)

Definition is_dot (a : ascii) : bool := Ascii.eqb a "."%char.
Definition is_dot_or_colon (a : ascii) : bool :=
  Ascii.eqb a "."%char || Ascii.eqb a ":"%char.

(** The longest run matched by [[^.]*] and what follows it. *)
Fixpoint span_non_dot (s : list ascii) : list ascii * list ascii :=
  match s with
  | [] => ([], [])
  | a :: s' =>
      if is_dot a then ([], s)
      else let '(run, rest) := span_non_dot s' in (a :: run, rest)
  end.

(** [([^.]+)\.([^.]+)] from the current position: a greedy group can only be
    followed by a dot when it is the whole run, so no shorter match exists. *)
Definition match_two_groups (s : list ascii) : option (list ascii * list ascii) :=
  let '(g2, rest) := span_non_dot s in
  match g2, rest with
  | _ :: _, _dot :: rest' =>
      let '(g3, _) := span_non_dot rest' in
      match g3 with
      | _ :: _ => Some (g2, g3)
      | [] => None
      end
  | _, _ => None
  end.

(** The first group of the table pattern taken as the first [k] characters. *)
Definition match_table_at (s : list ascii) (k : nat)
  : option (list ascii * list ascii * list ascii) :=
  match drop k s with
  | sep :: rest =>
      if is_dot_or_colon sep then
        match match_two_groups rest with
        | Some (g2, g3) => Some (take k s, g2, g3)
        | None => None
        end
      else None
  | [] => None
  end.

(** Backtracking over the first group, longest first. *)
Fixpoint match_table_from (s : list ascii) (k : nat)
  : option (list ascii * list ascii * list ascii) :=
  match k with
  | O => None
  | S k' =>
      match match_table_at s k with
      | Some r => Some r
      | None => match_table_from s k'
      end
  end.

(** [re.search(r"^([^.]+)[\.:]([^.]+)\.([^.]+)", table_fqn)]. *)
Definition search_table_pattern (table_fqn : string) : option (string * string * string) :=
  let s := chars table_fqn in
  match match_table_from s (length (fst (span_non_dot s))) with
  | Some (g1, g2, g3) => Some (str g1, str g2, str g3)
  | None => None
  end.

(** [re.search(r"^([^.]+)\.([^.]+)", dataset_fqn)]. *)
Definition search_dataset_pattern (dataset_fqn : string) : option (string * string) :=
  let '(g1, rest) := span_non_dot (chars dataset_fqn) in
  match g1, rest with
  | _ :: _, _dot :: rest' =>
      match fst (span_non_dot rest') with
      | [] => None
      | g2 => Some (str g1, str g2)
      end
  | _, _ => None
  end.

(** [match.group(...)] on a failed search is an [AttributeError] on [None]. *)
Definition _split_table_fqn (table_fqn : string) : result (string * string * string) :=
  match search_table_pattern table_fqn with
  | Some r => Return r
  | None => Raise AttributeError
  end.

Definition _split_dataset_fqn (dataset_fqn : string) : result (string * string) :=
  match search_dataset_pattern dataset_fqn with
  | Some r => Return r
  | None => Raise AttributeError
  end.

Definition _construct_bq_resource_string (table_fqn : string) : result string :=
  match _split_table_fqn table_fqn with
  | Return (project_id, dataset_id, table_id) =>
      Return ("//bigquery.googleapis.com/projects/" +:+ project_id +:+ "/datasets/"
              +:+ dataset_id +:+ "/tables/" +:+ table_id)
  | Raise e => Raise e
  end.

(** ** The objects of the cloud clients *)

(** [bigquery.SchemaField]: the properties the module reads or passes to the
    constructor, and [scale], which the constructor leaves at its default when
    it is not passed.  Any Python object can be given as description. *)
Inductive SchemaField := mkSchemaField {
  name : string;
  field_type : string;
  mode : string;
  default_value_expression : option string;
  description : PyVal;
  fields : list SchemaField;
  policy_tags : option (list string);
  precision : option Z;
  scale : option Z;
  max_length : option Z
}.

(** [bigquery.Table]: its description ([None] or a [str]) and its schema. *)
Record Table := mkTable {
  table_description : option string;
  schema : list SchemaField
}.

(** [dataplex_v1.Aspect]; [data] is a protobuf [Struct]. *)
Record Aspect := mkAspect {
  aspect_type : string;
  path : string;
  data : gmap string PyVal
}.

(** A Dataplex entry: its aspects by key, in the order the client iterates
    over [entry.aspects]. *)
Definition Entry := list (string * Aspect).

(** A data scan and the jobs that ran for it. *)
Record DataScan := mkDataScan {
  scan_name : string;
  scan_resource : string
}.

Record DataScanJob := mkDataScanJob {
  job_succeeded : bool;
  dataQualityResult : option PyVal;
  dataProfileResult : option PyVal
}.

(** A lineage link. *)
Record Link := mkLink {
  link_name : string;
  link_source : string;
  link_target : string
}.

(** One element of [table_sources_info]; [_get_table_schema] returns a pair. *)
Record SourceInfo := mkSourceInfo {
  source_table_name : string;
  source_table_schema : PyVal * list SchemaField;
  source_table_description : option string
}.

(** The keyword arguments of [prompt.format(...)]. *)
Record FormatArgs := mkFormatArgs {
  kw_column_name : option string;
  kw_table_fqn : string;
  kw_table_schema_str : PyVal;
  kw_table_sample : string;
  kw_table_profile : PyVal;
  kw_table_quality : PyVal;
  kw_table_sources_info : list SourceInfo;
  kw_job_sources_info : list string;
  kw_human_comments : PyVal
}.

(** The two log records that mark the start of a generation; other logging
    is not kept. *)
Inductive LogRecord :=
| GeneratingTable (table_fqn : string)
| GeneratingColumns (table_fqn : string).

(** ** The world and the services *)

(** What the methods can change: the shared options object of the client,
    the tables of the warehouse, the entries and aspect types of the catalog,
    and the traces of model calls, random draws, sleeps and log records. *)
Record World := mkWorld {
  _client_options : ClientOptions;
  bq_tables : gmap string Table;
  catalog : gmap string Entry;
  aspect_types : gset string;
  llm_calls : nat;
  random_draws : nat;
  slept : list nat;
  logged : list LogRecord
}.

(** The client's own fields and the answers of the services the methods only
    read from.  [generate_content n model document prompt] is the outcome of
    the [n]-th model call of the run, from [vertexai.init] to [responses.text];
    [randbelow n k] is the [n]-th random draw of the run, asked below [k]. *)
Record Env := mkEnv {
  _project_id : string;
  _dataplex_location : string;
  llm_location : string;
  now : string;
  str_format : string -> FormatArgs -> result string;
  generate_content : nat -> string -> option string -> string -> result string;
  randbelow : nat -> nat -> nat;
  query_sample : string -> result string;
  get_dataset_location : string -> result string;
  list_tables : string -> string -> result (list string);
  download_as_text : string -> string -> result string;
  list_data_scans : string -> result (list DataScan);
  list_data_scan_jobs : string -> result (list DataScanJob);
  search_links : string -> string -> result (list Link);
  batch_search_link_processes : string -> list string -> result (list string);
  get_process : string -> result (gmap string string);
  get_job : string -> string -> result string
}.

(** ** Methods as state transformers that may raise *)

Definition M (A : Type) : Type := World -> result A * World.

Definition ret {A} (a : A) : M A := fun w => (Return a, w).
Definition raise {A} (e : exn) : M A := fun w => (Raise e, w).
Definition bind {A B} (m : M A) (k : A -> M B) : M B :=
  fun w => match m w with
           | (Return a, w') => k a w'
           | (Raise e, w') => (Raise e, w')
           end.

(** [try: m except Exception as e: handler(e)]. *)
Definition try_except {A} (m : M A) (handler : exn -> M A) : M A :=
  fun w => match m w with
           | (Return a, w') => (Return a, w')
           | (Raise e, w') => handler e w'
           end.

(** The result of a pure call or of a read-only service call. *)
Definition lift {A} (r : result A) : M A := fun w => (r, w).

Definition get_world : M World := fun w => (Return w, w).
Definition modify (f : World -> World) : M unit := fun w => (Return tt, f w).

#[global] Instance M_ret : MRet M := @ret.
#[global] Instance M_bind : MBind M := fun A B k m => bind m k.

(** [for x in l: body(x)]. *)
Fixpoint for_each {A} (l : list A) (body : A -> M unit) : M unit :=
  match l with
  | [] => ret tt
  | x :: l' => body x ;; for_each l' body
  end.

(** [for x in l: acc = body(acc, x)], the loop variable threaded through. *)
Fixpoint for_fold {A B} (l : list A) (acc : B) (body : B -> A -> M B) : M B :=
  match l with
  | [] => ret acc
  | x :: l' => acc' ← body acc x; for_fold l' acc' body
  end.

(** ** The service calls that read or write the world

    The warehouse and the catalog are stores: a call on a table or an entry
    that is there succeeds, a call on one that is not raises [NotFound]; no
    other failure of these two services is modelled.  The other services
    answer through [Env] and may raise any exception. *)

(** [bq_client.get_table(table_fqn)]. *)
Definition get_table (table_fqn : string) : M Table :=
  fun w => match bq_tables w !! table_fqn with
           | Some t => (Return t, w)
           | None => (Raise (NotFound ("Not found: Table " +:+ table_fqn)), w)
           end.

(** [bq_client.update_table(table, fields)]. *)
Definition update_table (table_fqn : string) (t : Table) : M unit :=
  modify (fun w => mkWorld (_client_options w) (<[table_fqn := t]> (bq_tables w))
                     (catalog w) (aspect_types w) (llm_calls w)
                     (random_draws w) (slept w) (logged w)).

(** [client.get_entry] with the custom view: the entry's aspects of the
    requested types. *)
Definition get_entry (entry_name : string) (requested : list string) : M Entry :=
  fun w => match catalog w !! entry_name with
           | Some entry =>
               (Return (filter (fun ka => bool_decide (aspect_type (snd ka) ∈ requested)) entry), w)
           | None => (Raise (NotFound ("Not found: Entry " +:+ entry_name)), w)
           end.

(** [entry.aspects[key] = aspect] on the stored entry. *)
Fixpoint set_aspect (key : string) (a : Aspect) (entry : Entry) : Entry :=
  match entry with
  | [] => [(key, a)]
  | (k, old) :: rest =>
      if String.eqb k key then (k, a) :: rest else (k, old) :: set_aspect key a rest
  end.

(** [client.update_entry] with the update mask on the aspects and
    [allow_missing] left false: the aspect under [key] is replaced.  The
    catalog is taken to accept the write to an entry that it holds: of the
    errors of the call only the missing entry is kept, so that the handlers
    of the methods that write are reached through a missing entry only. *)
Definition update_entry (entry_name key : string) (a : Aspect) : M unit :=
  fun w => match catalog w !! entry_name with
           | Some entry =>
               (Return tt,
                mkWorld (_client_options w) (bq_tables w)
                  (<[entry_name := set_aspect key a entry]> (catalog w))
                  (aspect_types w) (llm_calls w) (random_draws w) (slept w) (logged w))
           | None => (Raise (NotFound ("Not found: Entry " +:+ entry_name)), w)
           end.

(** [self._client_options._use_lineage_tables = False] and its sibling. *)
Definition disable_lineage_tables (o : ClientOptions) : ClientOptions :=
  {| _use_lineage_tables := false;
     _use_lineage_processes := _use_lineage_processes o;
     _use_profile := _use_profile o;
     _use_data_quality := _use_data_quality o;
     _use_ext_documents := _use_ext_documents o;
     _persist_to_dataplex_catalog := _persist_to_dataplex_catalog o;
     _stage_for_review := _stage_for_review o;
     _add_ai_warning := _add_ai_warning o |}.

Definition disable_lineage_processes (o : ClientOptions) : ClientOptions :=
  {| _use_lineage_tables := _use_lineage_tables o;
     _use_lineage_processes := false;
     _use_profile := _use_profile o;
     _use_data_quality := _use_data_quality o;
     _use_ext_documents := _use_ext_documents o;
     _persist_to_dataplex_catalog := _persist_to_dataplex_catalog o;
     _stage_for_review := _stage_for_review o;
     _add_ai_warning := _add_ai_warning o |}.

Definition set_options (f : ClientOptions -> ClientOptions) : M unit :=
  modify (fun w => mkWorld (f (_client_options w)) (bq_tables w) (catalog w)
                     (aspect_types w) (llm_calls w) (random_draws w) (slept w) (logged w)).

(** [self._client_options], read when the expression is evaluated. *)
Definition options : M ClientOptions := fun w => (Return (_client_options w), w).

(** [time.sleep(seconds)]. *)
Definition sleep (seconds : nat) : M unit :=
  modify (fun w => mkWorld (_client_options w) (bq_tables w) (catalog w)
                     (aspect_types w) (llm_calls w)
                     (random_draws w) (slept w ++ [seconds]) (logged w)).

(** [logger.info] of one of the kept records. *)
Definition log_info (r : LogRecord) : M unit :=
  modify (fun w => mkWorld (_client_options w) (bq_tables w) (catalog w)
                     (aspect_types w) (llm_calls w) (random_draws w) (slept w) (logged w ++ [r])).

(** One more call of the model has been made. *)
Definition count_llm_call : M nat :=
  fun w => (Return (llm_calls w),
            mkWorld (_client_options w) (bq_tables w) (catalog w)
              (aspect_types w) (S (llm_calls w)) (random_draws w) (slept w) (logged w)).

(** [client.create_aspect_type(request)]. *)
Definition create_aspect_type (resource_name : string) : M unit :=
  modify (fun w => mkWorld (_client_options w) (bq_tables w) (catalog w)
                     ({[resource_name]} ∪ aspect_types w) (llm_calls w)
                     (random_draws w) (slept w) (logged w)).

(** [client.get_aspect_type(request)] succeeds. *)
Definition aspect_type_exists (resource_name : string) : M bool :=
  fun w => (Return (bool_decide (resource_name ∈ aspect_types w)), w).

(** ** class Client *)

Section Client.
Context (c : Constants) (E : Env).

(** [except NotFound: raise NotFound(message=...)]; other errors pass. *)
Definition on_NotFound {A} (table_fqn : string) (e : exn) : M A :=
  if is_NotFound e
  then raise (NotFound ("Table " +:+ table_fqn +:+ " is not found."))
  else raise e.

Definition _table_exists (table_fqn : string) : M unit :=
  try_except (get_table table_fqn ;; ret tt) (on_NotFound table_fqn).

Definition flattened_schema (schema_fields : list SchemaField) : PyVal :=
  PList (map (fun field => PDict [("name", PStr (name field));
                                  ("type", PStr (field_type field))])
             schema_fields).

Definition _get_table_schema (table_fqn : string) : M (PyVal * list SchemaField) :=
  try_except
    (table ← get_table table_fqn;
     ret (flattened_schema (schema table), schema table))
    (on_NotFound table_fqn).

Definition _get_table_sample (table_fqn : string) (num_rows_to_sample : nat) : M string :=
  let query := "SELECT * FROM `" +:+ table_fqn +:+ "` LIMIT " +:+ pretty num_rows_to_sample in
  try_except (lift (query_sample E query))
    (fun e => if is_BadRequest e then ret "[]" else raise e).

Definition _get_table_scan_reference (table_fqn : string) : M (list string) :=
  data_scans ← lift (list_data_scans E
      ("projects/" +:+ _project_id E +:+ "/locations/" +:+ _dataplex_location E));
  bq_resource_string ← lift (_construct_bq_resource_string table_fqn);
  ret (map scan_name
         (filter (fun scan => String.eqb (scan_resource scan) bq_resource_string) data_scans)).

(** The jobs of one scan: the results of those that succeeded are appended. *)
Definition collect_job_results (jobs : list DataScanJob) (acc : list PyVal * list PyVal)
  : list PyVal * list PyVal :=
  fold_left
    (fun '(profiles, qualities) job =>
       if job_succeeded job then
         (match dataProfileResult job with Some r => profiles ++ [r] | None => profiles end,
          match dataQualityResult job with Some r => qualities ++ [r] | None => qualities end)
       else (profiles, qualities))
    jobs acc.

(** Returns the pair [(data_profile, data_quality)] of the dictionary. *)
Definition _get_table_profile_quality (use_enabled : bool) (table_fqn : string)
  : M (list PyVal * list PyVal) :=
  if use_enabled then
    table_scan_references ← _get_table_scan_reference table_fqn;
    for_fold table_scan_references ([], [])
      (fun acc table_scan_reference =>
         if String.eqb table_scan_reference "" then ret acc
         else jobs ← lift (list_data_scan_jobs E table_scan_reference);
              ret (collect_job_results jobs acc))
  else ret ([], []).

Definition _get_table_profile (use_enabled : bool) (table_fqn : string) : M (list PyVal) :=
  r ← _get_table_profile_quality use_enabled table_fqn; ret (fst r).

Definition _get_table_quality (use_enabled : bool) (table_fqn : string) : M (list PyVal) :=
  r ← _get_table_profile_quality use_enabled table_fqn; ret (snd r).

(** [d[key]] on an object that has to be a dictionary. *)
Definition item (key : string) (d : PyVal) : option PyVal :=
  match d with PDict items => dict_get key items | _ => None end.

(** [d.get(key, default)]. *)
Definition item_or (key : string) (default : PyVal) (d : PyVal) : option PyVal :=
  match d with
  | PDict items => Some (match dict_get key items with Some v => v | None => default end)
  | _ => None
  end.

(** [column_info.update({...})] with the keys of a numeric profile. *)
Definition numeric_profile (p : PyVal) : option (list (string * PyVal)) :=
  average ← item_or "average" PNone p;
  std_dev ← item_or "standardDeviation" PNone p;
  min ← item_or "min" PNone p;
  max ← item_or "max" PNone p;
  quartiles ← item_or "quartiles" PNone p;
  Some [("average", average); ("std_dev", std_dev); ("min", min); ("max", max);
        ("quartiles", quartiles)].

Definition string_profile (p : PyVal) : option (list (string * PyVal)) :=
  min_length ← item_or "minLength" PNone p;
  max_length ← item_or "maxLength" PNone p;
  avg_length ← item_or "averageLength" PNone p;
  Some [("min_length", min_length); ("max_length", max_length); ("avg_length", avg_length)].

(** The dictionary built for the matching field; [None] when a step raises. *)
Definition column_info_of (field : PyVal) : option PyVal :=
  fname ← item "name" field;
  ftype ← item "type" field;
  fmode ← item "mode" field;
  prof ← item "profile" field;
  null_ratio ← item_or "nullRatio" (PNum "0") prof;
  distinct_ratio ← item_or "distinctRatio" (PNum "0") prof;
  specific ← match item "integerProfile" prof, item "stringProfile" prof,
                   item "doubleProfile" prof with
             | Some p, _, _ => numeric_profile p
             | None, Some p, _ => string_profile p
             | None, None, Some p => numeric_profile p
             | None, None, None => Some []
             end;
  Some (PDict ([("name", fname); ("type", ftype); ("mode", fmode);
                ("null_ratio", null_ratio); ("distinct_ratio", distinct_ratio)]
               ++ specific
               ++ match item "topNValues" prof with
                  | Some top => [("top_values", top)]
                  | None => []
                  end)).

(** [for field in fields: if field['name'] == column_name: ... return]. *)
Fixpoint find_column_info (fields : list PyVal) (column_name : string) : PyVal :=
  match fields with
  | [] => PNone
  | field :: rest =>
      match item "name" field with
      | None => PNone
      | Some n =>
          if py_eqb n (PStr column_name)
          then match column_info_of field with Some info => info | None => PNone end
          else find_column_info rest column_name
      end
  end.

(** Every exception inside is answered by [None]. *)
Definition _extract_column_info_from_table_profile
    (profile : list PyVal) (column_name : string) : PyVal :=
  match profile with
  | [] => PNone
  | first :: _ =>
      match item "profile" first ≫= item "fields" with
      | Some (PList fields) => find_column_info fields column_name
      | _ => PNone
      end
  end.

(** [description[0:MAX_COLUMN_DESC_LENGTH]]: a slice of a sequence; [None]
    and the other objects are not subscriptable. *)
Definition slice_description (d : PyVal) : result PyVal :=
  match d with
  | PStr s => Return (PStr (slice_to (MAX_COLUMN_DESC_LENGTH c) s))
  | PList l => Return (PList (take (MAX_COLUMN_DESC_LENGTH c) l))
  | PTuple l => Return (PTuple (take (MAX_COLUMN_DESC_LENGTH c) l))
  | _ => Raise TypeError
  end.

Definition _get_updated_column (column : SchemaField) (column_description : PyVal)
  : result SchemaField :=
  match slice_description column_description with
  | Return d =>
      Return {| name := name column;
                field_type := field_type column;
                mode := mode column;
                default_value_expression := default_value_expression column;
                description := d;
                fields := fields column;
                policy_tags := policy_tags column;
                precision := precision column;
                scale := None;
                max_length := max_length column |}
  | Raise e => Raise e
  end.

Definition _get_dataset_location (table_fqn : string) : M string :=
  '(project_id, dataset_id, _) ← lift (_split_table_fqn table_fqn);
  location ← lift (get_dataset_location E (project_id +:+ "." +:+ dataset_id));
  ret (lower location).

Definition _get_table_description (table_fqn : string) : M (option string) :=
  table ← get_table table_fqn; ret (table_description table).

Definition _get_table_sources (table_fqn : string) : M (list string) :=
  let target := "bigquery:" +:+ table_fqn in
  location ← _get_dataset_location table_fqn;
  let target_dataset := lower location in
  link_results ← lift (search_links E
      ("projects/" +:+ _project_id E +:+ "/locations/" +:+ target_dataset) target);
  ret (map (fun link => replace "bigquery:" "" (link_source link))
         (filter (fun link => String.eqb (link_target link) target) link_results)).

Definition _get_table_sources_info (use_enabled : bool) (table_fqn : string)
  : M (list SourceInfo) :=
  if use_enabled then
    table_sources ← _get_table_sources table_fqn;
    table_sources_info ←
      for_fold table_sources []
        (fun info table_source =>
           sch ← _get_table_schema table_source;
           descr ← _get_table_description table_source;
           ret (info ++ [mkSourceInfo table_source sch descr]));
    (match table_sources_info with
     | [] => set_options disable_lineage_tables
     | _ => ret tt
     end) ;;
    ret table_sources_info
  else ret [].

Definition _bq_job_info (bq_job_id dataset_location : string) : M string :=
  lift (get_job E bq_job_id dataset_location).

(** The body of [_get_job_sources] once the links are known. *)
Definition job_sources_of_links (dataset_location : string) (links : list Link)
  : M (list string) :=
  match links with
  | _ :: _ =>
      lineage_processes_ids ← lift (batch_search_link_processes E
          ("projects/" +:+ _project_id E +:+ "/locations/" +:+ dataset_location)
          (map link_name links));
      bq_process_sql ←
        for_fold lineage_processes_ids []
          (fun sql process_id =>
             attributes ← lift (get_process E process_id);
             match attributes !! "bigquery_job_id" with
             | Some job_id =>
                 q ← _bq_job_info job_id dataset_location; ret (sql ++ [q])
             | None => ret sql
             end);
      (match bq_process_sql with
       | [] => set_options disable_lineage_processes
       | _ => ret tt
       end) ;;
      ret bq_process_sql
  | [] =>
      set_options disable_lineage_processes ;;
      ret []
  end.

(** Every exception ends in [return []]; a failed link search returns early. *)
Definition _get_job_sources (use_enabled : bool) (table_fqn : string) : M (list string) :=
  try_except
    (if use_enabled then
       dataset_location ← _get_dataset_location table_fqn;
       match search_links E
               ("projects/" +:+ _project_id E +:+ "/locations/" +:+ dataset_location)
               ("bigquery:" +:+ table_fqn) with
       | Raise _ => ret []
       | Return link_results => job_sources_of_links dataset_location link_results
       end
     else ret [])
    (fun _ => ret []).

Definition retries : nat := 3.
Definition base_delay : nat := 1.

(** The body of the [try] of one attempt, up to [return responses.text]. *)
Definition llm_attempt (prompt : string) (documentation_uri : option string) : M string :=
  o ← options;
  let model := if _use_ext_documents o then LLM_VISION_TYPE c else LLM_TYPE c in
  n ← count_llm_call;
  lift (generate_content E n model documentation_uri prompt).

(** [for attempt in range(retries+1)] over the attempts still to be made;
    a loop that ends without returning lets the method return [None]. *)
Fixpoint llm_attempts (attempts : list nat) (prompt : string)
    (documentation_uri : option string) : M (option string) :=
  match attempts with
  | [] => ret None
  | attempt :: rest =>
      try_except
        (text ← llm_attempt prompt documentation_uri; ret (Some text))
        (fun e =>
           if (attempt =? retries)%nat then raise e
           else sleep (base_delay * 2 ^ attempt) ;;
                llm_attempts rest prompt documentation_uri)
  end.

Definition _llm_inference (prompt : string) (documentation_uri : option string)
  : M (option string) :=
  llm_attempts (seq 0 (retries + 1)) prompt documentation_uri.

(** The setter of [table.description] takes a [str] or [None]. *)
Definition as_table_description (d : PyVal) : result (option string) :=
  match d with
  | PNone => Return None
  | PStr s => Return (Some s)
  | _ => Raise (ValueError PassAStringOrNone)
  end.

Definition _update_table_bq_description (table_fqn : string) (d : PyVal) : M unit :=
  table ← get_table table_fqn;
  d' ← lift (as_table_description d);
  update_table table_fqn (mkTable d' (schema table)).

Definition _update_table_schema (table_fqn : string) (new_schema : list SchemaField)
  : M unit :=
  table ← get_table table_fqn;
  update_table table_fqn (mkTable (table_description table) new_schema).

(** The name of the catalog entry of a table. *)
Definition entry_name_of (table_fqn : string) : M string :=
  '(project_id, dataset_id, table_id) ← lift (_split_table_fqn table_fqn);
  location ← _get_dataset_location table_fqn;
  ret ("projects/" +:+ project_id +:+ "/locations/" +:+ location
       +:+ "/entryGroups/@bigquery/entries/bigquery.googleapis.com/projects/"
       +:+ project_id +:+ "/datasets/" +:+ dataset_id +:+ "/tables/" +:+ table_id).

Definition draft_aspect_type : string :=
  "projects/" +:+ _project_id E +:+ "/locations/global/aspectTypes/"
  +:+ ASPECT_TEMPLATE_name c.

Definition overview_aspect_type : string :=
  "projects/dataplex-types/locations/global/aspectTypes/overview".

Definition _update_table_dataplex_description (table_fqn : string) (d : PyVal) : M bool :=
  let aspect := mkAspect overview_aspect_type "" {[ "content" := d ]} in
  let overview_path := "dataplex-types.global.overview" in
  entry_name ← entry_name_of table_fqn;
  try_except
    (update_entry entry_name overview_path aspect ;; ret true)
    (fun _ => ret false).

(** [new_aspect_content] of the draft methods. *)
Definition new_aspect_content (d : PyVal) : gmap string PyVal :=
  list_to_map
    [ ("certified", PStr "false");
      ("user-who-certified", PStr "John Doe");
      ("contents", d);
      ("generation-date", PStr "2023-06-15T10:00:00Z");
      ("to-be-regenerated", PStr "false");
      ("human-comments", PList []);
      ("negative-examples", PList []);
      ("external-document-uri", PStr "gs://example.com/document") ].

(** [new_aspect.data = old; new_aspect.data.update({...})]. *)
Definition refresh_draft (old : gmap string PyVal) (d : PyVal) : gmap string PyVal :=
  <["to-be-regenerated" := PStr "false"]>
    (<["generation-date" := PStr (now E)]>
       (<["contents" := d]> old)).

(** The loop over [entry.aspects] of [_update_table_draft_description]: every
    aspect at table scope whose key ends with the template name gives its
    data, refreshed, to the new aspect. *)
Definition merge_table_draft (entry : Entry) (d : PyVal) (new_data : gmap string PyVal)
  : gmap string PyVal :=
  fold_left
    (fun acc '(i, a) =>
       if endswith i ("global." +:+ ASPECT_TEMPLATE_name c) && String.eqb (path a) ""
       then refresh_draft (data a) d
       else acc)
    entry new_data.

Definition _update_table_draft_description (table_fqn : string) (d : PyVal) : M bool :=
  let aspect_name := _project_id E +:+ ".global." +:+ ASPECT_TEMPLATE_name c in
  entry_name ← entry_name_of table_fqn;
  entry ← get_entry entry_name [draft_aspect_type];
  let new_aspect :=
    mkAspect draft_aspect_type "" (merge_table_draft entry d (new_aspect_content d)) in
  try_except
    (update_entry entry_name aspect_name new_aspect ;; ret true)
    (fun _ => ret false).

(** The loop of [accept_table_draft_description]: [overview] stays unbound
    ([None] here) until an aspect of the template type has contents. *)
Definition find_table_overview (entry : Entry) : option PyVal :=
  fold_left
    (fun overview '(_, a) =>
       if endswith (aspect_type a) ("aspectTypes/" +:+ ASPECT_TEMPLATE_name c)
       then match data a !! "contents" with Some v => Some v | None => overview end
       else overview)
    entry None.

Definition accept_table_draft_description (table_fqn : string) : M unit :=
  entry_name ← entry_name_of table_fqn;
  entry ← get_entry entry_name [draft_aspect_type; overview_aspect_type];
  match find_table_overview entry with
  | None => raise UnboundLocalError
  | Some overview =>
      _update_table_dataplex_description table_fqn overview ;;
      _update_table_bq_description table_fqn overview
  end.

(** [except Exception as e: raise e(message=...)]: calling the exception
    instance is a [TypeError]. *)
Definition raise_called {A} (e : exn) : M A := raise TypeError.

Definition _update_column_bq_description (table_fqn column_name : string) (d : PyVal)
  : M unit :=
  try_except
    (_table_exists table_fqn ;;
     '(_, table_schema) ← _get_table_schema table_fqn;
     updated_schema ←
       for_fold table_schema []
         (fun updated column =>
            if String.eqb (name column) column_name
            then column' ← lift (_get_updated_column column d); ret (updated ++ [column'])
            else ret (updated ++ [column]));
     _update_table_schema table_fqn updated_schema)
    raise_called.

(** The loop of [accept_column_draft_description], from [overview = None]. *)
Definition find_column_overview (entry : Entry) (column_name : string) : PyVal :=
  fold_left
    (fun overview '(_, a) =>
       if endswith (aspect_type a) ("aspectTypes/" +:+ ASPECT_TEMPLATE_name c)
          && endswith (path a) ("Schema." +:+ column_name)
       then match data a !! "contents" with Some v => v | None => overview end
       else overview)
    entry PNone.

Definition accept_column_draft_description (table_fqn column_name : string) : M unit :=
  entry_name ← entry_name_of table_fqn;
  entry ← get_entry entry_name [draft_aspect_type];
  _update_column_bq_description table_fqn column_name
    (find_column_overview entry column_name).

Definition _create_aspect_type (aspect_type_id : string) : M unit :=
  create_aspect_type
    ("projects/" +:+ _project_id E +:+ "/locations/global/aspectTypes/" +:+ aspect_type_id).

(** The source ends inside the handler of [NotFound]; by the docstring the
    method returns [False] there. *)
Definition _check_if_exists_aspect_type (aspect_type_id : string) : M bool :=
  aspect_type_exists
    ("projects/" +:+ _project_id E +:+ "/locations/global/aspectTypes/" +:+ aspect_type_id).

(** [f"{AI_WARNING}{description}"] when the warning is asked for; a [None]
    description is formatted as the text [None]. *)
Definition with_ai_warning (o : ClientOptions) (d : option string) : PyVal :=
  if _add_ai_warning o
  then PStr (AI_WARNING c +:+ match d with Some s => s | None => "None" end)
  else match d with Some s => PStr s | None => PNone end.

(** [if documentation_uri == "": documentation_uri = None]. *)
Definition no_empty_uri (documentation_uri : option string) : option string :=
  match documentation_uri with
  | Some u => if String.eqb u "" then None else Some u
  | None => None
  end.

Definition generate_table_description (table_fqn : string)
    (documentation_uri : option string) (human_comments : PyVal) : M string :=
  log_info (GeneratingTable table_fqn) ;;
  _table_exists table_fqn ;;
  '(table_schema_str, _) ← _get_table_schema table_fqn;
  table_sample ← _get_table_sample table_fqn (NUM_ROWS_TO_SAMPLE c);
  o ← options;
  table_quality ← _get_table_quality (_use_data_quality o) table_fqn;
  o ← options;
  table_profile ← _get_table_profile (_use_profile o) table_fqn;
  o ← options;
  table_sources_info ← _get_table_sources_info (_use_lineage_tables o) table_fqn;
  o ← options;
  job_sources_info ← _get_job_sources (_use_lineage_processes o) table_fqn;
  let documentation_uri := no_empty_uri documentation_uri in
  o ← options;
  let table_description_prompt := get_promtp c PROMPT_TYPE_TABLE o in
  table_description_prompt_expanded ← lift (str_format E table_description_prompt
      (mkFormatArgs None table_fqn table_schema_str table_sample (PList table_profile)
         (PList table_quality) table_sources_info job_sources_info human_comments));
  text ← _llm_inference table_description_prompt_expanded documentation_uri;
  o ← options;
  let table_description := with_ai_warning o text in
  o ← options;
  (if negb (_stage_for_review o) then
     _update_table_bq_description table_fqn table_description ;;
     o ← options;
     if _persist_to_dataplex_catalog o
     then _update_table_dataplex_description table_fqn table_description ;; ret tt
     else ret tt
   else
     known ← _check_if_exists_aspect_type (ASPECT_TEMPLATE_name c);
     (if negb known then _create_aspect_type (ASPECT_TEMPLATE_name c) else ret tt) ;;
     _update_table_draft_description table_fqn table_description ;; ret tt) ;;
  ret "Table description generated successfully".

(** The body of the loop over the columns: one description per column. *)
Definition describe_column (table_fqn : string) (documentation_uri : option string)
    (human_comments : PyVal) (column_description_prompt : string)
    (table_schema_str : PyVal) (table_sample : string)
    (table_profile table_quality : list PyVal)
    (table_sources_info : list SourceInfo) (job_sources_info : list string)
    (updated_schema : list SchemaField) (column : SchemaField) : M (list SchemaField) :=
  let column_info := _extract_column_info_from_table_profile table_profile (name column) in
  column_description_prompt_expanded ← lift (str_format E column_description_prompt
      (mkFormatArgs (Some (name column)) table_fqn table_schema_str table_sample
         column_info (PList table_quality) table_sources_info job_sources_info
         human_comments));
  text ← _llm_inference column_description_prompt_expanded documentation_uri;
  o ← options;
  let column_description := with_ai_warning o text in
  column' ← lift (_get_updated_column column column_description);
  ret (updated_schema ++ [column']).

Definition generate_columns_descriptions (table_fqn : string)
    (documentation_uri : option string) (human_comments : PyVal) : M unit :=
  try_except
    (log_info (GeneratingColumns table_fqn) ;;
     _table_exists table_fqn ;;
     '(table_schema_str, table_schema) ← _get_table_schema table_fqn;
     table_sample ← _get_table_sample table_fqn (NUM_ROWS_TO_SAMPLE c);
     o ← options;
     table_quality ← _get_table_quality (_use_data_quality o) table_fqn;
     o ← options;
     table_profile ← _get_table_profile (_use_profile o) table_fqn;
     o ← options;
     table_sources_info ← _get_table_sources_info (_use_lineage_tables o) table_fqn;
     o ← options;
     job_sources_info ← _get_job_sources (_use_lineage_processes o) table_fqn;
     let documentation_uri := no_empty_uri documentation_uri in
     o ← options;
     let column_description_prompt := get_promtp c PROMPT_TYPE_COLUMN o in
     updated_schema ←
       for_fold table_schema []
         (describe_column table_fqn documentation_uri human_comments
            column_description_prompt table_schema_str table_sample
            table_profile table_quality table_sources_info job_sources_info);
     _update_table_schema table_fqn updated_schema)
    raise_called.

(** One line of the CSV file: [(line.split(",")[0], line.split(",")[1].strip())]. *)
Definition parse_mapping_line (line : string) : result (string * string) :=
  match split ","%char line with
  | table :: doc :: _ => Return (table, strip doc)
  | _ => Raise IndexError
  end.

Fixpoint parse_mapping_lines (lines : list string) : result (list (string * string)) :=
  match lines with
  | [] => Return []
  | line :: rest =>
      match parse_mapping_line line with
      | Raise e => Raise e
      | Return t =>
          match parse_mapping_lines rest with
          | Raise e => Raise e
          | Return ts => Return (t :: ts)
          end
      end
  end.

(** The URI is split with [split("/", 3)[2:]] into a bucket and a blob name;
    [None] has no [split]. *)
Definition _get_tables_from_uri (documentation_csv_uri : option string)
  : M (list (string * string)) :=
  try_except
    (match documentation_csv_uri with
     | None => raise AttributeError
     | Some uri =>
         match drop 2 (split_max "/"%char 3 uri) with
         | [bucket_name; blob_name] =>
             csv_data ← lift (download_as_text E bucket_name blob_name);
             let lines := split "010"%char csv_data in
             let lines := filter (fun line => negb (String.eqb (strip line) "")) lines in
             lift (parse_mapping_lines lines)
         | _ => raise (ValueError UnpackMismatch)
         end
     end)
    (fun e => raise e).

(** [x[i], x[j] = x[j], x[i]]. *)
Definition swap (i j : nat) (x : list string) : list string :=
  match x !! i, x !! j with
  | Some a, Some b => <[j := a]> (<[i := b]> x)
  | _, _ => x
  end.

(** [random.shuffle(x)]: for [i] from [len(x) - 1] down to [1], exchange
    [x[i]] with [x[j]] for a [j] drawn below [i + 1]; [n] counts the draws. *)
Fixpoint shuffle_from (n i : nat) (x : list string) : list string :=
  match i with
  | O => x
  | S i' => shuffle_from (S n) i' (swap i (randbelow E n (S i) `mod` S i) x)
  end.

Definition shuffle (x : list string) : M (list string) :=
  fun w => (Return (shuffle_from (random_draws w) (length x - 1) x),
            mkWorld (_client_options w) (bq_tables w) (catalog w) (aspect_types w)
              (llm_calls w) (random_draws w + (length x - 1)) (slept w) (logged w)).

Definition _order_tables_to_strategy (tables : list string) (strategy : Z)
  : M (list string) :=
  if (strategy =? STRATEGY_NAIVE c)%Z then ret tables
  else if (strategy =? STRATEGY_RANDOM c)%Z then shuffle tables
  else if (strategy =? STRATEGY_ALPHABETICAL c)%Z then ret (merge_sort String.le tables)
  else ret tables.

Definition _list_tables_in_dataset (dataset_fqn : string) : M (list string) :=
  '(project_id, dataset_id) ← lift (_split_dataset_fqn dataset_fqn);
  tables ← lift (list_tables E project_id dataset_id);
  ret (map (replace ":" ".") tables).

(** [constants["GENERATION_STRATEGY"][strategy]], if the key is there. *)
Definition strategy_code (strategy : string) : option Z :=
  snd <$> find (fun kv => String.eqb (fst kv) strategy) (GENERATION_STRATEGY c).

Definition generate_dataset_tables_descriptions (dataset_fqn strategy : string)
    (documentation_csv_uri : option string) : M unit :=
  try_except
    (match strategy_code strategy with
     | None => raise (ValueError (InvalidStrategy strategy))
     | Some int_strategy =>
         (if bool_decide (int_strategy ∈ (GENERATION_STRATEGY c).*2) then ret tt
          else raise (ValueError (InvalidStrategy strategy))) ;;
         (if (int_strategy =? STRATEGY_DOCUMENTED c)%Z then
            match documentation_csv_uri with
            | None => raise (ValueError DocumentationURIRequired)
            | Some _ => ret tt
            end
          else ret tt) ;;
         tables ← _list_tables_in_dataset dataset_fqn;
         (if (int_strategy =? STRATEGY_DOCUMENTED c)%Z then
            tables_from_uri ← _get_tables_from_uri documentation_csv_uri;
            for_each tables_from_uri
              (fun table =>
                 if py_not_in (PStr (fst table)) (str_list tables)
                 then raise (ValueError (TableNotInDataset (pair_tuple table) dataset_fqn))
                 else generate_table_description (fst table) (Some (snd table)) PNone ;;
                      ret tt)
          else ret tt) ;;
         (if (int_strategy =? STRATEGY_DOCUMENTED_THEN_REST c)%Z then
            tables_from_uri ← _get_tables_from_uri documentation_csv_uri;
            for_each tables_from_uri
              (fun table =>
                 if py_not_in (pair_tuple table) (str_list tables)
                 then raise (ValueError (TableNotInDataset (pair_tuple table) dataset_fqn))
                 else generate_table_description (fst table) (Some (snd table)) PNone ;;
                      ret tt) ;;
            let tables_from_uri_first_elements := map fst tables_from_uri in
            for_each tables
              (fun table =>
                 if py_not_in (PStr table) (str_list tables_from_uri_first_elements)
                 then generate_table_description table None PNone ;; ret tt
                 else ret tt)
          else ret tt) ;;
         (if bool_decide (int_strategy ∈ [STRATEGY_NAIVE c; STRATEGY_RANDOM c;
                                          STRATEGY_ALPHABETICAL c]) then
            tables_sorted ← _order_tables_to_strategy tables int_strategy;
            for_each tables_sorted
              (fun table => generate_table_description table None PNone ;; ret tt)
          else ret tt)
     end)
    (fun e => raise e).

End Client.

(** ** The prompt as a sequence of fragments *)

(** The text of a sequence of fragments. *)
Definition join (fragments : list string) : string := foldr String.append "" fragments.

Definition when (cond : bool) (fragment : string) : list string :=
  if cond then [fragment] else [].

Definition is_table (t : PromtType) : bool :=
  match t with PROMPT_TYPE_TABLE => true | PROMPT_TYPE_COLUMN => false end.

Definition base_instruction (c : Constants) (t : PromtType) : string :=
  match t with
  | PROMPT_TYPE_TABLE => TABLE_DESCRIPTION_PROMPT_BASE c
  | PROMPT_TYPE_COLUMN => COLUMN_DESCRIPTION_PROMPT_BASE c
  end.

(** The order of the design document, read literally: the generation-base
    clause is listed for both kinds. *)
Definition documented_fragments (c : Constants) (t : PromtType) (o : ClientOptions)
  : list string :=
  [SYSTEM_PROMPT c; base_instruction c t]
  ++ when (_use_profile o) (TABLE_DESCRIPTION_PROMPT_PROFILE c)
  ++ when (_use_data_quality o) (TABLE_DESCRIPTION_PROMPT_QUALITY c)
  ++ when (_use_lineage_tables o) (TABLE_DESCRIPTION_PROMPT_LINEAGE_TABLES c)
  ++ when (_use_lineage_processes o) (TABLE_DESCRIPTION_PROMPT_LINEAGE_PROCESSES c)
  ++ when (is_table t && _use_ext_documents o) (TABLE_DESCRIPTION_PROMPT_DOCUMENT c)
  ++ [TABLE_DESCRIPTION_GENERATION_BASE c]
  ++ when (is_table t && (_use_lineage_tables o || _use_lineage_processes o))
       (TABLE_DESCRIPTION_GENERATION_LINEAGE c)
  ++ [OUTPUT_FORMAT_PROMPT c].

(** The same order with the generation-base clause for tables only. *)
Definition prompt_fragments (c : Constants) (t : PromtType) (o : ClientOptions)
  : list string :=
  [SYSTEM_PROMPT c; base_instruction c t]
  ++ when (_use_profile o) (TABLE_DESCRIPTION_PROMPT_PROFILE c)
  ++ when (_use_data_quality o) (TABLE_DESCRIPTION_PROMPT_QUALITY c)
  ++ when (_use_lineage_tables o) (TABLE_DESCRIPTION_PROMPT_LINEAGE_TABLES c)
  ++ when (_use_lineage_processes o) (TABLE_DESCRIPTION_PROMPT_LINEAGE_PROCESSES c)
  ++ when (is_table t && _use_ext_documents o) (TABLE_DESCRIPTION_PROMPT_DOCUMENT c)
  ++ when (is_table t) (TABLE_DESCRIPTION_GENERATION_BASE c)
  ++ when (is_table t && (_use_lineage_tables o || _use_lineage_processes o))
       (TABLE_DESCRIPTION_GENERATION_LINEAGE c)
  ++ [OUTPUT_FORMAT_PROMPT c].

(** ** A sample configuration

    Values for the constants and for the services, used to run the methods
    on concrete inputs.  The prompt fragments are tagged by their names. *)

Definition sample_constants : Constants :=
  {| SYSTEM_PROMPT := "<SYSTEM_PROMPT>";
     TABLE_DESCRIPTION_PROMPT_BASE := "<TABLE_DESCRIPTION_PROMPT_BASE>";
     TABLE_DESCRIPTION_PROMPT_PROFILE := "<TABLE_DESCRIPTION_PROMPT_PROFILE>";
     TABLE_DESCRIPTION_PROMPT_QUALITY := "<TABLE_DESCRIPTION_PROMPT_QUALITY>";
     TABLE_DESCRIPTION_PROMPT_LINEAGE_TABLES := "<TABLE_DESCRIPTION_PROMPT_LINEAGE_TABLES>";
     TABLE_DESCRIPTION_PROMPT_LINEAGE_PROCESSES :=
       "<TABLE_DESCRIPTION_PROMPT_LINEAGE_PROCESSES>";
     TABLE_DESCRIPTION_PROMPT_DOCUMENT := "<TABLE_DESCRIPTION_PROMPT_DOCUMENT>";
     TABLE_DESCRIPTION_GENERATION_BASE := "<TABLE_DESCRIPTION_GENERATION_BASE>";
     TABLE_DESCRIPTION_GENERATION_LINEAGE := "<TABLE_DESCRIPTION_GENERATION_LINEAGE>";
     COLUMN_DESCRIPTION_PROMPT_BASE := "<COLUMN_DESCRIPTION_PROMPT_BASE>";
     OUTPUT_FORMAT_PROMPT := "<OUTPUT_FORMAT_PROMPT>";
     AI_WARNING := "[AI generated] ";
     NUM_ROWS_TO_SAMPLE := 5;
     MAX_COLUMN_DESC_LENGTH := 16;
     PDF_MIME_TYPE := "application/pdf";
     LLM_TYPE := "text-model";
     LLM_VISION_TYPE := "vision-model";
     ASPECT_TEMPLATE_name := "draft-description";
     STRATEGY_NAIVE := 1;
     STRATEGY_DOCUMENTED := 2;
     STRATEGY_DOCUMENTED_THEN_REST := 3;
     STRATEGY_RANDOM := 4;
     STRATEGY_ALPHABETICAL := 5 |}.

(** The services of the sample: project [p] with the dataset [p.d] in the
    US, three listed tables, a mapping file that names [p.d.a] and a table
    [p.d.zzz] that is not in the dataset, no scans and no lineage.  The model
    answers from [outcomes], by the number of the call. *)
Definition sample_env (outcomes : nat -> result string) : Env :=
  {| _project_id := "p";
     _dataplex_location := "us-central1";
     llm_location := "us-central1";
     now := "2024-06-01T12:00:00Z";
     str_format := fun template args => Return (template +:+ " " +:+ kw_table_fqn args);
     generate_content := fun n _ _ _ => outcomes n;
     randbelow := fun n k => n;
     query_sample := fun _ => Return "{}";
     get_dataset_location := fun dataset =>
       if String.eqb dataset "p.d" then Return "US"
       else Raise (NotFound ("Not found: Dataset " +:+ dataset));
     list_tables := fun _ _ => Return ["p:d.c"; "p:d.a"; "p:d.b"];
     download_as_text := fun _ _ =>
       Return ("p.d.a,gs://docs/a.pdf" +:+ String "010"%char "p.d.zzz, gs://docs/z.pdf ");
     list_data_scans := fun _ => Return [];
     list_data_scan_jobs := fun _ => Return [];
     search_links := fun _ _ => Return [];
     batch_search_link_processes := fun _ _ => Return [];
     get_process := fun _ => Return ∅;
     get_job := fun _ _ => Return "" |}.

(** A model that always answers. *)
Definition answering (n : nat) : result string := Return ("description " +:+ pretty n).

(** A model that fails its first [k] calls. *)
Definition failing_first (k n : nat) : result string :=
  if (n <? k)%nat then Raise (ServiceError ("unavailable " +:+ pretty n)) else answering n.

Definition sample_column (column_name type : string) (sc : option Z) : SchemaField :=
  {| name := column_name; field_type := type; mode := "NULLABLE";
     default_value_expression := None; description := PNone; fields := [];
     policy_tags := Some ["projects/p/taxonomies/1/policyTags/2"];
     precision := None; scale := sc; max_length := None |}.

Definition sample_draft (scope contents : string) : Aspect :=
  {| aspect_type := "projects/p/locations/global/aspectTypes/draft-description";
     path := scope;
     data := list_to_map
       [ ("certified", PStr "false");
         ("contents", PStr contents);
         ("generation-date", PStr "2024-01-01T00:00:00Z");
         ("to-be-regenerated", PStr "true");
         ("human-comments", PList [PStr "mention the currency"]);
         ("negative-examples", PList [PStr "too vague"]) ] |}.

Definition sample_entry_name (table_id : string) : string :=
  "projects/p/locations/us/entryGroups/@bigquery/entries/bigquery.googleapis.com/projects/p/datasets/d/tables/"
  +:+ table_id.

(** Table [p.d.a] has a draft of its own and one for its column [name];
    table [p.d.b] has a draft of its own only. *)
Definition sample_world (o : ClientOptions) : World :=
  {| _client_options := o;
     bq_tables :=
       {[ "p.d.a" := mkTable None [ sample_column "id" "INTEGER" None;
                                    sample_column "name" "STRING" None;
                                    sample_column "amount" "NUMERIC" (Some 2%Z) ];
          "p.d.b" := mkTable (Some "old") [ sample_column "id" "INTEGER" None ] ]};
     catalog :=
       {[ sample_entry_name "a" :=
            [ ("p.global.draft-description", sample_draft "" "Orders of the shop");
              ("p.global.draft-description@Schema.name",
               sample_draft "Schema.name" "Name of the customer who placed the order") ];
          sample_entry_name "b" :=
            [ ("p.global.draft-description", sample_draft "" "Customers of the shop") ] ]};
     aspect_types := {[ "projects/p/locations/global/aspectTypes/draft-description" ]};
     llm_calls := 0;
     random_draws := 0;
     slept := [];
     logged := [] |}.

(** The options of the sample: the defaults, with the lineage of tables on. *)
Definition sample_options : ClientOptions :=
  {| _use_lineage_tables := true; _use_lineage_processes := false;
     _use_profile := false; _use_data_quality := false;
     _use_ext_documents := false; _persist_to_dataplex_catalog := true;
     _stage_for_review := false; _add_ai_warning := true |}.

(** ** The outcomes of the attempts of one inference *)

(** The model that a world selects. *)
Definition model_of (c : Constants) (w : World) : string :=
  if _use_ext_documents (_client_options w) then LLM_VISION_TYPE c else LLM_TYPE c.

(** The outcome of the [i]-th attempt of an inference that starts in [w]. *)
Definition attempt_outcome (c : Constants) (E : Env) (prompt : string)
    (documentation_uri : option string) (w : World) (i : nat) : result string :=
  generate_content E (llm_calls w + i) (model_of c w) documentation_uri prompt.

(** The world after [calls] more model calls and the given sleeps. *)
Definition after_attempts (w : World) (calls : nat) (sleeps : list nat) : World :=
  mkWorld (_client_options w) (bq_tables w) (catalog w) (aspect_types w)
    (llm_calls w + calls) (random_draws w) (slept w ++ sleeps) (logged w).

(** ** The schema after the update of one column *)

(** What the loop of [_update_column_bq_description] appends for a column,
    when the description can be sliced. *)
Definition rewrite_column (c : Constants) (column_name : string) (d : PyVal)
    (column : SchemaField) : SchemaField :=
  if String.eqb (name column) column_name then
    match _get_updated_column c column d with
    | Return column' => column'
    | Raise _ => column
    end
  else column.

(** The world once the schema of a table is written. *)
Definition with_schema (w : World) (table_fqn : string) (t : Table)
    (new_schema : list SchemaField) : World :=
  mkWorld (_client_options w)
    (<[table_fqn := mkTable (table_description t) new_schema]> (bq_tables w))
    (catalog w) (aspect_types w) (llm_calls w) (random_draws w) (slept w) (logged w).

(** ** What a method may change *)

(** Every run of [m] relates the world it starts in to the one it ends in. *)
Definition preserves {A} (R : relation World) (m : M A) : Prop :=
  forall w r w', m w = (r, w') -> R w w'.

(** The options after a call: every flag as it was, but for the two lineage
    flags, which may have been switched off. *)
Definition lineage_switched_off (o o' : ClientOptions) : Prop :=
  _use_profile o' = _use_profile o
  /\ _use_data_quality o' = _use_data_quality o
  /\ _use_ext_documents o' = _use_ext_documents o
  /\ _persist_to_dataplex_catalog o' = _persist_to_dataplex_catalog o
  /\ _stage_for_review o' = _stage_for_review o
  /\ _add_ai_warning o' = _add_ai_warning o
  /\ (_use_lineage_tables o' = true -> _use_lineage_tables o = true)
  /\ (_use_lineage_processes o' = true -> _use_lineage_processes o = true).

Definition options_frame : relation World :=
  fun w w' => lineage_switched_off (_client_options w) (_client_options w').

Definition same_log : relation World := fun w w' => logged w' = logged w.

(** ** The generations of a batch *)

(** The generation the loops over the mapping make for one entry. *)
Definition generate_mapped (c : Constants) (E : Env) (table : string * string) : M unit :=
  generate_table_description c E (fst table) (Some (snd table)) PNone ;; ret tt.

(** The batch of the sample with the DOCUMENTED strategy and the mapping file. *)
Definition sample_documented_batch : result unit * World :=
  generate_dataset_tables_descriptions sample_constants (sample_env answering)
    "p.d" "DOCUMENTED" (Some "gs://docs/mapping.csv") (sample_world sample_options).

(** ** The catalog entry of a table and its staging aspect *)

(** The entry name that [entry_name_of] builds from the parts of the name
    and the location of the dataset. *)
Definition entry_name_for (project_id dataset_id table_id location : string) : string :=
  "projects/" +:+ project_id +:+ "/locations/" +:+ lower location
  +:+ "/entryGroups/@bigquery/entries/bigquery.googleapis.com/projects/"
  +:+ project_id +:+ "/datasets/" +:+ dataset_id +:+ "/tables/" +:+ table_id.

(** The key under which the draft of a table is stored. *)
Definition draft_key (c : Constants) (E : Env) : string :=
  _project_id E +:+ ".global." +:+ ASPECT_TEMPLATE_name c.

(** The world once an aspect of an entry is written. *)
Definition with_aspect (w : World) (entry_name key : string) (a : Aspect) (entry : Entry)
  : World :=
  mkWorld (_client_options w) (bq_tables w)
    (<[entry_name := set_aspect key a entry]> (catalog w))
    (aspect_types w) (llm_calls w) (random_draws w) (slept w) (logged w).

(** The test of the loop of [_update_table_draft_description]. *)
Definition is_table_draft (c : Constants) (ka : string * Aspect) : bool :=
  endswith (fst ka) ("global." +:+ ASPECT_TEMPLATE_name c) && String.eqb (path (snd ka)) "".

(** The world once the description of a table is written. *)
Definition with_description (w : World) (table_fqn : string) (t : Table)
    (d : option string) : World :=
  mkWorld (_client_options w) (<[table_fqn := mkTable d (schema t)]> (bq_tables w))
    (catalog w) (aspect_types w) (llm_calls w) (random_draws w) (slept w) (logged w).

(** The overview aspect that [_update_table_dataplex_description] writes. *)
Definition overview_aspect (d : PyVal) : Aspect :=
  mkAspect overview_aspect_type "" {[ "content" := d ]}.

(** ** Further methods of the client, and the notions of their properties *)

(** [x not in s] for a character. *)
Definition no_char (x : ascii) (s : string) : bool :=
  forallb (fun a => negb (Ascii.eqb a x)) (chars s).

(** A component of a name: not empty and without a dot. *)
Definition is_component (s : string) : bool :=
  negb (String.eqb s "") && no_char "." s.

(** What may follow a name that was matched: nothing, or a dot and more. *)
Definition is_tail (s : string) : bool :=
  match s with
  | EmptyString => true
  | String a _ => is_dot a
  end.

(** A name with every colon turned into a dot. *)
Definition dotted (s : string) : string :=
  str (map (fun a => if Ascii.eqb a ":"%char then "."%char else a) (chars s)).

(** The resource string of the docstring of [_construct_bq_resource_string]. *)
Definition bq_resource (project_id dataset_id table_id : string) : string :=
  "//bigquery.googleapis.com/projects/" +:+ project_id +:+ "/datasets/" +:+ dataset_id
  +:+ "/tables/" +:+ table_id.

(** A line of the mapping file: a table and its document, or nothing. *)
Definition mapping_line (l : option (string * string)) : string :=
  match l with
  | Some (table, doc) => table +:+ "," +:+ doc
  | None => ""
  end.

(** The text of a file made of the given lines. *)
Fixpoint unlines (lines : list string) : string :=
  match lines with
  | [] => ""
  | line :: rest =>
      match rest with
      | [] => line
      | _ :: _ => line +:+ String "010"%char (unlines rest)
      end
  end.

(** The pairs that the lines of a mapping file stand for. *)
Definition mapping_of (lines : list (option (string * string))) : list (string * string) :=
  omap (fun l => match l with
                 | Some (table, doc) => Some (table, strip doc)
                 | None => None
                 end) lines.

(** The number of occurrences of a character. *)
Fixpoint count_char (x : ascii) (s : string) : nat :=
  match s with
  | EmptyString => 0
  | String a s' => (if Ascii.eqb a x then 1 else 0) + count_char x s'
  end.

(** A URI of a blob in a bucket. *)
Definition blob_uri (scheme bucket blob : string) : string :=
  scheme +:+ "//" +:+ bucket +:+ "/" +:+ blob.

(** A list of characters without the separator. *)
Definition sep_free (sep : ascii) (l : list ascii) : bool :=
  forallb (fun a => negb (Ascii.eqb a sep)) l.

(** The world with [n] more random draws made. *)
Definition after_draws (w : World) (n : nat) : World :=
  mkWorld (_client_options w) (bq_tables w) (catalog w) (aspect_types w)
    (llm_calls w) (random_draws w + n) (slept w) (logged w).

(** The test of the loop of [accept_table_draft_description]. *)
Definition is_staging_aspect (c : Constants) (a : Aspect) : bool :=
  endswith (aspect_type a) ("aspectTypes/" +:+ ASPECT_TEMPLATE_name c).

(** The test of the loop of [accept_column_draft_description]. *)
Definition is_column_draft (c : Constants) (column_name : string) (a : Aspect) : bool :=
  is_staging_aspect c a && endswith (path a) ("Schema." +:+ column_name).

(** What the gathering of the context of a generation may change: the two
    lineage flags, switched off, and the traces of calls, sleeps and log
    records; the warehouse and the catalog are as they were. *)
Definition gathers : relation World :=
  fun w w' =>
    lineage_switched_off (_client_options w) (_client_options w')
    /\ bq_tables w' = bq_tables w
    /\ catalog w' = catalog w
    /\ aspect_types w' = aspect_types w.

(** The same, with at most [n] calls of the model made. *)
Definition within (n : nat) : relation World :=
  fun w w' => gathers w w' /\ (llm_calls w <= llm_calls w' <= llm_calls w + n)%nat.

(** The end of [generate_table_description], from [# Update table] on: the
    description goes to the warehouse and, if asked, to the catalog, or it is
    staged as a draft. *)
Definition publish (c : Constants) (E : Env) (table_fqn : string) (d : PyVal) : M unit :=
  o ← options;
  if negb (_stage_for_review o) then
    _update_table_bq_description table_fqn d ;;
    o ← options;
    if _persist_to_dataplex_catalog o
    then _update_table_dataplex_description E table_fqn d ;; ret tt
    else ret tt
  else
    known ← _check_if_exists_aspect_type E (ASPECT_TEMPLATE_name c);
    (if negb known then _create_aspect_type E (ASPECT_TEMPLATE_name c) else ret tt) ;;
    _update_table_draft_description c E table_fqn d ;; ret tt.

(** A text that the model gave as the answer of one of its calls. *)
Definition is_answer (E : Env) (text : string) : Prop :=
  exists n model document prompt, generate_content E n model document prompt = Return text.

(** The description that is published for an answer of the model. *)
Definition published (c : Constants) (o : ClientOptions) (text : string) : string :=
  if _add_ai_warning o then AI_WARNING c +:+ text else text.

(** The options of the sample for a generation that is staged for review. *)
Definition staged_options : ClientOptions :=
  {| _use_lineage_tables := false; _use_lineage_processes := false;
     _use_profile := false; _use_data_quality := false;
     _use_ext_documents := false; _persist_to_dataplex_catalog := true;
     _stage_for_review := true; _add_ai_warning := true |}.

(** The options of the sample for a generation that writes to the warehouse
    only. *)
Definition warehouse_options : ClientOptions :=
  {| _use_lineage_tables := false; _use_lineage_processes := false;
     _use_profile := false; _use_data_quality := false;
     _use_ext_documents := false; _persist_to_dataplex_catalog := false;
     _stage_for_review := false; _add_ai_warning := false |}.

(** The number of columns of a table of the warehouse; none if it is not there. *)
Definition columns_of (w : World) (table_fqn : string) : nat :=
  match bq_tables w !! table_fqn with
  | Some t => length (schema t)
  | None => 0
  end.

(** A column as [generate_columns_descriptions] rewrites it: the descriptor
    built from it and from an answer of the model. *)
Definition described (c : Constants) (E : Env) (o : ClientOptions)
    (column column' : SchemaField) : Prop :=
  exists text,
    is_answer E text
    /\ _get_updated_column c column (PStr (published c o text)) = Return column'.

(** The calls of the model made so far are the same. *)
Definition same_calls : relation World := fun w w' => llm_calls w' = llm_calls w.

(** [generate_dataset_tables_columns_descriptions]: the batch over the tables
    of a dataset that generates, table by table, the description of the table
    and then those of its columns.  The messages of its validation errors
    name the table, [table[0]], where the batch over the tables alone gives
    the whole pair. *)
Definition generate_dataset_tables_columns_descriptions (c : Constants) (E : Env)
    (dataset_fqn strategy : string) (documentation_csv_uri : option string) : M unit :=
  try_except
    (match strategy_code c strategy with
     | None => raise (ValueError (InvalidStrategy strategy))
     | Some int_strategy =>
         (if bool_decide (int_strategy ∈ (GENERATION_STRATEGY c).*2) then ret tt
          else raise (ValueError (InvalidStrategy strategy))) ;;
         (if (int_strategy =? STRATEGY_DOCUMENTED c)%Z then
            match documentation_csv_uri with
            | None => raise (ValueError DocumentationURIRequired)
            | Some _ => ret tt
            end
          else ret tt) ;;
         tables ← _list_tables_in_dataset E dataset_fqn;
         (if (int_strategy =? STRATEGY_DOCUMENTED c)%Z then
            tables_from_uri ← _get_tables_from_uri E documentation_csv_uri;
            for_each tables_from_uri
              (fun table =>
                 if py_not_in (PStr (fst table)) (str_list tables)
                 then raise (ValueError (TableNotInDataset (PStr (fst table)) dataset_fqn))
                 else generate_table_description c E (fst table) (Some (snd table)) PNone ;;
                      generate_columns_descriptions c E (fst table) (Some (snd table)) PNone)
          else ret tt) ;;
         (if (int_strategy =? STRATEGY_DOCUMENTED_THEN_REST c)%Z then
            tables_from_uri ← _get_tables_from_uri E documentation_csv_uri;
            for_each tables_from_uri
              (fun table =>
                 if py_not_in (pair_tuple table) (str_list tables)
                 then raise (ValueError (TableNotInDataset (PStr (fst table)) dataset_fqn))
                 else generate_table_description c E (fst table) (Some (snd table)) PNone ;;
                      generate_columns_descriptions c E (fst table) (Some (snd table)) PNone) ;;
            let tables_from_uri_first_elements := map fst tables_from_uri in
            for_each tables
              (fun table =>
                 if py_not_in (PStr table) (str_list tables_from_uri_first_elements)
                 then generate_table_description c E table None PNone ;;
                      generate_columns_descriptions c E table None PNone
                 else ret tt)
          else ret tt) ;;
         (if bool_decide (int_strategy ∈ [STRATEGY_NAIVE c; STRATEGY_RANDOM c;
                                          STRATEGY_ALPHABETICAL c]) then
            tables_sorted ← _order_tables_to_strategy c E tables int_strategy;
            for_each tables_sorted
              (fun table => generate_table_description c E table None PNone ;;
                            generate_columns_descriptions c E table None PNone)
          else ret tt)
     end)
    (fun e => raise e).

(** The names of the strategies. *)
Definition strategy_names : list string :=
  ["NAIVE"; "DOCUMENTED"; "DOCUMENTED_THEN_REST"; "RANDOM"; "ALPHABETICAL"].

(** The strategies that only order the tables of the dataset. *)
Definition ordering_strategies (c : Constants) : list (string * Z) :=
  [("NAIVE", STRATEGY_NAIVE c); ("RANDOM", STRATEGY_RANDOM c);
   ("ALPHABETICAL", STRATEGY_ALPHABETICAL c)].

(** The log records of the generations of a table and of its columns. *)
Definition table_and_columns (table : string) : list LogRecord :=
  [GeneratingTable table; GeneratingColumns table].

(** The services of the sample with another mapping file. *)
Definition sample_env_with_file (text : string) : Env :=
  {| _project_id := "p";
     _dataplex_location := "us-central1";
     llm_location := "us-central1";
     now := "2024-06-01T12:00:00Z";
     str_format := fun template args => Return (template +:+ " " +:+ kw_table_fqn args);
     generate_content := fun n _ _ _ => answering n;
     randbelow := fun n k => n;
     query_sample := fun _ => Return "{}";
     get_dataset_location := fun _ => Return "US";
     list_tables := fun _ _ => Return ["p:d.c"; "p:d.a"; "p:d.b"];
     download_as_text := fun _ _ => Return text;
     list_data_scans := fun _ => Return [];
     list_data_scan_jobs := fun _ => Return [];
     search_links := fun _ _ => Return [];
     batch_search_link_processes := fun _ _ => Return [];
     get_process := fun _ => Return ∅;
     get_job := fun _ _ => Return "" |}.

(** The batch of the sample with the DOCUMENTED strategy and a mapping file
    that names two tables of the dataset. *)
Definition sample_mapped_batch : result unit * World :=
  generate_dataset_tables_descriptions sample_constants
    (sample_env_with_file (unlines ["p.d.a,gs://docs/a.pdf"; "p.d.b,gs://docs/b.pdf"; ""]))
    "p.d" "DOCUMENTED" (Some "gs://docs/mapping.csv") (sample_world warehouse_options).

(** [list(v)]: the elements that iterating over a Python object gives; the
    characters of a string, the keys of a dictionary; [None], numbers and
    booleans are not iterable. *)
Definition py_iter (v : PyVal) : result (list PyVal) :=
  match v with
  | PList l => Return l
  | PTuple l => Return l
  | PStr s => Return (map (fun a => PStr (String a EmptyString)) (chars s))
  | PDict items => Return (map (fun kv => PStr (fst kv)) items)
  | _ => Raise TypeError
  end.

(** The loop of [regenerate_table_description] over [entry.aspects]:
    [comments.extend(aspect.data["human-comments"])] for every staging aspect
    at table scope. *)
Definition collect_comments (c : Constants) (entry : Entry) : result (list PyVal) :=
  fold_left
    (fun acc '(_, a) =>
       match acc with
       | Raise e => Raise e
       | Return comments =>
           if endswith (aspect_type a) ("aspectTypes/" +:+ ASPECT_TEMPLATE_name c)
              && String.eqb (path a) ""
           then match data a !! "human-comments" with
                | Some v =>
                    match py_iter v with
                    | Return l => Return (comments ++ l)
                    | Raise e => Raise e
                    end
                | None => Return comments
                end
           else Return comments
       end)
    entry (Return []).

(** [regenerate_table_description]: the human comments of the draft of the
    table are read from the catalog and given to a new generation. *)
Definition regenerate_table_description (c : Constants) (E : Env) (table_fqn : string)
  : M unit :=
  entry_name ← entry_name_of E table_fqn;
  entry ← try_except (get_entry entry_name [draft_aspect_type c E]) (fun e => raise e);
  comments ← lift (collect_comments c entry);
  generate_table_description c E table_fqn None (PList comments) ;;
  ret tt.

(** The comments of the drafts at table scope of an entry, when they are
    lists. *)
Definition table_comments (c : Constants) (entry : Entry) : list PyVal :=
  concat
    (map (fun ka => match data (snd ka) !! "human-comments" with
                    | Some (PList l) => l
                    | _ => []
                    end)
       (filter (fun ka => is_staging_aspect c (snd ka) && String.eqb (path (snd ka)) "")
          entry)).

(** The parent of the data scans of the client. *)
Definition scans_parent (E : Env) : string :=
  "projects/" +:+ _project_id E +:+ "/locations/" +:+ _dataplex_location E.

(** A result of a job that succeeded, among the jobs of a scan of the table. *)
Definition from_succeeded_job (E : Env) (scans : list DataScan) (resource : string)
    (result_of : DataScanJob -> option PyVal) (r : PyVal) : Prop :=
  exists scan jobs job,
    scan ∈ scans /\ scan_resource scan = resource
    /\ list_data_scan_jobs E (scan_name scan) = Return jobs
    /\ job ∈ jobs /\ job_succeeded job = true /\ result_of job = Some r.

(** The key under which the draft of a column is stored. *)
Definition column_draft_key (c : Constants) (E : Env) (column_name : string) : string :=
  _project_id E +:+ ".global." +:+ ASPECT_TEMPLATE_name c +:+ "@Schema." +:+ column_name.

(** The loop over [entry.aspects] of [_update_column_draft_description]:
    every aspect of the column whose key ends with the template name and the
    path of the column gives its data, refreshed, to the new aspect. *)
Definition merge_column_draft (c : Constants) (E : Env) (column_name : string)
    (entry : Entry) (d : PyVal) (new_data : gmap string PyVal) : gmap string PyVal :=
  fold_left
    (fun acc '(i, a) =>
       if endswith i ("global." +:+ ASPECT_TEMPLATE_name c +:+ "@Schema." +:+ column_name)
          && String.eqb (path a) ("Schema." +:+ column_name)
       then refresh_draft E (data a) d
       else acc)
    entry new_data.

(** [_update_column_draft_description]: the draft of a column is staged under
    the key of the column; the path of the aspect is left to the catalog. *)
Definition _update_column_draft_description (c : Constants) (E : Env)
    (table_fqn column_name : string) (d : PyVal) : M bool :=
  let aspect_name :=
    _project_id E +:+ ".global." +:+ ASPECT_TEMPLATE_name c +:+ "@Schema." +:+ column_name in
  entry_name ← entry_name_of E table_fqn;
  entry ← try_except (get_entry entry_name [draft_aspect_type c E]) (fun e => raise e);
  let new_aspect :=
    mkAspect (draft_aspect_type c E) ""
      (merge_column_draft c E column_name entry d (new_aspect_content d)) in
  try_except
    (update_entry entry_name aspect_name new_aspect ;; ret true)
    (fun _ => ret false).

(** The test of the loop of [_update_column_draft_description]. *)
Definition is_draft_of_column (c : Constants) (column_name : string)
    (ka : string * Aspect) : bool :=
  endswith (fst ka) ("global." +:+ ASPECT_TEMPLATE_name c +:+ "@Schema." +:+ column_name)
  && String.eqb (path (snd ka)) ("Schema." +:+ column_name).

(** A catalog after a write to one aspect of one entry: the other entries,
    and the aspects of that entry under the other keys, are as they were. *)
Definition touches_only (entry_name key : string) (cat cat' : gmap string Entry) : Prop :=
  (forall n, n <> entry_name -> cat' !! n = cat !! n)
  /\ (cat !! entry_name = None -> cat' !! entry_name = None)
  /\ (forall entry, cat !! entry_name = Some entry ->
        exists entry',
          cat' !! entry_name = Some entry'
          /\ forall k a, k <> key -> (k, a) ∈ entry' <-> (k, a) ∈ entry).

(** Two scans of the table [p.d.a] and one of [p.d.b]. *)
Definition sample_scans : list DataScan :=
  [ mkDataScan "scans/profile-a" "//bigquery.googleapis.com/projects/p/datasets/d/tables/a";
    mkDataScan "scans/quality-b" "//bigquery.googleapis.com/projects/p/datasets/d/tables/b";
    mkDataScan "scans/quality-a" "//bigquery.googleapis.com/projects/p/datasets/d/tables/a" ].

(** The services of the sample with these scans: the profile scan of [p.d.a]
    has a failed job and a succeeded one, its quality scan a succeeded one. *)
Definition sample_env_with_scans : Env :=
  {| _project_id := "p";
     _dataplex_location := "us-central1";
     llm_location := "us-central1";
     now := "2024-06-01T12:00:00Z";
     str_format := fun template args => Return (template +:+ " " +:+ kw_table_fqn args);
     generate_content := fun n _ _ _ => answering n;
     randbelow := fun n k => n;
     query_sample := fun _ => Return "{}";
     get_dataset_location := fun _ => Return "US";
     list_tables := fun _ _ => Return ["p:d.c"; "p:d.a"; "p:d.b"];
     download_as_text := fun _ _ => Return "";
     list_data_scans := fun _ => Return sample_scans;
     list_data_scan_jobs := fun scan =>
       if String.eqb scan "scans/profile-a" then
         Return [ mkDataScanJob false None (Some (PStr "profile of a, failed run"));
                  mkDataScanJob true None (Some (PStr "profile of a")) ]
       else if String.eqb scan "scans/quality-a" then
         Return [ mkDataScanJob true (Some (PStr "quality of a")) None ]
       else Return [ mkDataScanJob true (Some (PStr "quality of b")) None ];
     search_links := fun _ _ => Return [];
     batch_search_link_processes := fun _ _ => Return [];
     get_process := fun _ => Return ∅;
     get_job := fun _ _ => Return "" |}.

(** * Properties *)

(** ** PromptManager *)

Lemma append_cons (x : ascii) (a b : string) : String x a +:+ b = String x (a +:+ b).
Proof. reflexivity. Qed.

Lemma append_assoc (a b d : string) : (a +:+ b) +:+ d = a +:+ (b +:+ d).
Proof.
  induction a as [|x a IH]; [reflexivity|].
  now rewrite !append_cons, IH.
Qed.

Lemma append_empty_r (a : string) : a +:+ "" = a.
Proof.
  induction a as [|x a IH]; [reflexivity|].
  now rewrite append_cons, IH.
Qed.

Lemma join_app (l1 l2 : list string) : join (l1 ++ l2) = join l1 +:+ join l2.
Proof.
  unfold join. induction l1 as [|x l1 IH]; simpl; [reflexivity|].
  now rewrite IH, append_assoc.
Qed.

Lemma add_if_join (cond : bool) (l : list string) (fragment : string) :
  add_if cond (join l) fragment = join (l ++ when cond fragment).
Proof.
  destruct cond; simpl.
  - rewrite join_app. simpl. now rewrite append_empty_r.
  - now rewrite app_nil_r.
Qed.

Lemma append_join (l : list string) (fragment : string) :
  join l +:+ fragment = join (l ++ [fragment]).
Proof. rewrite join_app. simpl. now rewrite append_empty_r. Qed.

Lemma _get_prompt_table_fragments (c : Constants) (o : ClientOptions) :
  _get_prompt_table c o = join (prompt_fragments c PROMPT_TYPE_TABLE o).
Proof.
  unfold _get_prompt_table, prompt_fragments.
  change (SYSTEM_PROMPT c) with (join [] +:+ SYSTEM_PROMPT c) at 1.
  rewrite !append_join, !add_if_join, !append_join, !add_if_join, !append_join.
  simpl is_table. simpl andb. simpl (when true _).
  now rewrite <- !app_assoc.
Qed.

Lemma _get_prompt_columns_fragments (c : Constants) (o : ClientOptions) :
  _get_prompt_columns c o = join (prompt_fragments c PROMPT_TYPE_COLUMN o).
Proof.
  unfold _get_prompt_columns, prompt_fragments.
  change (SYSTEM_PROMPT c) with (join [] +:+ SYSTEM_PROMPT c) at 1.
  rewrite !append_join, !add_if_join, !append_join.
  simpl is_table. simpl andb. simpl (when false _).
  now rewrite <- !app_assoc.
Qed.

(** C6, as the code has it: for every assignment of the flags the prompt of a
    kind is the concatenation, in this order, of the system preamble, the base
    instruction of the kind, the profile, quality, lineage-tables and
    lineage-processes clauses (each iff its flag is set), for tables the
    document clause iff documents are used, for tables the generation-base
    clause, for tables the lineage-generation clause iff a lineage flag is
    set, and the output-format clause.  The column prompt has no
    generation-base clause.  The result is a function of the constants and
    the flags alone. *)
Theorem prompt_is_ordered_concatenation (c : Constants) (t : PromtType) (o : ClientOptions) :
  get_promtp c t o = join (prompt_fragments c t o)
  /\ prompt_fragments c PROMPT_TYPE_COLUMN o =
       [SYSTEM_PROMPT c; COLUMN_DESCRIPTION_PROMPT_BASE c]
       ++ when (_use_profile o) (TABLE_DESCRIPTION_PROMPT_PROFILE c)
       ++ when (_use_data_quality o) (TABLE_DESCRIPTION_PROMPT_QUALITY c)
       ++ when (_use_lineage_tables o) (TABLE_DESCRIPTION_PROMPT_LINEAGE_TABLES c)
       ++ when (_use_lineage_processes o) (TABLE_DESCRIPTION_PROMPT_LINEAGE_PROCESSES c)
       ++ [OUTPUT_FORMAT_PROMPT c]
  /\ prompt_fragments c PROMPT_TYPE_TABLE o = documented_fragments c PROMPT_TYPE_TABLE o.
Proof.
  split; [|split].
  - destruct t; simpl.
    + apply _get_prompt_table_fragments.
    + apply _get_prompt_columns_fragments.
  - reflexivity.
  - reflexivity.
Qed.

(** C6, as the design document words it, fails for columns: with the sample
    constants and the default options the documented order has the
    generation-base clause, which the column prompt of the code has not. *)
Lemma column_prompt_has_no_generation_base :
  get_promtp sample_constants PROMPT_TYPE_COLUMN ClientOptions_default
    = "<SYSTEM_PROMPT><COLUMN_DESCRIPTION_PROMPT_BASE><OUTPUT_FORMAT_PROMPT>"
  /\ join (documented_fragments sample_constants PROMPT_TYPE_COLUMN ClientOptions_default)
    = "<SYSTEM_PROMPT><COLUMN_DESCRIPTION_PROMPT_BASE><TABLE_DESCRIPTION_GENERATION_BASE><OUTPUT_FORMAT_PROMPT>"
  /\ get_promtp sample_constants PROMPT_TYPE_COLUMN ClientOptions_default
     <> join (documented_fragments sample_constants PROMPT_TYPE_COLUMN ClientOptions_default).
Proof. repeat split. discriminate. Qed.

(** ** StrategyPlanner: the order of the tables *)

Lemma insert_head_Permutation (l : list string) (j : nat) (b x : string) :
  l !! j = Some b -> b :: <[j := x]> l ≡ₚ x :: l.
Proof.
  revert j. induction l as [|y l IH]; intros [|j] Hj; simplify_eq/=.
  - apply perm_swap.
  - rewrite perm_swap. rewrite (IH j Hj). apply perm_swap.
Qed.

Lemma swap_Permutation (l : list string) (i j : nat) : swap i j l ≡ₚ l.
Proof.
  unfold swap. revert i j.
  induction l as [|x l IH]; intros i j; [now destruct i|].
  destruct i as [|i], j as [|j]; simpl.
  - reflexivity.
  - destruct (l !! j) as [b|] eqn:Hj; [|reflexivity].
    now apply insert_head_Permutation.
  - destruct (l !! i) as [a|] eqn:Hi; [|reflexivity].
    now apply insert_head_Permutation.
  - specialize (IH i j).
    destruct (l !! i) as [a|]; [|reflexivity].
    destruct (l !! j) as [b|]; [|reflexivity].
    now rewrite IH.
Qed.

Lemma shuffle_from_Permutation (E : Env) (i n : nat) (x : list string) :
  shuffle_from E n i x ≡ₚ x.
Proof.
  revert n x. induction i as [|i IH]; intros n x; simpl; [reflexivity|].
  rewrite IH. apply swap_Permutation.
Qed.

Lemma strategies_distinct_codes (c : Constants) :
  strategies_distinct c ->
  STRATEGY_RANDOM c <> STRATEGY_NAIVE c
  /\ STRATEGY_ALPHABETICAL c <> STRATEGY_NAIVE c
  /\ STRATEGY_ALPHABETICAL c <> STRATEGY_RANDOM c
  /\ STRATEGY_DOCUMENTED_THEN_REST c <> STRATEGY_DOCUMENTED c
  /\ STRATEGY_DOCUMENTED c <> STRATEGY_NAIVE c
  /\ STRATEGY_DOCUMENTED c <> STRATEGY_RANDOM c
  /\ STRATEGY_DOCUMENTED c <> STRATEGY_ALPHABETICAL c
  /\ STRATEGY_DOCUMENTED_THEN_REST c <> STRATEGY_NAIVE c
  /\ STRATEGY_DOCUMENTED_THEN_REST c <> STRATEGY_RANDOM c
  /\ STRATEGY_DOCUMENTED_THEN_REST c <> STRATEGY_ALPHABETICAL c.
Proof.
  unfold strategies_distinct, GENERATION_STRATEGY. simpl.
  rewrite !NoDup_cons, !not_elem_of_cons. intros H.
  repeat split; intros Heq; rewrite Heq in H; tauto.
Qed.

Lemma sample_strategies_distinct : strategies_distinct sample_constants.
Proof.
  unfold strategies_distinct. apply (bool_decide_unpack _). vm_compute. exact I.
Defined.

(** C10: for every list of tables, NAIVE returns the list as it is,
    ALPHABETICAL returns it sorted by the lexicographic order of the names,
    RANDOM returns the shuffle that the random draws decide; the three
    results are permutations of the input, hence of one another. *)
Theorem ordering_strategies_are_permutations
    (c : Constants) (E : Env) (tables : list string) (w : World) :
  strategies_distinct c ->
  fst (_order_tables_to_strategy c E tables (STRATEGY_NAIVE c) w) = Return tables
  /\ fst (_order_tables_to_strategy c E tables (STRATEGY_ALPHABETICAL c) w)
     = Return (merge_sort String.le tables)
  /\ StronglySorted String.le (merge_sort String.le tables)
  /\ merge_sort String.le tables ≡ₚ tables
  /\ fst (_order_tables_to_strategy c E tables (STRATEGY_RANDOM c) w)
     = Return (shuffle_from E (random_draws w) (length tables - 1) tables)
  /\ shuffle_from E (random_draws w) (length tables - 1) tables ≡ₚ tables
  /\ shuffle_from E (random_draws w) (length tables - 1) tables
     ≡ₚ merge_sort String.le tables.
Proof.
  intros Hc. destruct (strategies_distinct_codes c Hc) as (Hrn & Han & Har & _).
  unfold _order_tables_to_strategy.
  rewrite Z.eqb_refl.
  rewrite (proj2 (Z.eqb_neq _ _) Han), (proj2 (Z.eqb_neq _ _) Har).
  rewrite (proj2 (Z.eqb_neq _ _) Hrn).
  rewrite !Z.eqb_refl.
  repeat split.
  - apply Sorted_StronglySorted; [apply _|].
    exact (Sorted_merge_sort String.le tables).
  - exact (merge_sort_Permutation String.le tables).
  - apply shuffle_from_Permutation.
  - rewrite (merge_sort_Permutation String.le tables). apply shuffle_from_Permutation.
Qed.

Lemma ordering_strategies_are_permutations_witness :
  strategies_distinct sample_constants
  /\ fst (_order_tables_to_strategy sample_constants (sample_env answering)
            ["p.d.c"; "p.d.a"; "p.d.b"] 5 (sample_world sample_options))
     = Return ["p.d.a"; "p.d.b"; "p.d.c"]
  /\ fst (_order_tables_to_strategy sample_constants (sample_env answering)
            ["p.d.c"; "p.d.a"; "p.d.b"] 4 (sample_world sample_options))
     = Return ["p.d.b"; "p.d.a"; "p.d.c"].
Proof.
  split; [exact sample_strategies_distinct|].
  pose proof (ordering_strategies_are_permutations sample_constants (sample_env answering)
                ["p.d.c"; "p.d.a"; "p.d.b"] (sample_world sample_options)
                sample_strategies_distinct) as (_ & Ha & _ & _ & Hr & _).
  split; [exact Ha | exact Hr].
Defined.

(** ** InferenceClient: the retry loop *)

Ltac unfold_M :=
  unfold mbind, M_bind, mret, M_ret, bind, ret, raise, try_except, lift, modify,
    get_world, options, sleep, log_info, count_llm_call, set_options in *.

Lemma after_attempts_0 (w : World) : after_attempts w 0 [] = w.
Proof.
  destruct w. unfold after_attempts. simpl.
  now rewrite Nat.add_0_r, app_nil_r.
Qed.

(** One turn of the loop, from a world reached after some attempts. *)
Lemma llm_attempts_cons (c : Constants) (E : Env) (prompt : string)
    (doc : option string) (attempt : nat) (rest : list nat)
    (w : World) (calls : nat) (sleeps : list nat) :
  llm_attempts c E (attempt :: rest) prompt doc (after_attempts w calls sleeps) =
  match attempt_outcome c E prompt doc w calls with
  | Return text => (Return (Some text), after_attempts w (S calls) sleeps)
  | Raise e =>
      if (attempt =? retries)%nat then (Raise e, after_attempts w (S calls) sleeps)
      else llm_attempts c E rest prompt doc
             (after_attempts w (S calls) (sleeps ++ [base_delay * 2 ^ attempt]))
  end.
Proof.
  unfold attempt_outcome, model_of. simpl llm_attempts. unfold llm_attempt. unfold_M.
  simpl.
  replace (mkWorld (_client_options w) (bq_tables w) (catalog w) (aspect_types w)
             (S (llm_calls w + calls)) (random_draws w) (slept w ++ sleeps) (logged w))
    with (after_attempts w (S calls) sleeps)
    by (unfold after_attempts; now rewrite Nat.add_succ_r).
  destruct (generate_content E (llm_calls w + calls) _ doc prompt) as [e|text];
    [|reflexivity].
  destruct (attempt =? retries)%nat; [reflexivity|].
  f_equal. unfold after_attempts. simpl. now rewrite app_assoc.
Qed.

Lemma outcome_cases (c : Constants) (E : Env) (prompt : string) (doc : option string)
    (w : World) (k : nat) :
  (forall i, (i < k)%nat -> exists e, attempt_outcome c E prompt doc w i = Raise e) ->
  forall i, (i < k)%nat ->
  match attempt_outcome c E prompt doc w i with Raise _ => True | Return _ => False end.
Proof. intros H i Hi. destruct (H i Hi) as [e ->]. exact I. Qed.

(** C5: model inference makes at most 4 attempts.  If the attempts before
    the [k]-th fail and the [k]-th, one of the first 4, succeeds, its text is
    returned, after sleeps of 1, 2, 4 seconds between the attempts made; if
    all 4 fail the error of the last one is raised, after sleeps of 1, 2 and
    4 seconds, 7 seconds in all; in every case at most 4 calls of the model
    are made and the method does not end without a text or an error. *)
Theorem llm_inference_retries (c : Constants) (E : Env) (prompt : string)
    (doc : option string) (w : World) :
  (forall k text, (k < 4)%nat ->
     (forall i, (i < k)%nat -> exists e, attempt_outcome c E prompt doc w i = Raise e) ->
     attempt_outcome c E prompt doc w k = Return text ->
     _llm_inference c E prompt doc w
     = (Return (Some text), after_attempts w (S k) (take k [1; 2; 4]%nat)))
  /\ (forall e,
       (forall i, (i < 3)%nat -> exists e', attempt_outcome c E prompt doc w i = Raise e') ->
       attempt_outcome c E prompt doc w 3 = Raise e ->
       _llm_inference c E prompt doc w = (Raise e, after_attempts w 4 [1; 2; 4]%nat)
       /\ sum_list [1; 2; 4]%nat = 7%nat)
  /\ (forall r w', _llm_inference c E prompt doc w = (r, w') ->
       (llm_calls w' <= llm_calls w + 4)%nat /\ r <> Return None
       /\ exists n, slept w' = slept w ++ take n [1; 2; 4]%nat).
Proof.
  unfold _llm_inference. simpl seq.
  assert (Hrun : llm_attempts c E [0; 1; 2; 3]%nat prompt doc w
                 = llm_attempts c E [0; 1; 2; 3]%nat prompt doc (after_attempts w 0 []))
    by now rewrite after_attempts_0.
  rewrite Hrun. clear Hrun.
  rewrite !llm_attempts_cons. simpl.
  split; [|split].
  - intros k text Hk Hfail Hok.
    pose proof (outcome_cases c E prompt doc w k Hfail) as Hc.
    destruct k as [|[|[|[|k]]]]; [| | | |lia].
    + now rewrite Hok.
    + specialize (Hc 0%nat ltac:(lia)).
      destruct (attempt_outcome c E prompt doc w 0); [|contradiction].
      now rewrite Hok.
    + pose proof (Hc 0%nat ltac:(lia)) as H0. pose proof (Hc 1%nat ltac:(lia)) as H1.
      destruct (attempt_outcome c E prompt doc w 0); [|contradiction].
      destruct (attempt_outcome c E prompt doc w 1); [|contradiction].
      now rewrite Hok.
    + pose proof (Hc 0%nat ltac:(lia)) as H0. pose proof (Hc 1%nat ltac:(lia)) as H1.
      pose proof (Hc 2%nat ltac:(lia)) as H2.
      destruct (attempt_outcome c E prompt doc w 0); [|contradiction].
      destruct (attempt_outcome c E prompt doc w 1); [|contradiction].
      destruct (attempt_outcome c E prompt doc w 2); [|contradiction].
      now rewrite Hok.
  - intros e Hfail Hlast.
    pose proof (outcome_cases c E prompt doc w 3 Hfail) as Hc.
    pose proof (Hc 0%nat ltac:(lia)) as H0. pose proof (Hc 1%nat ltac:(lia)) as H1.
    pose proof (Hc 2%nat ltac:(lia)) as H2.
    destruct (attempt_outcome c E prompt doc w 0); [|contradiction].
    destruct (attempt_outcome c E prompt doc w 1); [|contradiction].
    destruct (attempt_outcome c E prompt doc w 2); [|contradiction].
    rewrite Hlast. split; reflexivity.
  - intros r w'.
    destruct (attempt_outcome c E prompt doc w 0);
      [destruct (attempt_outcome c E prompt doc w 1);
         [destruct (attempt_outcome c E prompt doc w 2);
            [destruct (attempt_outcome c E prompt doc w 3)|]|]|];
      intros [= <- <-]; unfold after_attempts; simpl;
      (split; [lia|split; [discriminate|]]).
    + exists 3%nat. reflexivity.
    + exists 3%nat. reflexivity.
    + exists 2%nat. reflexivity.
    + exists 1%nat. reflexivity.
    + exists 0%nat. reflexivity.
Qed.

Lemma llm_inference_retries_witness :
  _llm_inference sample_constants (sample_env (failing_first 2)) "prompt" None
    (sample_world sample_options)
  = (Return (Some "description 2"), after_attempts (sample_world sample_options) 3 [1; 2]%nat)
  /\ _llm_inference sample_constants (sample_env (failing_first 4)) "prompt" None
       (sample_world sample_options)
     = (Raise (ServiceError "unavailable 3"),
        after_attempts (sample_world sample_options) 4 [1; 2; 4]%nat).
Proof.
  split.
  - apply (proj1 (llm_inference_retries sample_constants (sample_env (failing_first 2))
                    "prompt" None (sample_world sample_options)) 2%nat "description 2").
    + lia.
    + intros [|[|i]] Hi; [eexists; reflexivity | eexists; reflexivity | lia].
    + reflexivity.
  - apply (proj1 (proj2 (llm_inference_retries sample_constants
                           (sample_env (failing_first 4))
                           "prompt" None (sample_world sample_options)))
             (ServiceError "unavailable 3")).
    + intros [|[|[|i]]] Hi;
        [eexists; reflexivity | eexists; reflexivity | eexists; reflexivity | lia].
    + reflexivity.
Defined.

(** ** Running the methods: the monad and the service calls *)

Lemma run_bind {A B} (m : M A) (k : A -> M B) (w : World) :
  (m ≫= k) w = match m w with
               | (Return a, w') => k a w'
               | (Raise e, w') => (Raise e, w')
               end.
Proof. reflexivity. Qed.

Lemma run_lift {A} (r : result A) (w : World) : lift r w = (r, w).
Proof. reflexivity. Qed.

Lemma run_try_except {A} (m : M A) (handler : exn -> M A) (w : World) :
  try_except m handler w = match m w with
                           | (Return a, w') => (Return a, w')
                           | (Raise e, w') => handler e w'
                           end.
Proof. reflexivity. Qed.

Lemma get_table_Some (fqn : string) (t : Table) (w : World) :
  bq_tables w !! fqn = Some t -> get_table fqn w = (Return t, w).
Proof. intros H. unfold get_table. now rewrite H. Qed.

Lemma get_table_None (fqn : string) (w : World) :
  bq_tables w !! fqn = None ->
  get_table fqn w = (Raise (NotFound ("Not found: Table " +:+ fqn)), w).
Proof. intros H. unfold get_table. now rewrite H. Qed.

Lemma _table_exists_Some (fqn : string) (t : Table) (w : World) :
  bq_tables w !! fqn = Some t -> _table_exists fqn w = (Return tt, w).
Proof.
  intros H. unfold _table_exists.
  now rewrite run_try_except, run_bind, (get_table_Some _ _ _ H).
Qed.

Lemma _table_exists_None (fqn : string) (w : World) :
  bq_tables w !! fqn = None ->
  _table_exists fqn w = (Raise (NotFound ("Table " +:+ fqn +:+ " is not found.")), w).
Proof.
  intros H. unfold _table_exists.
  now rewrite run_try_except, run_bind, (get_table_None _ _ H).
Qed.

Lemma _get_table_schema_Some (fqn : string) (t : Table) (w : World) :
  bq_tables w !! fqn = Some t ->
  _get_table_schema fqn w = (Return (flattened_schema (schema t), schema t), w).
Proof.
  intros H. unfold _get_table_schema.
  now rewrite run_try_except, run_bind, (get_table_Some _ _ _ H).
Qed.

Lemma _update_table_schema_Some (fqn : string) (t : Table) (s : list SchemaField)
    (w : World) :
  bq_tables w !! fqn = Some t ->
  _update_table_schema fqn s w = update_table fqn (mkTable (table_description t) s) w.
Proof.
  intros H. unfold _update_table_schema.
  now rewrite run_bind, (get_table_Some _ _ _ H).
Qed.

(** A loop whose body appends one element and leaves the world alone. *)
Lemma for_fold_map {A B} (f : A -> B) (body : list B -> A -> M (list B))
    (l : list A) (acc : list B) (w : World) :
  (forall acc x, x ∈ l -> body acc x w = (Return (acc ++ [f x]), w)) ->
  for_fold l acc body w = (Return (acc ++ map f l), w).
Proof.
  revert acc. induction l as [|x l IH]; intros acc Hbody; simpl.
  - now rewrite app_nil_r.
  - rewrite run_bind, Hbody by apply list_elem_of_here.
    rewrite IH.
    + now rewrite <- app_assoc.
    + intros acc' y Hy. apply Hbody. now apply list_elem_of_further.
Qed.

(** ** SchemaRewriter *)

Lemma slice_to_length (n : nat) (s : string) :
  String.length (slice_to n s) = Nat.min n (String.length s).
Proof.
  unfold slice_to. revert n. induction s as [|a s IH]; intros [|n]; simpl; try reflexivity.
  now rewrite IH.
Qed.

Lemma slice_to_all (n : nat) (s : string) :
  (String.length s <= n)%nat -> slice_to n s = s.
Proof.
  unfold slice_to. revert n. induction s as [|a s IH]; intros [|n] H; simpl in *;
    try reflexivity; try lia.
  rewrite IH; [reflexivity | lia].
Qed.

(** The update of one column when the table is there and the description is
    one that can be sliced: the schema is rewritten column by column and
    written back in one call. *)
Lemma _update_column_bq_description_run (c : Constants)
    (fqn column_name : string) (d d' : PyVal) (w : World) (t : Table) :
  bq_tables w !! fqn = Some t ->
  slice_description c d = Return d' ->
  _update_column_bq_description c fqn column_name d w
  = (Return tt, with_schema w fqn t (map (rewrite_column c column_name d) (schema t))).
Proof.
  intros Ht Hd. unfold _update_column_bq_description.
  rewrite run_try_except, run_bind, (_table_exists_Some _ _ _ Ht).
  rewrite run_bind, (_get_table_schema_Some _ _ _ Ht). cbv beta iota.
  rewrite run_bind.
  rewrite (for_fold_map (rewrite_column c column_name d)).
  - simpl app. rewrite (_update_table_schema_Some _ _ _ _ Ht). reflexivity.
  - intros acc x _. unfold rewrite_column, _get_updated_column.
    rewrite Hd. destruct (String.eqb (name x) column_name); reflexivity.
Qed.

(** C7: for every schema, every target column name and every new
    description, the update of the column writes a schema of the same length
    in which every column with another name is the descriptor it was, in its
    place, and the target column keeps its name, type, mode, sub-fields and
    policy tags and has as description the new one cut to the maximum
    length. *)
Theorem column_update_rewrites_one_column (c : Constants)
    (fqn column_name d : string) (w : World) (t : Table) :
  bq_tables w !! fqn = Some t ->
  exists new_schema,
    _update_column_bq_description c fqn column_name (PStr d) w
    = (Return tt, with_schema w fqn t new_schema)
    /\ length new_schema = length (schema t)
    /\ (String.length (slice_to (MAX_COLUMN_DESC_LENGTH c) d) <= MAX_COLUMN_DESC_LENGTH c)%nat
    /\ ((String.length d <= MAX_COLUMN_DESC_LENGTH c)%nat ->
        slice_to (MAX_COLUMN_DESC_LENGTH c) d = d)
    /\ forall k column, schema t !! k = Some column ->
         exists column', new_schema !! k = Some column'
           /\ (name column <> column_name -> column' = column)
           /\ (name column = column_name ->
               description column' = PStr (slice_to (MAX_COLUMN_DESC_LENGTH c) d)
               /\ name column' = name column
               /\ field_type column' = field_type column
               /\ mode column' = mode column
               /\ fields column' = fields column
               /\ policy_tags column' = policy_tags column).
Proof.
  intros Ht. exists (map (rewrite_column c column_name (PStr d)) (schema t)).
  split; [|split; [|split; [|split]]].
  - now apply _update_column_bq_description_run with (d' := PStr (slice_to (MAX_COLUMN_DESC_LENGTH c) d)).
  - apply length_map.
  - rewrite slice_to_length. lia.
  - apply slice_to_all.
  - intros k column Hk. exists (rewrite_column c column_name (PStr d) column).
    split; [now rewrite list_lookup_fmap, Hk|].
    unfold rewrite_column. split.
    + intros Hne. apply String.eqb_neq in Hne. now rewrite Hne.
    + intros Heq. apply String.eqb_eq in Heq. rewrite Heq. simpl. repeat split.
Qed.

Lemma column_update_rewrites_one_column_witness :
  bq_tables (sample_world sample_options) !! "p.d.a"
  = Some (mkTable None [ sample_column "id" "INTEGER" None;
                         sample_column "name" "STRING" None;
                         sample_column "amount" "NUMERIC" (Some 2%Z) ])
  /\ exists new_schema,
      _update_column_bq_description sample_constants
        "p.d.a" "name" (PStr "Name of the customer who placed the order")
        (sample_world sample_options)
      = (Return tt,
         with_schema (sample_world sample_options) "p.d.a"
           (mkTable None [ sample_column "id" "INTEGER" None;
                           sample_column "name" "STRING" None;
                           sample_column "amount" "NUMERIC" (Some 2%Z) ])
           new_schema)
      /\ description <$> new_schema
         = [PNone; PStr "Name of the cust"; PNone].
Proof.
  split; [reflexivity|].
  destruct (column_update_rewrites_one_column sample_constants
              "p.d.a" "name" "Name of the customer who placed the order"
              (sample_world sample_options) _ eq_refl)
    as (new_schema & Hrun & _).
  exists new_schema. split; [exact Hrun|].
  pose proof (f_equal (fun r => schema <$> (bq_tables (snd r) !! "p.d.a")) Hrun) as H.
  vm_compute in H. injection H as <-. reflexivity.
Defined.

(** ** Generation on a table that does not exist *)

Lemma log_info_run (r : LogRecord) (w : World) :
  log_info r w = (Return tt, snd (log_info r w)).
Proof. reflexivity. Qed.

(** C9 on the code: on a table the warehouse does not have, the generation
    of the table description raises [NotFound] at once, with no model call
    and no sleep; the generation of the column descriptions meets the same
    [NotFound] but its handler calls the exception instance, so that the
    caller gets a [TypeError]. *)
Theorem generation_on_missing_table (c : Constants) (E : Env) (fqn : string)
    (doc : option string) (human_comments : PyVal) (w : World) :
  bq_tables w !! fqn = None ->
  generate_table_description c E fqn doc human_comments w
  = (Raise (NotFound ("Table " +:+ fqn +:+ " is not found.")),
     snd (log_info (GeneratingTable fqn) w))
  /\ generate_columns_descriptions c E fqn doc human_comments w
     = (Raise TypeError, snd (log_info (GeneratingColumns fqn) w)).
Proof.
  intros Hnone. split.
  - unfold generate_table_description.
    rewrite run_bind, log_info_run. cbv beta iota.
    rewrite run_bind, _table_exists_None by exact Hnone. reflexivity.
  - unfold generate_columns_descriptions.
    rewrite run_try_except, run_bind, log_info_run. cbv beta iota.
    rewrite run_bind, _table_exists_None by exact Hnone. reflexivity.
Qed.

Lemma generation_on_missing_table_witness :
  bq_tables (sample_world sample_options) !! "p.d.missing" = None
  /\ fst (generate_table_description sample_constants (sample_env answering)
            "p.d.missing" None PNone (sample_world sample_options))
     = Raise (NotFound "Table p.d.missing is not found.")
  /\ fst (generate_columns_descriptions sample_constants (sample_env answering)
            "p.d.missing" None PNone (sample_world sample_options))
     = Raise TypeError.
Proof.
  split; [reflexivity|].
  destruct (generation_on_missing_table sample_constants (sample_env answering)
              "p.d.missing" None PNone (sample_world sample_options) eq_refl)
    as [Ht Hc].
  rewrite Ht, Hc. split; reflexivity.
Defined.

(** ** Batch generation: the validation of the strategy *)

Lemma try_rethrow {A} (m : M A) (w : World) :
  try_except m (fun e => raise e) w = m w.
Proof. rewrite run_try_except. now destruct (m w) as [[e|a] w']. Qed.

Lemma _list_tables_in_dataset_run (E : Env) (dataset_fqn p d : string)
    (ids : list string) (w : World) :
  _split_dataset_fqn dataset_fqn = Return (p, d) ->
  list_tables E p d = Return ids ->
  _list_tables_in_dataset E dataset_fqn w = (Return (map (replace ":" ".") ids), w).
Proof.
  intros Hs Hl. unfold _list_tables_in_dataset.
  rewrite run_bind. unfold lift at 1. rewrite Hs. cbv beta iota.
  rewrite run_bind. unfold lift. now rewrite Hl.
Qed.

Lemma code_in_strategies (c : Constants) (name : string) (code : Z) :
  strategy_code c name = Some code ->
  bool_decide (code ∈ (GENERATION_STRATEGY c).*2) = true.
Proof.
  unfold strategy_code. intros H. apply bool_decide_eq_true.
  destruct (find _ _) as [[k v]|] eqn:Hf; [|discriminate].
  injection H as <-. apply find_some in Hf as [Hin _].
  apply list_elem_of_fmap. exists (k, v). split; [reflexivity|].
  now apply list_elem_of_In.
Qed.

(** C8 on the code: with no mapping URI, DOCUMENTED raises the validation
    error before the tables are even listed; DOCUMENTED_THEN_REST has no such
    check, lists the tables and then fails in [_get_tables_from_uri] with the
    [AttributeError] of [None.split], before any generation. *)
Theorem documented_strategies_without_uri (c : Constants) (E : Env)
    (dataset_fqn p d : string) (ids : list string) (w : World) :
  strategies_distinct c ->
  _split_dataset_fqn dataset_fqn = Return (p, d) ->
  list_tables E p d = Return ids ->
  generate_dataset_tables_descriptions c E dataset_fqn "DOCUMENTED" None w
  = (Raise (ValueError DocumentationURIRequired), w)
  /\ generate_dataset_tables_descriptions c E dataset_fqn "DOCUMENTED_THEN_REST" None w
     = (Raise AttributeError, w).
Proof.
  intros Hc Hs Hl.
  destruct (strategies_distinct_codes c Hc) as (_ & _ & _ & Htd & _).
  unfold generate_dataset_tables_descriptions. rewrite !try_rethrow. split.
  - change (strategy_code c "DOCUMENTED") with (Some (STRATEGY_DOCUMENTED c)).
    cbv beta iota.
    rewrite run_bind, (code_in_strategies c "DOCUMENTED") by reflexivity.
    cbv beta iota. unfold ret at 1. cbv beta iota.
    rewrite run_bind, Z.eqb_refl. reflexivity.
  - change (strategy_code c "DOCUMENTED_THEN_REST")
      with (Some (STRATEGY_DOCUMENTED_THEN_REST c)).
    cbv beta iota.
    rewrite run_bind, (code_in_strategies c "DOCUMENTED_THEN_REST") by reflexivity.
    cbv beta iota. unfold ret at 1. cbv beta iota.
    rewrite (proj2 (Z.eqb_neq _ _) Htd).
    rewrite run_bind. unfold ret at 1. cbv beta iota.
    rewrite run_bind, (_list_tables_in_dataset_run E dataset_fqn p d ids w Hs Hl).
    cbv beta iota. rewrite run_bind. unfold ret at 1. cbv beta iota.
    rewrite run_bind, Z.eqb_refl. cbv beta iota.
    rewrite run_bind. unfold _get_tables_from_uri. rewrite try_rethrow. reflexivity.
Qed.

Lemma documented_strategies_without_uri_witness :
  strategies_distinct sample_constants
  /\ _split_dataset_fqn "p.d" = Return ("p", "d")
  /\ generate_dataset_tables_descriptions sample_constants (sample_env answering)
       "p.d" "DOCUMENTED" None (sample_world sample_options)
     = (Raise (ValueError DocumentationURIRequired), sample_world sample_options)
  /\ generate_dataset_tables_descriptions sample_constants (sample_env answering)
       "p.d" "DOCUMENTED_THEN_REST" None (sample_world sample_options)
     = (Raise AttributeError, sample_world sample_options).
Proof.
  split; [exact sample_strategies_distinct|]. split; [reflexivity|].
  exact (documented_strategies_without_uri sample_constants (sample_env answering)
           "p.d" "p" "d" ["p:d.c"; "p:d.a"; "p:d.b"] (sample_world sample_options)
           sample_strategies_distinct eq_refl eq_refl).
Defined.

(** ** Frames: what the methods leave alone *)

Section Frame.
Context (R : relation World) `{!PreOrder R}.

Lemma preserves_ret {A} (a : A) : preserves R (ret a).
Proof. intros w r w' [= <- <-]. reflexivity. Qed.

Lemma preserves_raise {A} (e : exn) : preserves R (@raise A e).
Proof. intros w r w' [= <- <-]. reflexivity. Qed.

Lemma preserves_lift {A} (x : result A) : preserves R (lift x).
Proof. intros w r w' [= <- <-]. reflexivity. Qed.

Lemma preserves_bind {A B} (m : M A) (k : A -> M B) :
  preserves R m -> (forall a, preserves R (k a)) -> preserves R (m ≫= k).
Proof.
  intros Hm Hk w r w'. rewrite run_bind.
  destruct (m w) as [[e|a] w1] eqn:Hmw.
  - intros [= <- <-]. now apply (Hm _ _ _ Hmw).
  - intros Hkw. transitivity w1; [now apply (Hm _ _ _ Hmw) | now apply (Hk _ _ _ _ Hkw)].
Qed.

Lemma preserves_try {A} (m : M A) (handler : exn -> M A) :
  preserves R m -> (forall e, preserves R (handler e)) -> preserves R (try_except m handler).
Proof.
  intros Hm Hh w r w'. rewrite run_try_except.
  destruct (m w) as [[e|a] w1] eqn:Hmw.
  - intros Hhw. transitivity w1; [now apply (Hm _ _ _ Hmw) | now apply (Hh _ _ _ _ Hhw)].
  - intros [= <- <-]. now apply (Hm _ _ _ Hmw).
Qed.

Lemma preserves_for_each {A} (l : list A) (body : A -> M unit) :
  (forall x, preserves R (body x)) -> preserves R (for_each l body).
Proof.
  intros Hb. induction l as [|x l IH]; simpl.
  - apply (preserves_ret tt).
  - apply preserves_bind; [apply Hb | intros _; apply IH].
Qed.

Lemma preserves_for_fold {A B} (l : list A) (acc : B) (body : B -> A -> M B) :
  (forall acc x, preserves R (body acc x)) -> preserves R (for_fold l acc body).
Proof.
  intros Hb. revert acc. induction l as [|x l IH]; intros acc; simpl.
  - apply (preserves_ret acc).
  - apply preserves_bind; [apply Hb | intros acc'; apply IH].
Qed.

Lemma preserves_get_table (fqn : string) : preserves R (get_table fqn).
Proof.
  intros w r w'. unfold get_table.
  destruct (bq_tables w !! fqn); intros [= <- <-]; reflexivity.
Qed.

Lemma preserves_get_entry (entry_name : string) (requested : list string) :
  preserves R (get_entry entry_name requested).
Proof.
  intros w r w'. unfold get_entry.
  destruct (catalog w !! entry_name); intros [= <- <-]; reflexivity.
Qed.

Lemma preserves_options : preserves R options.
Proof. intros w r w' [= <- <-]. reflexivity. Qed.

Lemma preserves_aspect_type_exists (resource_name : string) :
  preserves R (aspect_type_exists resource_name).
Proof. intros w r w' [= <- <-]. reflexivity. Qed.

Lemma preserves_on_NotFound {A} (fqn : string) (e : exn) :
  preserves R (@on_NotFound A fqn e).
Proof. unfold on_NotFound. destruct (is_NotFound e); apply preserves_raise. Qed.

Lemma preserves_raise_called {A} (e : exn) : preserves R (@raise_called A e).
Proof. apply preserves_raise. Qed.

(** The methods, given that the writes they make are within [R]. *)
Hypothesis R_update_table : forall fqn t, preserves R (update_table fqn t).
Hypothesis R_update_entry : forall n k a, preserves R (update_entry n k a).
Hypothesis R_disable_tables : preserves R (set_options disable_lineage_tables).
Hypothesis R_disable_processes : preserves R (set_options disable_lineage_processes).
Hypothesis R_sleep : forall n, preserves R (sleep n).
Hypothesis R_count : preserves R count_llm_call.
Hypothesis R_create : forall n, preserves R (create_aspect_type n).

(** The structural steps: sequencing, handlers, loops, branches, and the
    calls that leave the world as it is or write within [R]. *)
Ltac frame_step :=
  first
    [ apply preserves_ret | apply preserves_raise | apply preserves_lift
    | apply preserves_get_table | apply preserves_get_entry | apply preserves_options
    | apply preserves_aspect_type_exists | apply preserves_on_NotFound
    | apply preserves_raise_called
    | apply R_update_table | apply R_update_entry | apply R_disable_tables
    | apply R_disable_processes | apply R_sleep | apply R_count | apply R_create
    | apply preserves_bind; [|intros ?]
    | apply preserves_try; [|intros ?]
    | apply preserves_for_each; intros ?
    | apply preserves_for_fold; intros ? ?
    | match goal with |- preserves _ (match ?x with _ => _ end) => destruct x end ].

(** The methods that call others, unfolded down to the service calls. *)
Ltac unfold_methods :=
  unfold generate_table_description, generate_columns_descriptions, describe_column,
    _update_table_draft_description, _update_table_dataplex_description, entry_name_of,
    _update_table_bq_description, _update_table_schema, _check_if_exists_aspect_type,
    _create_aspect_type, _get_job_sources, job_sources_of_links, _bq_job_info,
    _get_table_sources_info, _get_table_sources, _get_table_description,
    _get_dataset_location, _get_table_quality, _get_table_profile,
    _get_table_profile_quality, _get_table_scan_reference, _get_table_sample,
    _get_table_schema, _table_exists, llm_attempt.

Context (c : Constants) (E : Env).

Lemma frame_llm_attempts attempts prompt doc :
  preserves R (llm_attempts c E attempts prompt doc).
Proof.
  induction attempts as [|attempt rest IH]; simpl; unfold_methods;
    repeat first [exact IH | frame_step].
Qed.

(** A method that starts with a log record: from the world with the record
    on, the rest of the method is within [R]. *)
Lemma frame_after_log {B} (record : LogRecord) (k : unit -> M B) (handler : exn -> M B)
    (w : World) (r : result B) (w' : World) :
  preserves R (k tt) -> (forall e, preserves R (handler e)) ->
  try_except (log_info record ≫= k) handler w = (r, w') ->
  R (snd (log_info record w)) w'.
Proof.
  intros Hk Hh. rewrite run_try_except, run_bind, log_info_run. cbv beta iota.
  intros H. apply (preserves_try (k tt) handler Hk Hh _ r). now rewrite run_try_except.
Qed.

Lemma frame_generate_table_description fqn doc hc w r w' :
  generate_table_description c E fqn doc hc w = (r, w') ->
  R (snd (log_info (GeneratingTable fqn) w)) w'.
Proof.
  intros H. rewrite <- try_rethrow in H. revert H.
  unfold _llm_inference. unfold_methods.
  apply frame_after_log; [|intros e];
    repeat first [apply frame_llm_attempts | frame_step].
Qed.

Lemma frame_generate_columns_descriptions fqn doc hc w r w' :
  generate_columns_descriptions c E fqn doc hc w = (r, w') ->
  R (snd (log_info (GeneratingColumns fqn) w)) w'.
Proof.
  unfold _llm_inference. unfold_methods.
  apply frame_after_log; [|intros e];
    repeat first [apply frame_llm_attempts | frame_step].
Qed.

End Frame.

(** ** ContextAggregator: the capability flags after a call *)

Lemma lineage_switched_off_refl (o : ClientOptions) : lineage_switched_off o o.
Proof. unfold lineage_switched_off. tauto. Qed.

#[local] Instance options_frame_preorder : PreOrder options_frame.
Proof.
  split.
  - intros w. apply lineage_switched_off_refl.
  - intros w1 w2 w3. unfold options_frame, lineage_switched_off.
    intros (-> & -> & -> & -> & -> & -> & Ht & Hp) (-> & -> & -> & -> & -> & -> & Ht' & Hp').
    repeat split; auto.
Qed.






Lemma options_frame_log (record : LogRecord) (w : World) :
  options_frame w (snd (log_info record w)).
Proof. apply lineage_switched_off_refl. Qed.







(** ** StrategyPlanner: the mapping is checked entry by entry *)

#[local] Instance same_log_preorder : PreOrder same_log.
Proof.
  split.
  - intros w. reflexivity.
  - intros w1 w2 w3 H12 H23. unfold same_log in *. congruence.
Qed.

Lemma same_log_modify (f : World -> World) :
  (forall w, logged (f w) = logged w) -> preserves same_log (modify f).
Proof. intros Hf w r w' [= <- <-]. apply Hf. Qed.

Lemma same_log_count : preserves same_log count_llm_call.
Proof. intros w r w' [= <- <-]. reflexivity. Qed.

Lemma same_log_update_entry (n k : string) (a : Aspect) :
  preserves same_log (update_entry n k a).
Proof.
  intros w r w'. unfold update_entry.
  destruct (catalog w !! n); intros [= <- <-]; reflexivity.
Qed.

(** A table generation logs its start once, and nothing else of the kind. *)
Lemma generate_table_description_log (c : Constants) (E : Env) (fqn : string)
    (doc : option string) (hc : PyVal) (w : World) (r : result string) (w' : World) :
  generate_table_description c E fqn doc hc w = (r, w') ->
  logged w' = logged w ++ [GeneratingTable fqn].
Proof.
  intros H.
  assert (Hrest : same_log (snd (log_info (GeneratingTable fqn) w)) w').
  { eapply (frame_generate_table_description same_log); [..|exact H];
      first [ apply same_log_count
            | apply same_log_update_entry
            | intros; apply same_log_modify; reflexivity ]. }
  exact Hrest.
Qed.

Lemma py_in_str (t : string) (tables : list string) :
  py_in (PStr t) (str_list tables) = true <-> t ∈ tables.
Proof.
  unfold py_in, str_list. rewrite existsb_exists. split.
  - intros (x & Hin & Heq). apply in_map_iff in Hin as (t' & <- & Hin).
    simpl in Heq. apply String.eqb_eq in Heq as ->. now apply list_elem_of_In.
  - intros Hin. exists (PStr t). split.
    + apply in_map. now apply list_elem_of_In.
    + simpl. apply String.eqb_refl.
Qed.

Lemma py_not_in_str_true (t : string) (tables : list string) :
  t ∉ tables -> py_not_in (PStr t) (str_list tables) = true.
Proof.
  intros Hnot. unfold py_not_in. apply negb_true_iff.
  destruct (py_in (PStr t) (str_list tables)) eqn:Hin; [|reflexivity].
  apply py_in_str in Hin. contradiction.
Qed.

Lemma py_not_in_str_false (t : string) (tables : list string) :
  t ∈ tables -> py_not_in (PStr t) (str_list tables) = false.
Proof.
  intros Hin. unfold py_not_in. apply negb_false_iff. now apply py_in_str.
Qed.

(** A pair is never equal to a string: it is in no list of table names. *)
Lemma py_not_in_tuple (table : string * string) (tables : list string) :
  py_not_in (pair_tuple table) (str_list tables) = true.
Proof.
  unfold py_not_in, py_in, str_list. apply negb_true_iff.
  induction tables as [|t tables IH]; [reflexivity|]. simpl. exact IH.
Qed.

Lemma documented_loop (c : Constants) (E : Env) (dataset_fqn : string)
    (tables : list string) (pre : list (string * string)) (bad : string * string)
    (post : list (string * string)) (w : World) :
  (forall t, t ∈ pre -> fst t ∈ tables) ->
  fst bad ∉ tables ->
  for_each (pre ++ bad :: post)
    (fun table =>
       if py_not_in (PStr (fst table)) (str_list tables)
       then raise (ValueError (TableNotInDataset (pair_tuple table) dataset_fqn))
       else generate_table_description c E (fst table) (Some (snd table)) PNone ;; ret tt) w
  = (for_each pre (generate_mapped c E) ;;
     raise (ValueError (TableNotInDataset (pair_tuple bad) dataset_fqn))) w.
Proof.
  intros Hpre Hbad. revert w. induction pre as [|x pre IH]; intros w.
  - simpl. rewrite !run_bind. rewrite py_not_in_str_true by exact Hbad. reflexivity.
  - simpl. rewrite !run_bind.
    rewrite py_not_in_str_false by (apply Hpre, list_elem_of_here).
    fold (generate_mapped c E x).
    destruct (generate_mapped c E x w) as [[e|[]] w1]; [reflexivity|].
    rewrite IH; [reflexivity|].
    intros t Ht. apply Hpre. now apply list_elem_of_further.
Qed.

(** The log of a run of generations: the start of each generation made, in
    order; all of them when the run returns. *)
Lemma generate_mapped_log (c : Constants) (E : Env) (pre : list (string * string))
    (w : World) (r : result unit) (w' : World) :
  for_each pre (generate_mapped c E) w = (r, w') ->
  exists done,
    done `prefix_of` map fst pre
    /\ logged w' = logged w ++ map GeneratingTable done
    /\ (r = Return tt -> done = map fst pre).
Proof.
  revert w. induction pre as [|x pre IH]; intros w; simpl.
  - intros [= <- <-]. exists []. rewrite app_nil_r. repeat split. apply prefix_nil.
  - rewrite run_bind. unfold generate_mapped at 1. rewrite run_bind.
    destruct (generate_table_description c E (fst x) (Some (snd x)) PNone w)
      as [[e|s] w1] eqn:Hgen;
      pose proof (generate_table_description_log _ _ _ _ _ _ _ _ Hgen) as Hlog.
    + intros [= <- <-]. exists [fst x]. repeat split.
      * apply prefix_cons, prefix_nil.
      * exact Hlog.
      * discriminate.
    + unfold ret at 1. cbv beta iota. intros Hrest.
      destruct (IH _ Hrest) as (done & Hpre & Hlog' & Hall).
      exists (fst x :: done). repeat split.
      * now apply prefix_cons.
      * rewrite Hlog', Hlog. simpl. now rewrite <- app_assoc.
      * intros Hr. now rewrite (Hall Hr).
Qed.

Lemma run_bind_Raise {A B} (m : M A) (k : A -> M B) (w w' : World) (e : exn) :
  m w = (Raise e, w') -> (m ≫= k) w = (Raise e, w').
Proof. intros H. now rewrite run_bind, H. Qed.

Lemma run_bind_Return {A B} (m : M A) (k : A -> M B) (w w' : World) (a : A) :
  m w = (Return a, w') -> (m ≫= k) w = k a w'.
Proof. intros H. now rewrite run_bind, H. Qed.

(** The batch up to the loops, for a strategy whose code is known and that
    passes the check of the URI: the tables are listed, then the branches
    of the strategies are tried in turn. *)
Lemma batch_run (c : Constants) (E : Env) (dataset_fqn strategy p d : string)
    (code : Z) (ids : list string) (uri : option string) (w : World) :
  strategy_code c strategy = Some code ->
  (code = STRATEGY_DOCUMENTED c -> uri <> None) ->
  _split_dataset_fqn dataset_fqn = Return (p, d) ->
  list_tables E p d = Return ids ->
  generate_dataset_tables_descriptions c E dataset_fqn strategy uri w
  = ((if (code =? STRATEGY_DOCUMENTED c)%Z then
        tables_from_uri ← _get_tables_from_uri E uri;
        for_each tables_from_uri
          (fun table =>
             if py_not_in (PStr (fst table)) (str_list (map (replace ":" ".") ids))
             then raise (ValueError (TableNotInDataset (pair_tuple table) dataset_fqn))
             else generate_table_description c E (fst table) (Some (snd table)) PNone ;;
                  ret tt)
      else ret tt) ;;
     (if (code =? STRATEGY_DOCUMENTED_THEN_REST c)%Z then
        tables_from_uri ← _get_tables_from_uri E uri;
        for_each tables_from_uri
          (fun table =>
             if py_not_in (pair_tuple table) (str_list (map (replace ":" ".") ids))
             then raise (ValueError (TableNotInDataset (pair_tuple table) dataset_fqn))
             else generate_table_description c E (fst table) (Some (snd table)) PNone ;;
                  ret tt) ;;
        for_each (map (replace ":" ".") ids)
          (fun table =>
             if py_not_in (PStr table) (str_list (map fst tables_from_uri))
             then generate_table_description c E table None PNone ;; ret tt
             else ret tt)
      else ret tt) ;;
     (if bool_decide (code ∈ [STRATEGY_NAIVE c; STRATEGY_RANDOM c;
                              STRATEGY_ALPHABETICAL c]) then
        tables_sorted ← _order_tables_to_strategy c E (map (replace ":" ".") ids) code;
        for_each tables_sorted
          (fun table => generate_table_description c E table None PNone ;; ret tt)
      else ret tt)) w.
Proof.
  intros Hcode Huri Hs Hl.
  unfold generate_dataset_tables_descriptions. rewrite try_rethrow, Hcode.
  rewrite run_bind, (code_in_strategies c strategy code Hcode).
  unfold ret at 1. cbv beta iota.
  rewrite run_bind.
  assert (Hcheck : (if (code =? STRATEGY_DOCUMENTED c)%Z
                    then match uri with
                         | Some _ => ret ()
                         | None => raise (ValueError DocumentationURIRequired)
                         end
                    else ret ()) w = (Return tt, w)).
  { destruct (Z.eqb_spec code (STRATEGY_DOCUMENTED c)) as [Heq|]; [|reflexivity].
    destruct uri; [reflexivity|]. now destruct (Huri Heq). }
  rewrite Hcheck.
  rewrite run_bind, (_list_tables_in_dataset_run E dataset_fqn p d ids w Hs Hl).
  reflexivity.
Qed.

(** C1, as the code has it.  When the mapping names a table that is not in
    the dataset's table list: with DOCUMENTED_THEN_REST a validation error
    is raised and the world is untouched, no generation has been made; with
    DOCUMENTED the entries are checked one by
    one while generating, so that the batch is the generation, in mapping
    order, of the tables mapped before the first absent one, followed by the
    validation error: the batch always raises, the generations started are a
    prefix of those entries, none is started for the absent table, and when
    they all return the error raised is the validation error. *)
Theorem mapping_is_validated_entry_by_entry (c : Constants) (E : Env)
    (dataset_fqn p d uri : string) (ids : list string)
    (mapping : list (string * string)) (w : World) :
  strategies_distinct c ->
  _split_dataset_fqn dataset_fqn = Return (p, d) ->
  list_tables E p d = Return ids ->
  _get_tables_from_uri E (Some uri) w = (Return mapping, w) ->
  (forall bad, bad ∈ mapping -> fst bad ∉ map (replace ":" ".") ids ->
     exists table,
       generate_dataset_tables_descriptions c E dataset_fqn "DOCUMENTED_THEN_REST"
         (Some uri) w
       = (Raise (ValueError (TableNotInDataset table dataset_fqn)), w))
  /\ (forall pre bad post,
        mapping = pre ++ bad :: post ->
        (forall t, t ∈ pre -> fst t ∈ map (replace ":" ".") ids) ->
        fst bad ∉ map (replace ":" ".") ids ->
        generate_dataset_tables_descriptions c E dataset_fqn "DOCUMENTED" (Some uri) w
        = (for_each pre (generate_mapped c E) ;;
           raise (ValueError (TableNotInDataset (pair_tuple bad) dataset_fqn))) w
        /\ (exists e w' done,
              generate_dataset_tables_descriptions c E dataset_fqn "DOCUMENTED" (Some uri) w
              = (Raise e, w')
              /\ done `prefix_of` (map fst pre)
              /\ (fst bad ∉ done)
              /\ logged w' = logged w ++ map GeneratingTable done)
        /\ (forall w1, for_each pre (generate_mapped c E) w = (Return tt, w1) ->
              generate_dataset_tables_descriptions c E dataset_fqn "DOCUMENTED" (Some uri) w
              = (Raise (ValueError (TableNotInDataset (pair_tuple bad) dataset_fqn)), w1)
              /\ logged w1 = logged w ++ map GeneratingTable (map fst pre))).
Proof.
  intros Hc Hs Hl Hmap.
  destruct (strategies_distinct_codes c Hc) as (_ & _ & _ & Htd & _).
  split.
  - intros bad Hbad _. destruct mapping as [|first rest];
      [now apply not_elem_of_nil in Hbad|].
    exists (pair_tuple first).
    rewrite (batch_run c E dataset_fqn "DOCUMENTED_THEN_REST" p d
               (STRATEGY_DOCUMENTED_THEN_REST c) ids (Some uri) w eq_refl
               ltac:(discriminate) Hs Hl).
    rewrite (proj2 (Z.eqb_neq _ _) Htd), Z.eqb_refl.
    rewrite run_bind. unfold ret at 1. cbv beta iota.
    apply run_bind_Raise. rewrite run_bind, Hmap. cbv beta iota.
    apply run_bind_Raise. simpl for_each. apply run_bind_Raise.
    now rewrite py_not_in_tuple.
  - intros pre bad post -> Hpre Hbad.
    assert (Hrun : generate_dataset_tables_descriptions c E dataset_fqn "DOCUMENTED"
                     (Some uri) w
                   = (for_each pre (generate_mapped c E) ;;
                      raise (ValueError (TableNotInDataset (pair_tuple bad) dataset_fqn))) w).
    { rewrite (batch_run c E dataset_fqn "DOCUMENTED" p d (STRATEGY_DOCUMENTED c) ids
                 (Some uri) w eq_refl ltac:(discriminate) Hs Hl).
      rewrite Z.eqb_refl.
      assert (Hloop : (tables_from_uri ← _get_tables_from_uri E (Some uri);
                       for_each tables_from_uri
                         (fun table =>
                            if py_not_in (PStr (fst table))
                                 (str_list (map (replace ":" ".") ids))
                            then raise (ValueError (TableNotInDataset (pair_tuple table)
                                                      dataset_fqn))
                            else generate_table_description c E (fst table)
                                   (Some (snd table)) PNone ;; ret tt)) w
                      = (for_each pre (generate_mapped c E) ;;
                         raise (ValueError (TableNotInDataset (pair_tuple bad)
                                              dataset_fqn))) w).
      { rewrite run_bind, Hmap. cbv beta iota. now apply documented_loop. }
      rewrite run_bind, Hloop. rewrite (run_bind (for_each pre (generate_mapped c E))).
      now destruct (for_each pre (generate_mapped c E) w) as [[e|[]] w1]. }
    split; [exact Hrun|]. rewrite Hrun, run_bind. split.
    + destruct (for_each pre (generate_mapped c E) w) as [[e|[]] w1] eqn:Hgen;
        destruct (generate_mapped_log c E pre w _ w1 Hgen) as (done & Hdone & Hlog & _);
        eexists _, w1, done; (split; [reflexivity|]); (split; [exact Hdone|]);
        (split; [|exact Hlog]);
        intros Hin; apply Hbad;
        destruct Hdone as [k Hk];
        assert (Hin' : fst bad ∈ map fst pre) by (rewrite Hk; set_solver);
        apply list_elem_of_fmap in Hin' as (t & -> & Ht); now apply Hpre.
    + intros w1 Hgen. rewrite Hgen. split; [reflexivity|].
      destruct (generate_mapped_log c E pre w _ w1 Hgen) as (done & _ & Hlog & Hall).
      now rewrite <- (Hall eq_refl).
Qed.

Lemma mapping_is_validated_entry_by_entry_witness :
  strategies_distinct sample_constants
  /\ _split_dataset_fqn "p.d" = Return ("p", "d")
  /\ _get_tables_from_uri (sample_env answering) (Some "gs://docs/mapping.csv")
       (sample_world sample_options)
     = (Return [("p.d.a", "gs://docs/a.pdf"); ("p.d.zzz", "gs://docs/z.pdf")],
        sample_world sample_options)
  /\ (exists table,
        generate_dataset_tables_descriptions sample_constants (sample_env answering)
          "p.d" "DOCUMENTED_THEN_REST" (Some "gs://docs/mapping.csv")
          (sample_world sample_options)
        = (Raise (ValueError (TableNotInDataset table "p.d")),
           sample_world sample_options))
  /\ exists e w' done,
       sample_documented_batch = (Raise e, w')
       /\ done `prefix_of` ["p.d.a"]
       /\ ("p.d.zzz" ∉ done)
       /\ logged w' = map GeneratingTable done.
Proof.
  split; [exact sample_strategies_distinct|]. split; [reflexivity|].
  split; [reflexivity|].
  destruct (mapping_is_validated_entry_by_entry sample_constants (sample_env answering)
              "p.d" "p" "d" "gs://docs/mapping.csv" ["p:d.c"; "p:d.a"; "p:d.b"]
              [("p.d.a", "gs://docs/a.pdf"); ("p.d.zzz", "gs://docs/z.pdf")]
              (sample_world sample_options)
              sample_strategies_distinct eq_refl eq_refl eq_refl) as [Hdtr Hdoc].
  assert (Htables : map (replace ":" ".") ["p:d.c"; "p:d.a"; "p:d.b"]
                    = ["p.d.c"; "p.d.a"; "p.d.b"]) by reflexivity.
  split.
  { apply (Hdtr ("p.d.zzz", "gs://docs/z.pdf")).
    - apply list_elem_of_further, list_elem_of_here.
    - rewrite Htables. simpl. rewrite !not_elem_of_cons.
      repeat split; try discriminate. apply not_elem_of_nil. }
  destruct (Hdoc [("p.d.a", "gs://docs/a.pdf")] ("p.d.zzz", "gs://docs/z.pdf") [] eq_refl)
    as (_ & (e & w' & done & Hrun & Hpre & Hbad & Hlog) & _).
  - rewrite Htables. intros t Ht. apply list_elem_of_singleton in Ht as ->.
    apply list_elem_of_further, list_elem_of_here.
  - rewrite Htables. simpl. rewrite !not_elem_of_cons.
    repeat split; try discriminate. apply not_elem_of_nil.
  - exists e, w', done. repeat split; assumption.
Defined.

(** C1 as stated fails for DOCUMENTED: in the sample the mapping names
    [p.d.a], which is in the dataset, and then [p.d.zzz], which is not; the
    batch raises the validation error for [p.d.zzz] after the generation for
    [p.d.a] was made: it is logged, the model was called once and the
    description of [p.d.a] was written to the warehouse. *)
Lemma generation_precedes_validation_error :
  fst sample_documented_batch
  = Raise (ValueError (TableNotInDataset
                         (PTuple [PStr "p.d.zzz"; PStr "gs://docs/z.pdf"]) "p.d"))
  /\ logged (snd sample_documented_batch) = [GeneratingTable "p.d.a"]
  /\ llm_calls (snd sample_documented_batch) = 1%nat
  /\ table_description <$> (bq_tables (sample_world sample_options) !! "p.d.a")
     = Some None
  /\ table_description <$> (bq_tables (snd sample_documented_batch) !! "p.d.a")
     = Some (Some "[AI generated] description 0").
Proof. repeat split; vm_compute; reflexivity. Qed.

(** ** DraftWorkflow: strings and the entry of a table *)

Lemma length_append (a b : string) :
  String.length (a +:+ b) = (String.length a + String.length b)%nat.
Proof.
  induction a as [|x a IH]; [reflexivity|].
  rewrite append_cons. simpl. now rewrite IH.
Qed.

Lemma substring_all (b : string) : String.substring 0 (String.length b) b = b.
Proof. induction b as [|x b IH]; simpl; [reflexivity | now rewrite IH]. Qed.

Lemma substring_append (a b : string) :
  String.substring (String.length a) (String.length b) (a +:+ b) = b.
Proof.
  induction a as [|x a IH]; [apply substring_all|].
  rewrite append_cons. simpl. exact IH.
Qed.

Lemma endswith_append (a b : string) : endswith (a +:+ b) b = true.
Proof.
  unfold endswith. rewrite length_append.
  replace (String.length a + String.length b - String.length b)%nat
    with (String.length a) by lia.
  rewrite substring_append, String.eqb_refl.
  rewrite andb_true_r. apply Nat.leb_le. lia.
Qed.

Lemma draft_key_endswith (c : Constants) (E : Env) :
  endswith (draft_key c E) ("global." +:+ ASPECT_TEMPLATE_name c) = true.
Proof.
  unfold draft_key.
  change (".global." +:+ ASPECT_TEMPLATE_name c)
    with ("." +:+ ("global." +:+ ASPECT_TEMPLATE_name c)).
  rewrite <- append_assoc. apply endswith_append.
Qed.

Lemma draft_aspect_type_endswith (c : Constants) (E : Env) :
  endswith (draft_aspect_type c E) ("aspectTypes/" +:+ ASPECT_TEMPLATE_name c) = true.
Proof.
  unfold draft_aspect_type.
  change ("/locations/global/aspectTypes/" +:+ ASPECT_TEMPLATE_name c)
    with ("/locations/global/" +:+ ("aspectTypes/" +:+ ASPECT_TEMPLATE_name c)).
  set (suffix := "aspectTypes/" +:+ ASPECT_TEMPLATE_name c).
  rewrite <- !append_assoc. apply endswith_append.
Qed.

Lemma entry_name_of_run (E : Env) (fqn p d t location : string) (w : World) :
  _split_table_fqn fqn = Return (p, d, t) ->
  get_dataset_location E (p +:+ "." +:+ d) = Return location ->
  entry_name_of E fqn w = (Return (entry_name_for p d t location), w).
Proof.
  intros Hs Hl. unfold entry_name_of, _get_dataset_location.
  rewrite run_bind, run_lift, Hs. cbv beta iota.
  rewrite !run_bind, run_lift. cbv beta iota.
  rewrite run_bind, run_lift, Hl. reflexivity.
Qed.

Lemma get_entry_run (entry_name : string) (requested : list string)
    (entry : Entry) (w : World) :
  catalog w !! entry_name = Some entry ->
  get_entry entry_name requested w
  = (Return (filter (fun ka => bool_decide (aspect_type (snd ka) ∈ requested)) entry), w).
Proof. intros H. unfold get_entry. now rewrite H. Qed.

Lemma update_entry_run (entry_name key : string) (a : Aspect) (entry : Entry)
    (w : World) :
  catalog w !! entry_name = Some entry ->
  update_entry entry_name key a w = (Return tt, with_aspect w entry_name key a entry).
Proof. intros H. unfold update_entry. now rewrite H. Qed.

Lemma set_aspect_length (key : string) (a new : Aspect) (entry : Entry) :
  (key, a) ∈ entry -> length (set_aspect key new entry) = length entry.
Proof.
  induction entry as [|[k old] entry IH]; intros Hin; [easy|]. simpl.
  destruct (String.eqb_spec k key) as [->|Hne]; [reflexivity|]. simpl. f_equal.
  apply IH. apply elem_of_cons in Hin as [[= -> ->]|Hin]; [congruence | exact Hin].
Qed.

Lemma set_aspect_elem (key : string) (new : Aspect) (entry : Entry) :
  (key, new) ∈ set_aspect key new entry.
Proof.
  induction entry as [|[k old] entry IH]; simpl; [apply list_elem_of_here|].
  destruct (String.eqb_spec k key) as [->|Hne]; [apply list_elem_of_here|].
  now apply list_elem_of_further.
Qed.

(** ** DraftWorkflow: a staged generation on an existing draft *)

Lemma merge_table_draft_keep (c : Constants) (E : Env) (entry : Entry) (d : PyVal)
    (old : gmap string PyVal) :
  (forall ka, ka ∈ entry -> is_table_draft c ka = true -> data (snd ka) = old) ->
  merge_table_draft c E entry d (refresh_draft E old d) = refresh_draft E old d.
Proof.
  unfold merge_table_draft. induction entry as [|[k a] entry IH]; intros Hsame;
    [reflexivity|]. simpl.
  destruct (endswith k _ && String.eqb (path a) "") eqn:Htest.
  - pose proof (Hsame (k, a) (list_elem_of_here _ _) Htest) as Hd. simpl in Hd.
    rewrite Hd. apply IH.
    intros ka Hin. apply Hsame. now apply list_elem_of_further.
  - apply IH. intros ka Hin. apply Hsame. now apply list_elem_of_further.
Qed.

Lemma merge_table_draft_found (c : Constants) (E : Env) (entry : Entry) (d : PyVal)
    (init : gmap string PyVal) (ka0 : string * Aspect) :
  ka0 ∈ entry -> is_table_draft c ka0 = true ->
  (forall ka, ka ∈ entry -> is_table_draft c ka = true -> data (snd ka) = data (snd ka0)) ->
  merge_table_draft c E entry d init = refresh_draft E (data (snd ka0)) d.
Proof.
  revert init. induction entry as [|[k a] entry IH]; intros init Hin Htest Hsame;
    [now apply not_elem_of_nil in Hin|].
  assert (Htail : forall ka, ka ∈ entry -> is_table_draft c ka = true ->
                             data (snd ka) = data (snd ka0))
    by (intros ka Hka; apply Hsame; now apply list_elem_of_further).
  apply elem_of_cons in Hin as [->|Hin].
  - unfold merge_table_draft. simpl. unfold is_table_draft in Htest. simpl in Htest.
    rewrite Htest. now apply merge_table_draft_keep.
  - unfold merge_table_draft. simpl. now apply IH.
Qed.

(** C3: when the entry of the table has a draft aspect at table scope, stored
    under the key of the client's project, and no other one, a staged
    generation writes, under the same key, an aspect whose data are the data
    of that draft with the contents replaced by the new description, the
    generation date set to the current time and the regeneration mark set to
    false; the human comments, the negative examples and every other field
    are the existing ones, and the entry has no more aspects than before. *)
Theorem staged_generation_merges_into_draft (c : Constants) (E : Env)
    (fqn p d t location : string) (entry : Entry) (a : Aspect)
    (new_description : PyVal) (w : World) :
  _split_table_fqn fqn = Return (p, d, t) ->
  get_dataset_location E (p +:+ "." +:+ d) = Return location ->
  catalog w !! entry_name_for p d t location = Some entry ->
  (draft_key c E, a) ∈ entry ->
  aspect_type a = draft_aspect_type c E ->
  path a = "" ->
  (forall ka, ka ∈ entry -> aspect_type (snd ka) = draft_aspect_type c E ->
              path (snd ka) = "" -> ka = (draft_key c E, a)) ->
  exists new_data,
    _update_table_draft_description c E fqn new_description w
    = (Return true,
       with_aspect w (entry_name_for p d t location) (draft_key c E)
         (mkAspect (draft_aspect_type c E) "" new_data) entry)
    /\ new_data !! "contents" = Some new_description
    /\ new_data !! "generation-date" = Some (PStr (now E))
    /\ new_data !! "to-be-regenerated" = Some (PStr "false")
    /\ new_data !! "human-comments" = data a !! "human-comments"
    /\ new_data !! "negative-examples" = data a !! "negative-examples"
    /\ (forall field, field <> "contents" -> field <> "generation-date" ->
                     field <> "to-be-regenerated" ->
                     new_data !! field = data a !! field)
    /\ length (set_aspect (draft_key c E) (mkAspect (draft_aspect_type c E) "" new_data) entry)
       = length entry.
Proof.
  intros Hs Hl Hentry Hin Htype Hpath Honly.
  exists (refresh_draft E (data a) new_description).
  split; [|split; [|split; [|split; [|split; [|split; [|split]]]]]].
  - unfold _update_table_draft_description.
    rewrite run_bind, (entry_name_of_run E fqn p d t location w Hs Hl). cbv beta iota.
    rewrite run_bind, (get_entry_run _ _ entry w Hentry). cbv beta iota.
    rewrite run_try_except, run_bind.
    rewrite (update_entry_run _ _ _ entry w Hentry). cbv beta iota.
    fold (draft_key c E). unfold ret. do 3 f_equal.
    apply (merge_table_draft_found c E _ _ _ (draft_key c E, a)).
    + apply list_elem_of_filter. split; [|exact Hin]. simpl.
      apply bool_decide_pack. rewrite Htype. apply list_elem_of_here.
    + unfold is_table_draft. simpl. rewrite draft_key_endswith, Hpath. reflexivity.
    + intros ka Hka Htest. apply list_elem_of_filter in Hka as [Hty Hka].
      apply bool_decide_unpack in Hty. apply list_elem_of_singleton in Hty.
      unfold is_table_draft in Htest. apply andb_true_iff in Htest as [_ Hp].
      apply String.eqb_eq in Hp. now rewrite (Honly ka Hka Hty Hp).
  - unfold refresh_draft. now rewrite lookup_insert_ne, lookup_insert_ne, lookup_insert_eq.
  - unfold refresh_draft. now rewrite lookup_insert_ne, lookup_insert_eq.
  - unfold refresh_draft. now rewrite lookup_insert_eq.
  - unfold refresh_draft. now rewrite !lookup_insert_ne.
  - unfold refresh_draft. now rewrite !lookup_insert_ne.
  - intros field H1 H2 H3. unfold refresh_draft.
    rewrite !lookup_insert_ne; [reflexivity|congruence..].
  - now apply set_aspect_length with (a := a).
Qed.

Lemma staged_generation_merges_into_draft_witness :
  catalog (sample_world sample_options) !! entry_name_for "p" "d" "a" "US"
  = Some [ ("p.global.draft-description", sample_draft "" "Orders of the shop");
           ("p.global.draft-description@Schema.name",
            sample_draft "Schema.name" "Name of the customer who placed the order") ]
  /\ exists new_data,
      _update_table_draft_description sample_constants (sample_env answering) "p.d.a"
        (PStr "Orders, one row per order") (sample_world sample_options)
      = (Return true,
         with_aspect (sample_world sample_options) (entry_name_for "p" "d" "a" "US")
           "p.global.draft-description"
           (mkAspect "projects/p/locations/global/aspectTypes/draft-description" ""
              new_data)
           [ ("p.global.draft-description", sample_draft "" "Orders of the shop");
             ("p.global.draft-description@Schema.name",
              sample_draft "Schema.name" "Name of the customer who placed the order") ])
      /\ new_data !! "contents" = Some (PStr "Orders, one row per order")
      /\ new_data !! "human-comments" = Some (PList [PStr "mention the currency"])
      /\ new_data !! "negative-examples" = Some (PList [PStr "too vague"])
      /\ new_data !! "to-be-regenerated" = Some (PStr "false").
Proof.
  split; [reflexivity|].
  destruct (staged_generation_merges_into_draft sample_constants (sample_env answering)
              "p.d.a" "p" "d" "a" "US"
              [ ("p.global.draft-description", sample_draft "" "Orders of the shop");
                ("p.global.draft-description@Schema.name",
                 sample_draft "Schema.name" "Name of the customer who placed the order") ]
              (sample_draft "" "Orders of the shop")
              (PStr "Orders, one row per order") (sample_world sample_options)
              eq_refl eq_refl eq_refl (list_elem_of_here _ _) eq_refl eq_refl)
    as (new_data & Hrun & Hc & _ & Hr & Hh & Hn & _).
  - intros ka Hka Hty Hp. apply elem_of_cons in Hka as [->|Hka]; [reflexivity|].
    apply list_elem_of_singleton in Hka as ->. discriminate Hp.
  - exists new_data. repeat split; assumption.
Defined.

(** ** DraftWorkflow: accepting a draft *)

Lemma find_table_overview_last (c : Constants) (pre post : Entry) (k : string)
    (a : Aspect) (v : PyVal) :
  is_staging_aspect c a = true ->
  data a !! "contents" = Some v ->
  (forall ka, ka ∈ post -> is_staging_aspect c (snd ka) = true ->
     data (snd ka) !! "contents" = None) ->
  find_table_overview c (pre ++ (k, a) :: post) = Some v.
Proof.
  intros Ha Hv Hpost. unfold find_table_overview, Entry in *.
  rewrite fold_left_app. cbn [fold_left]. fold (is_staging_aspect c a). rewrite Ha, Hv.
  clear Ha Hv. induction post as [|[k' x] post IH]; [reflexivity|].
  cbn [fold_left]. fold (is_staging_aspect c x).
  destruct (is_staging_aspect c x) eqn:Hx.
  - pose proof (Hpost (k', x) (list_elem_of_here _ _) Hx) as Hc. simpl in Hc. rewrite Hc.
    apply IH. intros ka Hka. apply Hpost. now apply list_elem_of_further.
  - apply IH. intros ka Hka. apply Hpost. now apply list_elem_of_further.
Qed.

Lemma find_column_overview_last (c : Constants) (column_name : string) (pre post : Entry)
    (k : string) (a : Aspect) (v : PyVal) :
  is_column_draft c column_name a = true ->
  data a !! "contents" = Some v ->
  (forall ka, ka ∈ post -> is_column_draft c column_name (snd ka) = true ->
     data (snd ka) !! "contents" = None) ->
  find_column_overview c (pre ++ (k, a) :: post) column_name = v.
Proof.
  intros Ha Hv Hpost. unfold find_column_overview, Entry in *.
  rewrite fold_left_app. cbn [fold_left].
  fold (is_staging_aspect c a). fold (is_column_draft c column_name a). rewrite Ha, Hv.
  clear Ha Hv. induction post as [|[k' x] post IH]; [reflexivity|].
  cbn [fold_left]. fold (is_staging_aspect c x). fold (is_column_draft c column_name x).
  destruct (is_column_draft c column_name x) eqn:Hx.
  - pose proof (Hpost (k', x) (list_elem_of_here _ _) Hx) as Hc. simpl in Hc. rewrite Hc.
    apply IH. intros ka Hka. apply Hpost. now apply list_elem_of_further.
  - apply IH. intros ka Hka. apply Hpost. now apply list_elem_of_further.
Qed.

(** The aspects that [get_entry] returns, around one that was asked for. *)
Lemma requested_aspects_app (requested : list string) (pre post : Entry) (k : string)
    (a : Aspect) :
  aspect_type a ∈ requested ->
  filter (fun ka => bool_decide (aspect_type (snd ka) ∈ requested)) (pre ++ (k, a) :: post)
  = filter (fun ka => bool_decide (aspect_type (snd ka) ∈ requested)) pre
    ++ (k, a) :: filter (fun ka => bool_decide (aspect_type (snd ka) ∈ requested)) post.
Proof.
  intros Ha. unfold Entry in *. rewrite filter_app, filter_cons_True; [reflexivity|].
  simpl. now apply bool_decide_pack.
Qed.

Lemma _update_table_dataplex_description_run (E : Env) (fqn p d t location : string)
    (entry : Entry) (v : PyVal) (w : World) :
  _split_table_fqn fqn = Return (p, d, t) ->
  get_dataset_location E (p +:+ "." +:+ d) = Return location ->
  catalog w !! entry_name_for p d t location = Some entry ->
  _update_table_dataplex_description E fqn v w
  = (Return true,
     with_aspect w (entry_name_for p d t location) "dataplex-types.global.overview"
       (overview_aspect v) entry).
Proof.
  intros Hs Hl Hentry. unfold _update_table_dataplex_description.
  rewrite run_bind, (entry_name_of_run E fqn p d t location w Hs Hl). cbv beta iota.
  rewrite run_try_except, run_bind, (update_entry_run _ _ _ entry w Hentry).
  reflexivity.
Qed.

Lemma _update_table_bq_description_run (fqn : string) (tbl : Table) (X : string)
    (w : World) :
  bq_tables w !! fqn = Some tbl ->
  _update_table_bq_description fqn (PStr X) w
  = (Return tt, with_description w fqn tbl (Some X)).
Proof.
  intros Ht. unfold _update_table_bq_description.
  rewrite run_bind, (get_table_Some _ _ _ Ht). reflexivity.
Qed.

Lemma rewritten_schema_lookup (c : Constants) (column_name X : string)
    (columns : list SchemaField) (k : nat) (column : SchemaField) :
  columns !! k = Some column ->
  (name column <> column_name ->
   map (rewrite_column c column_name (PStr X)) columns !! k = Some column)
  /\ (name column = column_name ->
      exists column',
        map (rewrite_column c column_name (PStr X)) columns !! k = Some column'
        /\ description column' = PStr (slice_to (MAX_COLUMN_DESC_LENGTH c) X)
        /\ name column' = name column).
Proof.
  intros Hk. split.
  - intros Hne. rewrite list_lookup_fmap, Hk. simpl. unfold rewrite_column.
    apply String.eqb_neq in Hne. now rewrite Hne.
  - intros Heq. exists (rewrite_column c column_name (PStr X) column).
    split; [now rewrite list_lookup_fmap, Hk|].
    unfold rewrite_column. apply String.eqb_eq in Heq. rewrite Heq. simpl. now split.
Qed.

(** C4 on the code.  For a table whose catalog entry and warehouse table
    exist, and a draft of the entry, of the staging aspect type, with contents
    [X].  Accepting the draft of the table writes [X] as the catalog overview
    and as the table description of the warehouse whenever no staging aspect
    with contents comes after that draft in the entry, whatever the scope of
    the draft: the loop does not test the path, so that the draft of a column
    that comes after the draft of the table is the one that is written.
    Accepting the draft of a column takes the last staging aspect whose path
    ends with [Schema.<column>] and rewrites the schema so that the column has
    [X], cut to the maximum length of a column description, as its
    description, the other columns being left as they are. *)
Theorem accept_takes_the_last_draft (c : Constants) (E : Env)
    (fqn p d t location : string) (pre post : Entry) (k : string) (a : Aspect)
    (X : string) (tbl : Table) (w : World) :
  _split_table_fqn fqn = Return (p, d, t) ->
  get_dataset_location E (p +:+ "." +:+ d) = Return location ->
  catalog w !! entry_name_for p d t location = Some (pre ++ (k, a) :: post) ->
  bq_tables w !! fqn = Some tbl ->
  aspect_type a = draft_aspect_type c E ->
  data a !! "contents" = Some (PStr X) ->
  ((forall ka, ka ∈ post -> is_staging_aspect c (snd ka) = true ->
      data (snd ka) !! "contents" = None) ->
   accept_table_draft_description c E fqn w
   = (Return tt,
      with_description
        (with_aspect w (entry_name_for p d t location) "dataplex-types.global.overview"
           (overview_aspect (PStr X)) (pre ++ (k, a) :: post))
        fqn tbl (Some X)))
  /\ (forall column_name,
        endswith (path a) ("Schema." +:+ column_name) = true ->
        (forall ka, ka ∈ post -> is_column_draft c column_name (snd ka) = true ->
           data (snd ka) !! "contents" = None) ->
        accept_column_draft_description c E fqn column_name w
        = (Return tt,
           with_schema w fqn tbl (map (rewrite_column c column_name (PStr X)) (schema tbl)))
        /\ forall i column, schema tbl !! i = Some column ->
             (name column <> column_name ->
              map (rewrite_column c column_name (PStr X)) (schema tbl) !! i = Some column)
             /\ (name column = column_name ->
                 exists column',
                   map (rewrite_column c column_name (PStr X)) (schema tbl) !! i
                   = Some column'
                   /\ description column' = PStr (slice_to (MAX_COLUMN_DESC_LENGTH c) X)
                   /\ name column' = name column)).
Proof.
  intros Hs Hl Hentry Htbl Hty Hv.
  assert (Hstaging : is_staging_aspect c a = true)
    by (unfold is_staging_aspect; rewrite Hty; apply draft_aspect_type_endswith).
  split.
  - intros Hpost. unfold accept_table_draft_description.
    rewrite run_bind, (entry_name_of_run E fqn p d t location w Hs Hl). cbv beta iota.
    rewrite run_bind, (get_entry_run _ _ _ w Hentry). cbv beta iota.
    rewrite requested_aspects_app by (rewrite Hty; apply list_elem_of_here).
    rewrite (find_table_overview_last c _ _ k a (PStr X) Hstaging Hv).
    + rewrite run_bind,
        (_update_table_dataplex_description_run E fqn p d t location _ _ w Hs Hl Hentry).
      cbv beta iota. now apply _update_table_bq_description_run.
    + intros ka Hka. apply list_elem_of_filter in Hka as [_ Hka]. now apply Hpost.
  - intros column_name Hpath Hpost. split.
    + unfold accept_column_draft_description.
      rewrite run_bind, (entry_name_of_run E fqn p d t location w Hs Hl). cbv beta iota.
      rewrite run_bind, (get_entry_run _ _ _ w Hentry). cbv beta iota.
      rewrite requested_aspects_app by (rewrite Hty; apply list_elem_of_here).
      rewrite (find_column_overview_last c column_name _ _ k a (PStr X)).
      * now apply _update_column_bq_description_run
          with (d' := PStr (slice_to (MAX_COLUMN_DESC_LENGTH c) X)).
      * unfold is_column_draft. now rewrite Hstaging, Hpath.
      * exact Hv.
      * intros ka Hka. apply list_elem_of_filter in Hka as [_ Hka]. now apply Hpost.
    + intros i column. apply rewritten_schema_lookup.
Qed.

Lemma accept_takes_the_last_draft_witness :
  catalog (sample_world sample_options) !! entry_name_for "p" "d" "a" "US"
  = Some [ ("p.global.draft-description", sample_draft "" "Orders of the shop");
           ("p.global.draft-description@Schema.name",
            sample_draft "Schema.name" "Name of the customer who placed the order") ]
  /\ accept_table_draft_description sample_constants (sample_env answering) "p.d.a"
       (sample_world sample_options)
     = (Return tt,
        with_description
          (with_aspect (sample_world sample_options) (entry_name_for "p" "d" "a" "US")
             "dataplex-types.global.overview"
             (overview_aspect (PStr "Name of the customer who placed the order"))
             [ ("p.global.draft-description", sample_draft "" "Orders of the shop");
               ("p.global.draft-description@Schema.name",
                sample_draft "Schema.name" "Name of the customer who placed the order") ])
          "p.d.a"
          (mkTable None [ sample_column "id" "INTEGER" None;
                          sample_column "name" "STRING" None;
                          sample_column "amount" "NUMERIC" (Some 2%Z) ])
          (Some "Name of the customer who placed the order"))
  /\ "Name of the customer who placed the order" <> "Orders of the shop"
  /\ accept_column_draft_description sample_constants (sample_env answering)
       "p.d.a" "name" (sample_world sample_options)
     = (Return tt,
        with_schema (sample_world sample_options) "p.d.a"
          (mkTable None [ sample_column "id" "INTEGER" None;
                          sample_column "name" "STRING" None;
                          sample_column "amount" "NUMERIC" (Some 2%Z) ])
          (map (rewrite_column sample_constants "name"
                  (PStr "Name of the customer who placed the order"))
             [ sample_column "id" "INTEGER" None;
               sample_column "name" "STRING" None;
               sample_column "amount" "NUMERIC" (Some 2%Z) ])).
Proof.
  split; [reflexivity|].
  destruct (accept_takes_the_last_draft sample_constants (sample_env answering)
              "p.d.a" "p" "d" "a" "US"
              [ ("p.global.draft-description", sample_draft "" "Orders of the shop") ] []
              "p.global.draft-description@Schema.name"
              (sample_draft "Schema.name" "Name of the customer who placed the order")
              "Name of the customer who placed the order"
              (mkTable None [ sample_column "id" "INTEGER" None;
                              sample_column "name" "STRING" None;
                              sample_column "amount" "NUMERIC" (Some 2%Z) ])
              (sample_world sample_options) eq_refl eq_refl eq_refl eq_refl eq_refl eq_refl)
    as [Htable Hcolumn].
  split; [|split; [discriminate|]].
  - apply Htable. intros ka Hka. now apply not_elem_of_nil in Hka.
  - apply (Hcolumn "name" eq_refl). intros ka Hka. now apply not_elem_of_nil in Hka.
Defined.

(** The two scopes on the sample.  The entry of [p.d.a] holds the draft of
    the table, with contents "Orders of the shop", and after it the draft of
    the column [name]: accepting the table draft takes the contents of the
    last staging aspect, the column's, and writes them as overview and as
    table description.  Accepting the draft of the column [name], whose
    contents are longer than the maximum of 16 characters of the sample,
    writes the first 16 characters only. *)
Lemma accept_takes_last_draft_and_cuts :
  find_table_overview sample_constants
    [ ("p.global.draft-description", sample_draft "" "Orders of the shop");
      ("p.global.draft-description@Schema.name",
       sample_draft "Schema.name" "Name of the customer who placed the order") ]
  = Some (PStr "Name of the customer who placed the order")
  /\ table_description
       <$> (bq_tables (snd (accept_table_draft_description sample_constants
                              (sample_env answering) "p.d.a"
                              (sample_world sample_options))) !! "p.d.a")
     = Some (Some "Name of the customer who placed the order")
  /\ Some (Some "Name of the customer who placed the order") <> Some (Some "Orders of the shop")
  /\ (fun t => description <$> schema t)
       <$> (bq_tables (snd (accept_column_draft_description sample_constants
                              (sample_env answering) "p.d.a" "name"
                              (sample_world sample_options))) !! "p.d.a")
     = Some [PNone; PStr "Name of the cust"; PNone]
  /\ PStr "Name of the cust" <> PStr "Name of the customer who placed the order".
Proof.
  split; [vm_compute; reflexivity|]. split; [vm_compute; reflexivity|].
  split; [discriminate|]. split; [vm_compute; reflexivity|]. discriminate.
Qed.

(** * Further properties of the methods *)

(** ** Names of tables and datasets *)

Lemma chars_append (a b : string) : chars (a +:+ b) = chars a ++ chars b.
Proof.
  unfold chars. induction a as [|x a IH]; [reflexivity|].
  rewrite append_cons. simpl. now rewrite IH.
Qed.

Lemma str_chars (s : string) : str (chars s) = s.
Proof. apply String.string_of_list_ascii_of_string. Qed.

Lemma chars_str (l : list ascii) : chars (str l) = l.
Proof. apply String.list_ascii_of_string_of_list_ascii. Qed.

Lemma str_app (l1 l2 : list ascii) : str (l1 ++ l2) = str l1 +:+ str l2.
Proof.
  rewrite <- (str_chars (str l1 +:+ str l2)), chars_append, !chars_str. reflexivity.
Qed.

Lemma chars_nil (s : string) : chars s = [] -> s = "".
Proof. now destruct s. Qed.

Lemma is_component_chars (s : string) :
  is_component s = true ->
  chars s <> [] /\ forallb (fun a => negb (is_dot a)) (chars s) = true.
Proof.
  unfold is_component, no_char. intros H. apply andb_true_iff in H as [Hne Hdots].
  split; [|exact Hdots].
  intros Hnil. apply chars_nil in Hnil. subst s. discriminate.
Qed.

Lemma is_tail_chars (s : string) :
  is_tail s = true -> chars s = [] \/ exists r, chars s = "."%char :: r.
Proof.
  destruct s as [|a s]; [now left|]. simpl. unfold is_dot. intros H.
  apply Ascii.eqb_eq in H as ->. right. now eexists.
Qed.

(** The run of [[^.]*] ends at the first dot, or at the end. *)
Lemma span_non_dot_app (g rest : list ascii) :
  forallb (fun a => negb (is_dot a)) g = true ->
  (rest = [] \/ exists r, rest = "."%char :: r) ->
  span_non_dot (g ++ rest) = (g, rest).
Proof.
  intros Hg Hrest. induction g as [|a g IH]; simpl.
  - destruct Hrest as [->|[r ->]]; reflexivity.
  - simpl in Hg. apply andb_true_iff in Hg as [Ha Hg].
    apply negb_true_iff in Ha. rewrite Ha, (IH Hg). reflexivity.
Qed.

Lemma span_non_dot_spec (s g rest : list ascii) :
  span_non_dot s = (g, rest) ->
  s = g ++ rest
  /\ forallb (fun a => negb (is_dot a)) g = true
  /\ (rest = [] \/ exists r, rest = "."%char :: r).
Proof.
  revert g rest. induction s as [|a s IH]; intros g rest; simpl.
  - intros [= <- <-]. repeat split. now left.
  - destruct (is_dot a) eqn:Ha.
    + intros [= <- <-]. repeat split. right. exists s.
      unfold is_dot in Ha. now apply Ascii.eqb_eq in Ha as ->.
    + destruct (span_non_dot s) as [run rest'] eqn:Hs.
      intros [= <- <-]. destruct (IH _ _ eq_refl) as (-> & Hrun & Hrest).
      repeat split; [|exact Hrest]. simpl. now rewrite Ha.
Qed.

Lemma match_two_groups_app (d t rest : list ascii) :
  d <> [] -> forallb (fun a => negb (is_dot a)) d = true ->
  t <> [] -> forallb (fun a => negb (is_dot a)) t = true ->
  (rest = [] \/ exists r, rest = "."%char :: r) ->
  match_two_groups (d ++ "."%char :: t ++ rest) = Some (d, t).
Proof.
  intros Hd Hdd Ht Htd Hrest. unfold match_two_groups.
  rewrite (span_non_dot_app d) by (try assumption; right; now eexists).
  destruct d as [|x d]; [contradiction|].
  rewrite (span_non_dot_app t rest Htd Hrest).
  now destruct t.
Qed.

Lemma match_two_groups_spec (s d t : list ascii) :
  match_two_groups s = Some (d, t) ->
  d <> [] /\ forallb (fun a => negb (is_dot a)) d = true
  /\ t <> [] /\ forallb (fun a => negb (is_dot a)) t = true
  /\ exists rest, s = d ++ "."%char :: t ++ rest
       /\ (rest = [] \/ exists r, rest = "."%char :: r).
Proof.
  unfold match_two_groups.
  destruct (span_non_dot s) as [g2 rest] eqn:H2.
  apply span_non_dot_spec in H2 as (-> & Hg2 & Hrest).
  destruct g2 as [|x g2]; [discriminate|].
  destruct rest as [|dot rest']; [discriminate|].
  destruct Hrest as [|[r [= -> ->]]]; [discriminate|].
  destruct (span_non_dot r) as [g3 rest3] eqn:H3.
  apply span_non_dot_spec in H3 as (-> & Hg3 & Hrest3).
  destruct g3 as [|y g3]; [discriminate|].
  intros [= <- <-]. repeat split; try discriminate; try assumption.
  exists rest3. split; [reflexivity | exact Hrest3].
Qed.

Lemma match_table_at_sep (g1 : list ascii) (sep : ascii) (d t rest : list ascii) :
  is_dot_or_colon sep = true ->
  d <> [] -> forallb (fun a => negb (is_dot a)) d = true ->
  t <> [] -> forallb (fun a => negb (is_dot a)) t = true ->
  (rest = [] \/ exists r, rest = "."%char :: r) ->
  match_table_at (g1 ++ sep :: d ++ "."%char :: t ++ rest) (length g1) = Some (g1, d, t).
Proof.
  intros Hsep Hd Hdd Ht Htd Hrest. unfold match_table_at.
  rewrite drop_app_length, Hsep, match_two_groups_app by assumption.
  now rewrite take_app_length.
Qed.

(** Backtracking passes over the lengths at which no separator stands. *)
Lemma match_table_from_skip (s : list ascii) (m j : nat) :
  (forall k, (m < k <= m + j)%nat -> match_table_at s k = None) ->
  match_table_from s (m + j) = match_table_from s m.
Proof.
  induction j as [|j IH]; intros Hnone.
  - now rewrite Nat.add_0_r.
  - rewrite Nat.add_succ_r. simpl. rewrite <- Nat.add_succ_r, Hnone by lia.
    rewrite Nat.add_succ_r in Hnone. apply IH. intros k Hk. apply Hnone. lia.
Qed.

Lemma match_table_from_here (s : list ascii) (m : nat) r :
  m <> 0%nat -> match_table_at s m = Some r -> match_table_from s m = Some r.
Proof. destruct m as [|m]; [contradiction|]. intros _ H. simpl. now rewrite H. Qed.

Lemma forallb_lookup {A} (f : A -> bool) (l : list A) (i : nat) (x : A) :
  forallb f l = true -> l !! i = Some x -> f x = true.
Proof.
  intros H Hi. rewrite forallb_forall in H. apply H.
  apply list_elem_of_In. now apply list_elem_of_lookup_2 in Hi.
Qed.

Lemma no_char_chars (x : ascii) (s : string) (i : nat) (a : ascii) :
  no_char x s = true -> chars s !! i = Some a -> Ascii.eqb a x = false.
Proof.
  intros H Hi. apply negb_true_iff.
  exact (forallb_lookup (fun a => negb (Ascii.eqb a x)) _ _ _ H Hi).
Qed.

Lemma match_table_at_inside (P D rest : list ascii) (k : nat) :
  forallb (fun a => negb (is_dot_or_colon a)) D = true ->
  (length P < k < length P + S (length D))%nat ->
  match_table_at (P ++ ":"%char :: D ++ rest) k = None.
Proof.
  intros HD Hk. unfold match_table_at.
  replace k with (length P + S (k - length P - 1))%nat by lia.
  rewrite drop_app_add. simpl drop. rewrite drop_app_le by lia.
  destruct (drop (k - length P - 1) D) as [|x D'] eqn:Hdrop.
  - apply (f_equal length) in Hdrop. rewrite length_drop in Hdrop. simpl in Hdrop. lia.
  - simpl.
    assert (Hx : D !! (k - length P - 1)%nat = Some x).
    { rewrite <- (Nat.add_0_r (k - length P - 1)), <- lookup_drop, Hdrop. reflexivity. }
    apply (forallb_lookup _ _ _ _ HD) in Hx. apply negb_true_iff in Hx. now rewrite Hx.
Qed.

Lemma match_table_at_end (P D T : list ascii) :
  forallb (fun a => negb (is_dot a)) T = true ->
  match_table_at (P ++ ":"%char :: D ++ "."%char :: T) (length P + S (length D)) = None.
Proof.
  intros HT. unfold match_table_at.
  rewrite drop_app_add. simpl drop. rewrite drop_app_length. simpl.
  unfold match_two_groups.
  pose proof (span_non_dot_app T [] HT (or_introl eq_refl)) as Hrun.
  rewrite app_nil_r in Hrun. rewrite Hrun. now destruct T.
Qed.

Lemma _split_table_fqn_dotted (p d t rest : string) :
  is_component p = true -> is_component d = true -> is_component t = true ->
  is_tail rest = true ->
  _split_table_fqn (p +:+ "." +:+ d +:+ "." +:+ t +:+ rest) = Return (p, d, t).
Proof.
  intros Hp Hd Ht Hrest.
  apply is_component_chars in Hp as [Hp Hpd].
  apply is_component_chars in Hd as [Hd Hdd].
  apply is_component_chars in Ht as [Ht Htd].
  assert (Hlen : length (chars p) <> 0%nat) by (destruct (chars p); [contradiction|discriminate]).
  apply is_tail_chars in Hrest.
  unfold _split_table_fqn, search_table_pattern.
  rewrite !chars_append. change (chars ".") with ["."%char]. simpl app.
  rewrite (span_non_dot_app (chars p)) by (try assumption; right; now eexists).
  simpl fst.
  rewrite (match_table_from_here _ _ (chars p, chars d, chars t));
    [now rewrite !str_chars|exact Hlen|].
  now apply match_table_at_sep.
Qed.

Lemma _split_table_fqn_legacy (p d t : string) :
  is_component p = true -> is_component d = true -> is_component t = true ->
  no_char ":" d = true ->
  _split_table_fqn (p +:+ ":" +:+ d +:+ "." +:+ t) = Return (p, d, t).
Proof.
  intros Hp Hd Ht Hcolon.
  apply is_component_chars in Hp as [Hp Hpd].
  apply is_component_chars in Hd as [Hd Hdd].
  apply is_component_chars in Ht as [Ht Htd].
  assert (Hlen : length (chars p) <> 0%nat) by (destruct (chars p); [contradiction|discriminate]).
  unfold _split_table_fqn, search_table_pattern.
  rewrite !chars_append. change (chars ".") with ["."%char].
  change (chars ":") with [":"%char]. simpl app.
  assert (Hrun : span_non_dot (chars p ++ ":"%char :: chars d ++ "."%char :: chars t)
                 = (chars p ++ ":"%char :: chars d, "."%char :: chars t)).
  { rewrite <- (span_non_dot_app (chars p ++ ":"%char :: chars d) ("."%char :: chars t)).
    - now rewrite <- app_assoc.
    - rewrite forallb_app. simpl. now rewrite Hpd, Hdd.
    - right. now eexists. }
  rewrite Hrun. simpl fst. rewrite length_app. simpl length.
  assert (HD : forallb (fun a => negb (is_dot_or_colon a)) (chars d) = true).
  { apply forallb_forall. intros a Ha.
    rewrite forallb_forall in Hdd. specialize (Hdd a Ha).
    unfold no_char in Hcolon. rewrite forallb_forall in Hcolon. specialize (Hcolon a Ha).
    unfold is_dot_or_colon. unfold is_dot in Hdd.
    apply negb_true_iff in Hdd, Hcolon. now rewrite Hdd, Hcolon. }
  rewrite match_table_from_skip.
  - rewrite (match_table_from_here _ _ (chars p, chars d, chars t));
      [now rewrite !str_chars|exact Hlen|].
    pose proof (match_table_at_sep (chars p) ":"%char (chars d) (chars t) [] eq_refl
                  Hd Hdd Ht Htd (or_introl eq_refl)) as Hat.
    now rewrite app_nil_r in Hat.
  - intros k Hk.
    destruct (decide (k = length (chars p) + S (length (chars d)))%nat) as [->|Hne].
    + now apply match_table_at_end.
    + apply match_table_at_inside; [exact HD | lia].
Qed.

(** X1: the parts of a dotted table name are the three groups of the
    pattern, whatever follows the third behind a further dot; the parts of a
    name in the legacy form, with a colon after the project, are the same. *)
Theorem split_table_fqn_of_name (p d t : string) :
  is_component p = true -> is_component d = true -> is_component t = true ->
  (forall rest, is_tail rest = true ->
     _split_table_fqn (p +:+ "." +:+ d +:+ "." +:+ t +:+ rest) = Return (p, d, t))
  /\ (no_char ":" d = true ->
      _split_table_fqn (p +:+ ":" +:+ d +:+ "." +:+ t) = Return (p, d, t)).
Proof.
  intros Hp Hd Ht. split.
  - intros rest. now apply _split_table_fqn_dotted.
  - now apply _split_table_fqn_legacy.
Qed.

Lemma split_table_fqn_of_name_witness :
  _split_table_fqn "my-project.sales.orders" = Return ("my-project", "sales", "orders")
  /\ _split_table_fqn "my-project.sales.orders.2024" = Return ("my-project", "sales", "orders")
  /\ _split_table_fqn "my-project:sales.orders" = Return ("my-project", "sales", "orders").
Proof.
  destruct (split_table_fqn_of_name "my-project" "sales" "orders" eq_refl eq_refl eq_refl)
    as [Hdot Hcolon].
  split; [exact (Hdot "" eq_refl)|].
  split; [exact (Hdot ".2024" eq_refl) | exact (Hcolon eq_refl)].
Defined.

Lemma match_table_from_spec (s : list ascii) (k0 : nat) r :
  match_table_from s k0 = Some r ->
  exists k, (1 <= k <= k0)%nat /\ match_table_at s k = Some r.
Proof.
  induction k0 as [|k0 IH]; [discriminate|]. simpl.
  destruct (match_table_at s (S k0)) as [r'|] eqn:Hat.
  - intros [= <-]. exists (S k0). split; [lia | exact Hat].
  - intros H. destruct (IH H) as (k & Hk & Hk'). exists k. split; [lia | exact Hk'].
Qed.

Lemma is_component_str (g : list ascii) :
  g <> [] -> forallb (fun a => negb (is_dot a)) g = true -> is_component (str g) = true.
Proof.
  intros Hg Hdots. unfold is_component, no_char. rewrite chars_str.
  apply andb_true_iff. split; [|exact Hdots].
  apply negb_true_iff, String.eqb_neq. intros Heq.
  apply (f_equal chars) in Heq. rewrite chars_str in Heq. contradiction.
Qed.

Lemma is_tail_str (rest : list ascii) :
  (rest = [] \/ exists r, rest = "."%char :: r) -> is_tail (str rest) = true.
Proof. intros [->|[r ->]]; reflexivity. Qed.

Lemma forallb_take {A} (f : A -> bool) (l : list A) (k : nat) :
  forallb f l = true -> forallb f (take k l) = true.
Proof.
  rewrite !forallb_forall. intros H x Hx. apply H.
  apply list_elem_of_In. apply list_elem_of_In in Hx.
  now apply (subseteq_take k l).
Qed.

Lemma _split_table_fqn_Return (table_fqn p d t : string) :
  _split_table_fqn table_fqn = Return (p, d, t) ->
  is_component p = true /\ is_component d = true /\ is_component t = true
  /\ exists sep rest,
       is_dot_or_colon sep = true /\ is_tail rest = true
       /\ table_fqn = p +:+ String sep (d +:+ "." +:+ t +:+ rest).
Proof.
  unfold _split_table_fqn, search_table_pattern.
  destruct (span_non_dot (chars table_fqn)) as [run rest0] eqn:Hspan.
  apply span_non_dot_spec in Hspan as (Hs & Hrun & _). simpl fst.
  destruct (match_table_from (chars table_fqn) (length run)) as [[[g1 g2] g3]|] eqn:Hfrom;
    [|discriminate].
  intros [= <- <- <-].
  apply match_table_from_spec in Hfrom as (k & Hk & Hat).
  unfold match_table_at in Hat.
  destruct (drop k (chars table_fqn)) as [|sep rest] eqn:Hdrop; [discriminate|].
  destruct (is_dot_or_colon sep) eqn:Hsep; [|discriminate].
  destruct (match_two_groups rest) as [[g2' g3']|] eqn:Htwo; [|discriminate].
  injection Hat as <- <- <-.
  apply match_two_groups_spec in Htwo as (Hg2 & Hg2d & Hg3 & Hg3d & rest' & -> & Hrest').
  assert (Htake : take k (chars table_fqn) = take k run).
  { rewrite Hs. apply take_app_le. lia. }
  assert (Hg1 : take k (chars table_fqn) <> []).
  { intros Hnil. apply (f_equal length) in Hnil, Hdrop.
    rewrite length_take in Hnil. rewrite length_drop in Hdrop. simpl in *. lia. }
  split; [|split; [|split]].
  - apply is_component_str; [exact Hg1|]. rewrite Htake. now apply forallb_take.
  - now apply is_component_str.
  - now apply is_component_str.
  - exists sep, (str rest'). split; [exact Hsep|]. split; [now apply is_tail_str|].
    pose proof (take_drop k (chars table_fqn)) as Hcut. rewrite Hdrop in Hcut.
    apply (f_equal str) in Hcut. rewrite str_chars in Hcut. rewrite <- Hcut at 1.
    rewrite str_app. f_equal.
    change (sep :: g2' ++ "."%char :: g3' ++ rest')
      with ([sep] ++ g2' ++ ["."%char] ++ g3' ++ rest').
    now rewrite !str_app.
Qed.

(** X2: whenever the table pattern matches, the three parts returned are
    components, not empty and without a dot, and the name starts with them:
    the project, a dot or a colon, the dataset, a dot, the table, and then
    nothing or a further dot; a name without a dot is refused with the
    [AttributeError] of [None.group]. *)
Theorem split_table_fqn_parts (table_fqn : string) :
  (forall p d t, _split_table_fqn table_fqn = Return (p, d, t) ->
     is_component p = true /\ is_component d = true /\ is_component t = true
     /\ exists sep rest,
          is_dot_or_colon sep = true /\ is_tail rest = true
          /\ table_fqn = p +:+ String sep (d +:+ "." +:+ t +:+ rest))
  /\ (forall e, _split_table_fqn table_fqn = Raise e -> e = AttributeError)
  /\ (no_char "." table_fqn = true -> _split_table_fqn table_fqn = Raise AttributeError).
Proof.
  split; [apply _split_table_fqn_Return|].
  assert (Hraise : forall e, _split_table_fqn table_fqn = Raise e -> e = AttributeError).
  { intros e. unfold _split_table_fqn.
    destruct (search_table_pattern table_fqn); congruence. }
  split; [exact Hraise|].
  intros Hnodot. destruct (_split_table_fqn table_fqn) as [e|[[p d] t]] eqn:Hsplit.
  - now rewrite (Hraise e eq_refl).
  - destruct (_split_table_fqn_Return _ p d t Hsplit) as (_ & _ & _ & sep & rest & _ & _ & Heq).
    exfalso. unfold no_char in Hnodot. rewrite Heq in Hnodot.
    rewrite chars_append in Hnodot. change (chars (String sep ?x)) with (sep :: chars x) in Hnodot.
    rewrite chars_append in Hnodot. rewrite forallb_app in Hnodot. simpl in Hnodot.
    rewrite forallb_app in Hnodot. simpl in Hnodot.
    rewrite !andb_false_r in Hnodot. discriminate.
Qed.

Lemma split_table_fqn_parts_witness :
  _split_table_fqn "my-project.sales" = Raise AttributeError
  /\ _split_table_fqn "orders" = Raise AttributeError
  /\ exists sep rest,
       "my-project:sales.orders.2024"
       = "my-project:sales" +:+ String sep ("orders" +:+ "." +:+ "2024" +:+ rest).
Proof.
  split; [reflexivity|].
  split; [exact (proj2 (proj2 (split_table_fqn_parts "orders")) eq_refl)|].
  destruct (proj1 (split_table_fqn_parts "my-project:sales.orders.2024")
              "my-project:sales" "orders" "2024" eq_refl)
    as (_ & _ & _ & sep & rest & _ & _ & Heq).
  exists sep, rest. exact Heq.
Defined.

Lemma search_dataset_pattern_spec (dataset_fqn p d : string) :
  search_dataset_pattern dataset_fqn = Some (p, d) <->
  is_component p = true /\ is_component d = true
  /\ exists rest, is_tail rest = true /\ dataset_fqn = p +:+ "." +:+ d +:+ rest.
Proof.
  unfold search_dataset_pattern. split.
  - destruct (span_non_dot (chars dataset_fqn)) as [g1 rest1] eqn:H1.
    apply span_non_dot_spec in H1 as (Hs & Hg1 & Hrest1).
    destruct g1 as [|x g1]; [discriminate|].
    destruct rest1 as [|dot rest']; [discriminate|].
    destruct Hrest1 as [|[r [= -> ->]]]; [discriminate|].
    destruct (span_non_dot r) as [g2 rest2] eqn:H2.
    apply span_non_dot_spec in H2 as (-> & Hg2 & Hrest2). simpl fst.
    destruct g2 as [|y g2]; [discriminate|].
    intros [= <- <-].
    change (String x (str g1)) with (str (x :: g1)).
    change (String y (str g2)) with (str (y :: g2)).
    split; [now apply is_component_str|]. split; [now apply is_component_str|].
    exists (str rest2). split; [now apply is_tail_str|].
    rewrite <- (str_chars dataset_fqn) at 1. rewrite Hs.
    change ((x :: g1) ++ "."%char :: (y :: g2) ++ rest2)
      with ((x :: g1) ++ ["."%char] ++ (y :: g2) ++ rest2).
    now rewrite !str_app.
  - intros (Hp & Hd & rest & Hrest & ->).
    apply is_component_chars in Hp as [Hp Hpd].
    apply is_component_chars in Hd as [Hd Hdd].
    apply is_tail_chars in Hrest.
    rewrite !chars_append. change (chars ".") with ["."%char]. simpl app.
    rewrite (span_non_dot_app (chars p)) by (try assumption; right; now eexists).
    destruct (chars p) as [|x g1] eqn:Hcp; [contradiction|].
    rewrite (span_non_dot_app (chars d) (chars rest) Hdd Hrest). simpl fst.
    destruct (chars d) as [|y g2] eqn:Hcd; [contradiction|].
    now rewrite <- Hcp, <- Hcd, !str_chars.
Qed.

(** X3: the dataset pattern returns [(p, d)] exactly for the names that
    start with a component [p], a dot and a component [d], followed by nothing
    or by a further dot; every other name is refused with [AttributeError];
    a table name in dotted form is split into its project and dataset. *)
Theorem split_dataset_fqn_spec (dataset_fqn : string) :
  (forall p d,
     _split_dataset_fqn dataset_fqn = Return (p, d) <->
     is_component p = true /\ is_component d = true
     /\ exists rest, is_tail rest = true /\ dataset_fqn = p +:+ "." +:+ d +:+ rest)
  /\ (forall e, _split_dataset_fqn dataset_fqn = Raise e -> e = AttributeError)
  /\ (forall p d t, _split_table_fqn dataset_fqn = Return (p, d, t) ->
        (exists rest, dataset_fqn = p +:+ "." +:+ rest) ->
        _split_dataset_fqn dataset_fqn = Return (p, d)).
Proof.
  split; [|split].
  - intros p d. rewrite <- search_dataset_pattern_spec. unfold _split_dataset_fqn.
    destruct (search_dataset_pattern dataset_fqn) as [r|]; split; congruence.
  - intros e. unfold _split_dataset_fqn.
    destruct (search_dataset_pattern dataset_fqn); congruence.
  - intros p d t Hsplit [rest0 Hdot].
    assert (Hs : search_dataset_pattern dataset_fqn = Some (p, d));
      [|unfold _split_dataset_fqn; now rewrite Hs].
    apply search_dataset_pattern_spec.
    destruct (_split_table_fqn_Return dataset_fqn p d t Hsplit)
      as (Hp & Hd & Ht & sep & rest & Hsep & Hrest & Heq).
    split; [exact Hp|]. split; [exact Hd|].
    exists ("." +:+ t +:+ rest). split; [reflexivity|].
    rewrite Heq in Hdot |- *.
    apply (f_equal chars) in Hdot. rewrite !chars_append in Hdot.
    apply app_inv_head in Hdot. injection Hdot as -> _.
    reflexivity.
Qed.

(** ** The listing of a dataset *)

Lemma replace_colon (s : string) : replace ":" "." s = dotted s.
Proof.
  unfold replace, dotted, chars.
  induction s as [|a s IH]; [reflexivity|].
  cbn [replace_from String.list_ascii_of_string map].
  change (String.length ":" - 1)%nat with 0%nat.
  cbn [String.prefix]. destruct (ascii_dec ":" a) as [<-|Hne].
  - assert (Hnil : String.prefix "" s = true) by now destruct s.
    rewrite Hnil, IH. reflexivity.
  - assert (Ha : Ascii.eqb a ":" = false) by (apply Ascii.eqb_neq; congruence).
    rewrite Ha, IH. reflexivity.
Qed.

Lemma dotted_length (s : string) : String.length (dotted s) = String.length s.
Proof.
  unfold dotted, chars. induction s as [|a s IH]; [reflexivity|].
  simpl. now rewrite IH.
Qed.

Lemma dotted_no_colon (s : string) : no_char ":" (dotted s) = true.
Proof.
  unfold no_char, dotted. rewrite chars_str.
  apply forallb_forall. intros a Ha. apply in_map_iff in Ha as (b & <- & _).
  destruct (Ascii.eqb b ":") eqn:Hb; [reflexivity|]. now rewrite Hb.
Qed.

Lemma dotted_id (s : string) : no_char ":" s = true -> dotted s = s.
Proof.
  unfold no_char, dotted. intros H. rewrite <- (str_chars s) at 2. f_equal.
  induction (chars s) as [|a l IH]; [reflexivity|].
  simpl in H. apply andb_true_iff in H as [Ha Hl]. apply negb_true_iff in Ha.
  simpl. now rewrite Ha, (IH Hl).
Qed.

Lemma dotted_append (a b : string) : dotted (a +:+ b) = dotted a +:+ dotted b.
Proof. unfold dotted. now rewrite chars_append, map_app, str_app. Qed.

(** X4: the names listed for a dataset are the table ids of the service, in
    its order, with every colon turned into a dot: the legacy id
    [project:dataset.table] is listed as [project.dataset.table], which the
    table pattern splits back into its three parts.  A dataset name that the
    pattern refuses, or a listing that fails, ends the call with the error
    and the world as it was. *)
Theorem listed_tables_are_dotted (E : Env) (dataset_fqn : string) (w : World) :
  (forall p d ids,
     _split_dataset_fqn dataset_fqn = Return (p, d) ->
     list_tables E p d = Return ids ->
     _list_tables_in_dataset E dataset_fqn w = (Return (map dotted ids), w)
     /\ (forall name, name ∈ map dotted ids -> no_char ":" name = true)
     /\ (forall i p' d' t',
           ids !! i = Some (p' +:+ ":" +:+ d' +:+ "." +:+ t') ->
           is_component p' = true -> is_component d' = true -> is_component t' = true ->
           no_char ":" p' = true -> no_char ":" d' = true -> no_char ":" t' = true ->
           map dotted ids !! i = Some (p' +:+ "." +:+ d' +:+ "." +:+ t')
           /\ _split_table_fqn (p' +:+ "." +:+ d' +:+ "." +:+ t') = Return (p', d', t')))
  /\ (forall e, _split_dataset_fqn dataset_fqn = Raise e ->
        _list_tables_in_dataset E dataset_fqn w = (Raise AttributeError, w))
  /\ (forall p d e,
        _split_dataset_fqn dataset_fqn = Return (p, d) ->
        list_tables E p d = Raise e ->
        _list_tables_in_dataset E dataset_fqn w = (Raise e, w)).
Proof.
  split; [|split].
  - intros p d ids Hs Hl. split; [|split].
    + rewrite (_list_tables_in_dataset_run E dataset_fqn p d ids w Hs Hl).
      f_equal. f_equal. apply map_ext. intros id. apply replace_colon.
    + intros name Hin. apply list_elem_of_fmap in Hin as (id & -> & _).
      apply dotted_no_colon.
    + intros i p' d' t' Hi Hp Hd Ht Hpc Hdc Htc. split.
      * rewrite list_lookup_fmap, Hi. simpl. f_equal.
        rewrite !dotted_append, (dotted_id p'), (dotted_id d'), (dotted_id t') by assumption.
        reflexivity.
      * pose proof (_split_table_fqn_dotted p' d' t' "" Hp Hd Ht eq_refl) as H.
        now rewrite append_empty_r in H.
  - intros e Hs. unfold _list_tables_in_dataset.
    rewrite run_bind. unfold lift at 1.
    revert Hs. unfold _split_dataset_fqn.
    destruct (search_dataset_pattern dataset_fqn); [discriminate|reflexivity].
  - intros p d e Hs Hl. unfold _list_tables_in_dataset.
    rewrite run_bind. unfold lift at 1. rewrite Hs. cbv beta iota.
    rewrite run_bind. unfold lift. now rewrite Hl.
Qed.

Lemma listed_tables_are_dotted_witness :
  _list_tables_in_dataset (sample_env answering) "p.d" (sample_world sample_options)
  = (Return ["p.d.c"; "p.d.a"; "p.d.b"], sample_world sample_options)
  /\ _split_table_fqn "p.d.a" = Return ("p", "d", "a")
  /\ _list_tables_in_dataset (sample_env answering) "dataset" (sample_world sample_options)
     = (Raise AttributeError, sample_world sample_options).
Proof.
  destruct (listed_tables_are_dotted (sample_env answering) "p.d"
              (sample_world sample_options)) as (Hok & _).
  destruct (Hok "p" "d" ["p:d.c"; "p:d.a"; "p:d.b"] eq_refl eq_refl) as (Hrun & _ & Hsplit).
  split; [exact Hrun|].
  split; [exact (proj2 (Hsplit 1%nat "p" "d" "a" eq_refl eq_refl eq_refl eq_refl
                          eq_refl eq_refl eq_refl))|].
  exact (proj1 (proj2 (listed_tables_are_dotted (sample_env answering) "dataset"
                         (sample_world sample_options))) AttributeError eq_refl).
Defined.

(** X5: the dotted and the legacy form of the name of a table have the same
    resource string, the one of the docstring; a name that the table pattern
    refuses has none. *)
Theorem resource_string_of_name (p d t : string) :
  is_component p = true -> is_component d = true -> is_component t = true ->
  _construct_bq_resource_string (p +:+ "." +:+ d +:+ "." +:+ t) = Return (bq_resource p d t)
  /\ (no_char ":" d = true ->
      _construct_bq_resource_string (p +:+ ":" +:+ d +:+ "." +:+ t)
      = Return (bq_resource p d t))
  /\ (forall table_fqn, no_char "." table_fqn = true ->
        _construct_bq_resource_string table_fqn = Raise AttributeError).
Proof.
  intros Hp Hd Ht. unfold _construct_bq_resource_string. split; [|split].
  - pose proof (_split_table_fqn_dotted p d t "" Hp Hd Ht eq_refl) as H.
    rewrite append_empty_r in H. now rewrite H.
  - intros Hc. now rewrite (_split_table_fqn_legacy p d t Hp Hd Ht Hc).
  - intros table_fqn Hnodot.
    destruct (_split_table_fqn table_fqn) as [e|[[p' d'] t']] eqn:Hsplit.
    + revert Hsplit. unfold _split_table_fqn.
      destruct (search_table_pattern table_fqn); congruence.
    + destruct (_split_table_fqn_Return _ _ _ _ Hsplit)
        as (_ & _ & _ & sep & rest & _ & _ & Heq).
      exfalso. unfold no_char in Hnodot. rewrite Heq in Hnodot.
      rewrite chars_append in Hnodot.
      change (chars (String sep ?x)) with (sep :: chars x) in Hnodot.
      rewrite chars_append in Hnodot. rewrite forallb_app in Hnodot. simpl in Hnodot.
      rewrite forallb_app in Hnodot. simpl in Hnodot.
      rewrite !andb_false_r in Hnodot. discriminate.
Qed.

Lemma resource_string_of_name_witness :
  _construct_bq_resource_string "my-project.sales.orders"
  = Return "//bigquery.googleapis.com/projects/my-project/datasets/sales/tables/orders"
  /\ _construct_bq_resource_string "my-project:sales.orders"
     = Return "//bigquery.googleapis.com/projects/my-project/datasets/sales/tables/orders".
Proof.
  destruct (resource_string_of_name "my-project" "sales" "orders" eq_refl eq_refl eq_refl)
    as (Hdot & Hcolon & _).
  split; [exact Hdot | exact (Hcolon eq_refl)].
Defined.

(** ** The mapping file *)

Lemma split_chars_free (sep : ascii) (cur a : list ascii) :
  sep_free sep a = true -> split_chars sep cur a = [str (rev cur ++ a)].
Proof.
  revert cur. induction a as [|x a IH]; intros cur H; simpl.
  - now rewrite app_nil_r.
  - simpl in H. apply andb_true_iff in H as [Hx Ha]. apply negb_true_iff in Hx.
    rewrite Hx, (IH _ Ha). simpl. now rewrite <- app_assoc.
Qed.

Lemma split_chars_sep (sep : ascii) (cur a b : list ascii) :
  sep_free sep a = true ->
  split_chars sep cur (a ++ sep :: b) = str (rev cur ++ a) :: split_chars sep [] b.
Proof.
  revert cur. induction a as [|x a IH]; intros cur H; simpl.
  - now rewrite Ascii.eqb_refl, app_nil_r.
  - simpl in H. apply andb_true_iff in H as [Hx Ha]. apply negb_true_iff in Hx.
    rewrite Hx, (IH _ Ha). simpl. now rewrite <- app_assoc.
Qed.

Lemma split_max_chars_sep (sep : ascii) (m : nat) (cur a b : list ascii) :
  sep_free sep a = true ->
  split_max_chars sep (S m) cur (a ++ sep :: b)
  = str (rev cur ++ a) :: split_max_chars sep m [] b.
Proof.
  revert cur. induction a as [|x a IH]; intros cur H.
  - simpl. now rewrite Ascii.eqb_refl, app_nil_r.
  - simpl in H. apply andb_true_iff in H as [Hx Ha]. apply negb_true_iff in Hx.
    cbn [app split_max_chars]. rewrite Hx, (IH _ Ha). simpl. now rewrite <- app_assoc.
Qed.

Lemma split_max_chars_0 (sep : ascii) (cur s : list ascii) :
  split_max_chars sep 0 cur s = [str (rev cur ++ s)].
Proof. now destruct s. Qed.

Lemma split_max_chars_length (sep : ascii) (m : nat) (cur : list ascii) (s : string) :
  length (split_max_chars sep m cur (chars s)) = S (Nat.min m (count_char sep s)).
Proof.
  revert m cur. induction s as [|a s IH]; intros [|m] cur; try reflexivity.
  change (chars (String a s)) with (a :: chars s).
  cbn [split_max_chars count_char].
  destruct (Ascii.eqb a sep).
  - simpl. now rewrite IH.
  - now rewrite IH.
Qed.

Lemma lstrip_chars_nil (l : list ascii) :
  lstrip_chars l = [] -> forallb py_isspace l = true.
Proof.
  induction l as [|a l IH]; [reflexivity|]. simpl.
  destruct (py_isspace a); [exact IH | discriminate].
Qed.

Lemma lstrip_chars_head (l : list ascii) (a : ascii) (r : list ascii) :
  lstrip_chars l = a :: r -> py_isspace a = false.
Proof.
  induction l as [|x l IH]; [discriminate|]. simpl.
  destruct (py_isspace x) eqn:Hx; [exact IH|]. now intros [= <- _].
Qed.

Lemma forallb_rev {A} (f : A -> bool) (l : list A) :
  forallb f (rev l) = forallb f l.
Proof.
  induction l as [|a l IH]; [reflexivity|].
  simpl. rewrite forallb_app, IH. simpl. rewrite andb_true_r. apply andb_comm.
Qed.

(** A text that strips to nothing is made of white space. *)
Lemma strip_empty (s : string) :
  strip s = "" -> forallb py_isspace (chars s) = true.
Proof.
  unfold strip. intros H. apply (f_equal chars) in H. rewrite chars_str in H.
  change (chars "") with (@nil ascii) in H.
  apply (f_equal (@rev ascii)) in H. rewrite rev_involutive in H. simpl in H.
  apply lstrip_chars_nil in H. rewrite forallb_rev in H.
  destruct (lstrip_chars (chars s)) as [|a r] eqn:Hl.
  - now apply lstrip_chars_nil.
  - apply lstrip_chars_head in Hl. simpl in H. now rewrite Hl in H.
Qed.

Lemma mapping_line_not_blank (table doc : string) :
  strip (table +:+ "," +:+ doc) <> "".
Proof.
  intros H. apply strip_empty in H. rewrite !chars_append in H.
  rewrite forallb_app in H. apply andb_true_iff in H as [_ H]. discriminate.
Qed.

Lemma parse_mapping_line_row (table doc : string) :
  no_char "," table = true -> no_char "," doc = true ->
  parse_mapping_line (table +:+ "," +:+ doc) = Return (table, strip doc).
Proof.
  intros Ht Hd. unfold parse_mapping_line, split.
  rewrite !chars_append. change (chars ",") with [","%char]. simpl app.
  rewrite (split_chars_sep _ _ _ _ Ht), (split_chars_free _ _ _ Hd). simpl.
  now rewrite !str_chars.
Qed.

Lemma parse_mapping_line_no_comma (line : string) :
  no_char "," line = true -> parse_mapping_line line = Raise IndexError.
Proof.
  intros H. unfold parse_mapping_line, split. now rewrite (split_chars_free _ _ _ H).
Qed.

Lemma parse_mapping_line_Raise (line : string) (e : exn) :
  parse_mapping_line line = Raise e -> e = IndexError.
Proof.
  unfold parse_mapping_line. destruct (split "," line) as [|a [|b l]]; congruence.
Qed.

Lemma parse_mapping_lines_Raise (lines : list string) (e : exn) :
  parse_mapping_lines lines = Raise e -> e = IndexError.
Proof.
  induction lines as [|line rest IH]; [discriminate|]. simpl.
  destruct (parse_mapping_line line) as [e'|t] eqn:Hl.
  - intros [= <-]. now apply parse_mapping_line_Raise in Hl.
  - destruct (parse_mapping_lines rest) as [e'|ts]; [|discriminate].
    intros [= <-]. now apply IH.
Qed.

Lemma parse_mapping_lines_bad (lines : list string) (line : string) :
  line ∈ lines -> parse_mapping_line line = Raise IndexError ->
  parse_mapping_lines lines = Raise IndexError.
Proof.
  intros Hin Hbad. induction lines as [|x rest IH]; [now apply not_elem_of_nil in Hin|].
  simpl. apply elem_of_cons in Hin as [<-|Hin].
  - now rewrite Hbad.
  - destruct (parse_mapping_line x) as [e|t] eqn:Hx.
    + now rewrite (parse_mapping_line_Raise _ _ Hx).
    + now rewrite (IH Hin).
Qed.

(** The lines of a text made of lines without a line feed. *)
Lemma split_unlines (lines : list string) :
  lines <> [] ->
  (forall line, line ∈ lines -> no_char "010" line = true) ->
  split "010" (unlines lines) = lines.
Proof.
  intros Hne Hfree. unfold split.
  induction lines as [|line rest IH]; [contradiction|].
  destruct rest as [|line' rest].
  - simpl unlines. rewrite split_chars_free by (apply Hfree, list_elem_of_here).
    simpl. now rewrite str_chars.
  - change (unlines (line :: line' :: rest))
      with (line +:+ String "010"%char (unlines (line' :: rest))).
    rewrite chars_append.
    change (chars (String "010"%char ?x)) with ("010"%char :: chars x).
    rewrite split_chars_sep by (apply Hfree, list_elem_of_here).
    simpl rev. simpl app. rewrite str_chars. f_equal.
    apply IH; [discriminate|].
    intros l Hl. apply Hfree. now apply list_elem_of_further.
Qed.

Lemma parse_mapping_of (lines : list (option (string * string))) :
  (forall table doc, Some (table, doc) ∈ lines ->
     no_char "," table = true /\ no_char "," doc = true) ->
  parse_mapping_lines
    (filter (fun line => negb (String.eqb (strip line) "")) (map mapping_line lines))
  = Return (mapping_of lines).
Proof.
  intros Hrows. induction lines as [|[[table doc]|] rest IH]; [reflexivity| |].
  - cbn [map mapping_line]. rewrite filter_cons_True.
    + destruct (Hrows table doc (list_elem_of_here _ _)) as [Ht Hd].
      cbn [parse_mapping_lines]. rewrite (parse_mapping_line_row _ _ Ht Hd).
      rewrite IH; [reflexivity|].
      intros t d Hin. apply Hrows. now apply list_elem_of_further.
    + apply Is_true_true, negb_true_iff, String.eqb_neq, mapping_line_not_blank.
  - cbn [map mapping_line]. rewrite filter_cons_False.
    + apply IH. intros t d Hin. apply Hrows. now apply list_elem_of_further.
    + intros H. apply Is_true_true in H. discriminate.
Qed.

Lemma blob_uri_split (scheme bucket blob : string) :
  no_char "/" scheme = true -> no_char "/" bucket = true ->
  drop 2 (split_max "/" 3 (blob_uri scheme bucket blob)) = [bucket; blob].
Proof.
  intros Hs Hb. unfold split_max, blob_uri.
  rewrite !chars_append. change (chars "//") with ["/"%char; "/"%char].
  change (chars "/") with ["/"%char]. simpl app.
  rewrite (split_max_chars_sep _ _ _ _ _ Hs).
  cbn [split_max_chars]. rewrite Ascii.eqb_refl.
  rewrite (split_max_chars_sep "/" 0 [] _ _ Hb).
  rewrite split_max_chars_0. simpl. now rewrite !str_chars.
Qed.

Lemma _get_tables_from_uri_blob (E : Env) (scheme bucket blob : string) (w : World) :
  no_char "/" scheme = true -> no_char "/" bucket = true ->
  _get_tables_from_uri E (Some (blob_uri scheme bucket blob)) w
  = (match download_as_text E bucket blob with
     | Raise e => Raise e
     | Return csv_data =>
         parse_mapping_lines
           (filter (fun line => negb (String.eqb (strip line) "")) (split "010" csv_data))
     end, w).
Proof.
  intros Hs Hb. unfold _get_tables_from_uri. rewrite try_rethrow.
  rewrite (blob_uri_split _ _ _ Hs Hb). rewrite run_bind. unfold lift.
  now destruct (download_as_text E bucket blob).
Qed.

(** X6: the mapping is read from the blob that the URI names, the bucket
    being the text between the second and the third slash and the blob all
    that follows; each line of the file that is not blank gives one pair, in
    the order of the file: the text before the comma as it stands, and the
    text after it with the white space at its ends removed.  The world is
    left as it was. *)
Theorem mapping_file_is_read_line_by_line (E : Env) (scheme bucket blob : string)
    (lines : list (option (string * string))) (w : World) :
  no_char "/" scheme = true -> no_char "/" bucket = true ->
  (forall table doc, Some (table, doc) ∈ lines ->
     no_char "," table = true /\ no_char "010" table = true
     /\ no_char "," doc = true /\ no_char "010" doc = true) ->
  download_as_text E bucket blob = Return (unlines (map mapping_line lines)) ->
  _get_tables_from_uri E (Some (blob_uri scheme bucket blob)) w
  = (Return (mapping_of lines), w).
Proof.
  intros Hs Hb Hrows Hfile.
  rewrite (_get_tables_from_uri_blob E _ _ _ w Hs Hb), Hfile. f_equal.
  destruct lines as [|l lines]; [reflexivity|].
  rewrite split_unlines.
  - apply parse_mapping_of. intros t d Hin.
    destruct (Hrows t d Hin) as (Ht & _ & Hd & _). now split.
  - discriminate.
  - intros line Hin. apply list_elem_of_fmap in Hin as ([[t d]|] & -> & Hin); [|reflexivity].
    destruct (Hrows t d Hin) as (_ & Ht & _ & Hd).
    unfold no_char in *. cbn [mapping_line]. rewrite !chars_append, !forallb_app.
    now rewrite Ht, Hd.
Qed.

Lemma mapping_file_is_read_line_by_line_witness :
  _get_tables_from_uri (sample_env answering) (Some "gs://docs/mapping.csv")
    (sample_world sample_options)
  = (Return [("p.d.a", "gs://docs/a.pdf"); ("p.d.zzz", "gs://docs/z.pdf")],
     sample_world sample_options).
Proof.
  apply (mapping_file_is_read_line_by_line (sample_env answering) "gs:" "docs" "mapping.csv"
           [Some ("p.d.a", "gs://docs/a.pdf"); Some ("p.d.zzz", " gs://docs/z.pdf ")]).
  - reflexivity.
  - reflexivity.
  - intros table doc Hin.
    apply elem_of_cons in Hin as [[= -> ->]|Hin]; [repeat split; reflexivity|].
    apply list_elem_of_singleton in Hin as [= -> ->]. repeat split; reflexivity.
  - reflexivity.
Defined.

(** X7: what [_get_tables_from_uri] refuses, the world left as it was: no
    URI at all ([AttributeError]); a URI with fewer than three slashes, which
    does not unpack into a bucket and a blob ([ValueError]); a blob that
    cannot be downloaded (the error of the download); a file with a line that
    is not blank and has no comma ([IndexError]). *)
Theorem mapping_file_errors (E : Env) (w : World) :
  _get_tables_from_uri E None w = (Raise AttributeError, w)
  /\ (forall uri, (count_char "/" uri < 3)%nat ->
        _get_tables_from_uri E (Some uri) w = (Raise (ValueError UnpackMismatch), w))
  /\ (forall scheme bucket blob e,
        no_char "/" scheme = true -> no_char "/" bucket = true ->
        download_as_text E bucket blob = Raise e ->
        _get_tables_from_uri E (Some (blob_uri scheme bucket blob)) w = (Raise e, w))
  /\ (forall scheme bucket blob lines line,
        no_char "/" scheme = true -> no_char "/" bucket = true ->
        (forall l, l ∈ lines -> no_char "010" l = true) ->
        download_as_text E bucket blob = Return (unlines lines) ->
        line ∈ lines -> strip line <> "" -> no_char "," line = true ->
        _get_tables_from_uri E (Some (blob_uri scheme bucket blob)) w
        = (Raise IndexError, w)).
Proof.
  split; [|split; [|split]].
  - unfold _get_tables_from_uri. now rewrite try_rethrow.
  - intros uri Hcount. unfold _get_tables_from_uri. rewrite try_rethrow.
    pose proof (split_max_chars_length "/" 3 [] uri) as Hlen.
    unfold split_max.
    destruct (split_max_chars "/" 3 [] (chars uri)) as [|a [|b [|x [|y l]]]];
      cbn [length] in Hlen; try reflexivity; lia.
  - intros scheme bucket blob e Hs Hb Hfail.
    now rewrite (_get_tables_from_uri_blob E _ _ _ w Hs Hb), Hfail.
  - intros scheme bucket blob lines line Hs Hb Hfree Hfile Hin Hnb Hnc.
    rewrite (_get_tables_from_uri_blob E _ _ _ w Hs Hb), Hfile. f_equal.
    rewrite split_unlines; [|intros ->; now apply not_elem_of_nil in Hin|exact Hfree].
    apply (parse_mapping_lines_bad _ line).
    + apply list_elem_of_filter. split; [|exact Hin].
      apply Is_true_true, negb_true_iff, String.eqb_neq, Hnb.
    + now apply parse_mapping_line_no_comma.
Qed.

Lemma mapping_file_errors_witness :
  _get_tables_from_uri (sample_env answering) (Some "gs://docs") (sample_world sample_options)
  = (Raise (ValueError UnpackMismatch), sample_world sample_options)
  /\ _get_tables_from_uri
       (mkEnv "p" "us-central1" "us-central1" "2024-06-01T12:00:00Z"
          (fun template _ => Return template) (fun n _ _ _ => answering n) (fun n _ => n)
          (fun _ => Return "{}") (fun _ => Return "US") (fun _ _ => Return [])
          (fun _ _ => Return (unlines ["p.d.a,gs://docs/a.pdf"; "p.d.b"; ""]))
          (fun _ => Return []) (fun _ => Return []) (fun _ _ => Return [])
          (fun _ _ => Return []) (fun _ => Return ∅) (fun _ _ => Return ""))
       (Some "gs://docs/mapping.csv") (sample_world sample_options)
     = (Raise IndexError, sample_world sample_options).
Proof.
  split.
  - apply (proj1 (proj2 (mapping_file_errors (sample_env answering)
                           (sample_world sample_options)))).
    simpl. lia.
  - apply (proj2 (proj2 (proj2 (mapping_file_errors _ (sample_world sample_options))))
             "gs:" "docs" "mapping.csv" ["p.d.a,gs://docs/a.pdf"; "p.d.b"; ""] "p.d.b").
    + reflexivity.
    + reflexivity.
    + intros l Hl. repeat (apply elem_of_cons in Hl as [->|Hl]; [reflexivity|]).
      now apply not_elem_of_nil in Hl.
    + reflexivity.
    + apply list_elem_of_further, list_elem_of_here.
    + discriminate.
    + reflexivity.
Defined.

(** ** Column information, orderings, job sources and column updates *)

Lemma py_eqb_PStr (v : PyVal) (s : string) : py_eqb v (PStr s) = true -> v = PStr s.
Proof.
  destruct v; try discriminate. simpl. intros H. now apply String.eqb_eq in H as ->.
Qed.

Lemma column_info_of_name (field info : PyVal) :
  column_info_of field = Some info ->
  exists items,
    info = PDict items
    /\ item "name" field = dict_get "name" items
    /\ item "type" field = dict_get "type" items
    /\ item "mode" field = dict_get "mode" items
    /\ is_Some (dict_get "null_ratio" items)
    /\ is_Some (dict_get "distinct_ratio" items).
Proof.
  unfold column_info_of.
  destruct (item "name" field) as [fname|]; [|discriminate].
  destruct (item "type" field) as [ftype|]; [|discriminate].
  destruct (item "mode" field) as [fmode|]; [|discriminate].
  destruct (item "profile" field) as [prof|]; [|discriminate]. cbn [mbind option_bind].
  destruct (item_or "nullRatio" (PNum "0") prof) as [null_ratio|]; [|discriminate].
  destruct (item_or "distinctRatio" (PNum "0") prof) as [distinct_ratio|]; [|discriminate].
  cbn [mbind option_bind].
  destruct (match item "integerProfile" prof with
            | Some p => numeric_profile p
            | None => _
            end) as [specific|]; [|discriminate].
  cbn [mbind option_bind]. intros [= <-]. eexists. split; [reflexivity|].
  repeat split; try reflexivity; eexists; reflexivity.
Qed.

Lemma find_column_info_first (pre : list PyVal) (field : PyVal) (post : list PyVal)
    (column_name : string) :
  (forall f, f ∈ pre -> exists n, item "name" f = Some (PStr n) /\ n <> column_name) ->
  item "name" field = Some (PStr column_name) ->
  find_column_info (pre ++ field :: post) column_name
  = match column_info_of field with Some info => info | None => PNone end.
Proof.
  intros Hpre Hfield. induction pre as [|f pre IH]; simpl.
  - rewrite Hfield. simpl. now rewrite String.eqb_refl.
  - destruct (Hpre f (list_elem_of_here _ _)) as (n & -> & Hn). simpl.
    apply String.eqb_neq in Hn. rewrite Hn. apply IH.
    intros f' Hf'. apply Hpre. now apply list_elem_of_further.
Qed.

Lemma find_column_info_spec (fields : list PyVal) (column_name : string) :
  find_column_info fields column_name = PNone
  \/ exists items,
       find_column_info fields column_name = PDict items
       /\ dict_get "name" items = Some (PStr column_name)
       /\ is_Some (dict_get "type" items)
       /\ is_Some (dict_get "mode" items)
       /\ is_Some (dict_get "null_ratio" items)
       /\ is_Some (dict_get "distinct_ratio" items).
Proof.
  induction fields as [|field rest IH]; [now left|]. simpl.
  destruct (item "name" field) as [n|] eqn:Hname; [|now left].
  destruct (py_eqb n (PStr column_name)) eqn:Heq; [|exact IH].
  apply py_eqb_PStr in Heq as ->.
  destruct (column_info_of field) as [info|] eqn:Hinfo; [|now left].
  destruct (column_info_of_name _ _ Hinfo) as (items & -> & Hn & Hty & Hmo & Hnr & Hdr).
  right. exists items. split; [reflexivity|]. rewrite <- Hn, Hname.
  split; [reflexivity|].
  unfold column_info_of in Hinfo.
  destruct (item "type" field); [|now rewrite Hname in Hinfo].
  destruct (item "mode" field); [|now rewrite Hname in Hinfo].
  rewrite <- Hty, <- Hmo. repeat split; try assumption; eexists; reflexivity.
Qed.

(** X8: the column information extracted from a table profile is [None] or
    a dictionary about the column asked for: its name is the column name, and
    it has a type, a mode, a null ratio and a distinct ratio.  Only the first
    profile result is read, and in it the first field that bears the name;
    with no profile result the answer is [None]. *)
Theorem column_info_is_about_the_column (profile : list PyVal) (column_name : string) :
  (_extract_column_info_from_table_profile profile column_name = PNone
   \/ exists items,
        _extract_column_info_from_table_profile profile column_name = PDict items
        /\ dict_get "name" items = Some (PStr column_name)
        /\ is_Some (dict_get "type" items)
        /\ is_Some (dict_get "mode" items)
        /\ is_Some (dict_get "null_ratio" items)
        /\ is_Some (dict_get "distinct_ratio" items))
  /\ _extract_column_info_from_table_profile [] column_name = PNone
  /\ (forall first rest,
        _extract_column_info_from_table_profile (first :: rest) column_name
        = _extract_column_info_from_table_profile [first] column_name)
  /\ (forall other pre field post rest,
        (forall f, f ∈ pre -> exists n, item "name" f = Some (PStr n) /\ n <> column_name) ->
        item "name" field = Some (PStr column_name) ->
        _extract_column_info_from_table_profile
          (PDict [("profile", PDict (("fields", PList (pre ++ field :: post)) :: other))]
           :: rest) column_name
        = match column_info_of field with Some info => info | None => PNone end).
Proof.
  split; [|split; [reflexivity|split; [reflexivity|]]].
  - unfold _extract_column_info_from_table_profile.
    destruct profile as [|first rest]; [now left|].
    destruct (item "profile" first ≫= item "fields") as [[| | | |fields| |]|];
      try (now left).
    apply find_column_info_spec.
  - intros other pre field post rest Hpre Hfield.
    unfold _extract_column_info_from_table_profile. simpl.
    now apply find_column_info_first.
Qed.

Lemma column_info_is_about_the_column_witness :
  _extract_column_info_from_table_profile
    [PDict [("profile",
             PDict [("fields",
                     PList [PDict [("name", PStr "id"); ("type", PStr "INTEGER");
                                   ("mode", PStr "REQUIRED");
                                   ("profile", PDict [("distinctRatio", PNum "1")])];
                            PDict [("name", PStr "city"); ("type", PStr "STRING");
                                   ("mode", PStr "NULLABLE");
                                   ("profile",
                                    PDict [("nullRatio", PNum "0.25");
                                           ("stringProfile",
                                            PDict [("minLength", PNum "3");
                                                   ("maxLength", PNum "12")])])]])])]]
    "city"
  = PDict [("name", PStr "city"); ("type", PStr "STRING"); ("mode", PStr "NULLABLE");
           ("null_ratio", PNum "0.25"); ("distinct_ratio", PNum "0");
           ("min_length", PNum "3"); ("max_length", PNum "12"); ("avg_length", PNone)].
Proof.
  etransitivity; [|reflexivity].
  apply (proj2 (proj2 (proj2 (column_info_is_about_the_column [] "city"))) []
             [PDict [("name", PStr "id"); ("type", PStr "INTEGER");
                     ("mode", PStr "REQUIRED");
                     ("profile", PDict [("distinctRatio", PNum "1")])]]
             (PDict [("name", PStr "city"); ("type", PStr "STRING");
                     ("mode", PStr "NULLABLE");
                     ("profile",
                      PDict [("nullRatio", PNum "0.25");
                             ("stringProfile",
                              PDict [("minLength", PNum "3");
                                     ("maxLength", PNum "12")])])])
             [] []).
  - intros f Hf. apply list_elem_of_singleton in Hf as ->.
    exists "id". split; [reflexivity | discriminate].
  - reflexivity.
Defined.

(** X9: whatever the strategy code, known or not, the ordering returns, and
    what it returns is a permutation of the tables it was given: no table is
    dropped or repeated.  The world is left as it was, except that RANDOM
    makes one random draw less than there are tables. *)
Theorem every_order_is_a_permutation (c : Constants) (E : Env) (tables : list string)
    (strategy : Z) (w : World) :
  exists ordered w',
    _order_tables_to_strategy c E tables strategy w = (Return ordered, w')
    /\ ordered ≡ₚ tables
    /\ length ordered = length tables
    /\ (forall table, table ∈ ordered <-> table ∈ tables)
    /\ (w' = w \/ (strategy = STRATEGY_RANDOM c /\ strategy <> STRATEGY_NAIVE c
                  /\ w' = after_draws w (length tables - 1))).
Proof.
  assert (Hrun : exists ordered w',
            _order_tables_to_strategy c E tables strategy w = (Return ordered, w')
            /\ ordered ≡ₚ tables
            /\ (w' = w \/ (strategy = STRATEGY_RANDOM c /\ strategy <> STRATEGY_NAIVE c
                           /\ w' = after_draws w (length tables - 1)))).
  { unfold _order_tables_to_strategy.
    destruct (Z.eqb_spec strategy (STRATEGY_NAIVE c)) as [Hn|Hn];
      [eexists _, _; split; [reflexivity|]; split; [reflexivity | now left]|].
    destruct (Z.eqb_spec strategy (STRATEGY_RANDOM c)) as [Hr|Hr].
    - eexists _, _. split; [reflexivity|]. split; [apply shuffle_from_Permutation|].
      right. repeat split; assumption.
    - destruct (Z.eqb_spec strategy (STRATEGY_ALPHABETICAL c)) as [Ha|Ha];
        eexists _, _; (split; [reflexivity|]); (split; [|now left]);
        [exact (merge_sort_Permutation String.le tables) | reflexivity]. }
  destruct Hrun as (ordered & w' & Hrun & Hp & Hw). exists ordered, w'.
  split; [exact Hrun|]. split; [exact Hp|]. split; [now rewrite Hp|].
  split; [|exact Hw]. intros table. now rewrite Hp.
Qed.

(** ** What the reading methods leave alone *)

#[local] Instance eq_world_preorder : PreOrder (@eq World).
Proof. split; [intros w; reflexivity | intros w1 w2 w3; congruence]. Qed.

(** The steps that leave every world as it is. *)
Ltac frame_leaf :=
  match goal with
  | |- preserves ?R _ =>
      first [ apply (preserves_ret R) | apply (preserves_raise R) | apply (preserves_lift R)
            | apply (preserves_get_table R) | apply (preserves_get_entry R)
            | apply (preserves_options R) | apply (preserves_aspect_type_exists R)
            | apply (preserves_on_NotFound R) | apply (preserves_raise_called R) ]
  end.

(** Sequencing, handlers, loops and branches. *)
Ltac frame_struct :=
  match goal with
  | |- preserves ?R _ =>
      first [ apply (preserves_bind R); [|intros ?]
            | apply (preserves_try R); [|intros ?]
            | apply (preserves_for_each R); intros ?
            | apply (preserves_for_fold R); intros ? ?
            | match goal with
              | |- preserves _ (match ?x with _ => _ end) => destruct x
              end ]
  end.

(** A method is within a relation when its writes, handled by [writes], are. *)
Tactic Notation "frame_by" tactic3(writes) :=
  repeat first [frame_leaf | writes | frame_struct].





(** ** SchemaRewriter: the edges *)

Lemma world_eta (w : World) :
  mkWorld (_client_options w) (bq_tables w) (catalog w) (aspect_types w) (llm_calls w)
    (random_draws w) (slept w) (logged w) = w.
Proof. now destruct w. Qed.

Lemma update_table_same (fqn : string) (t : Table) (w : World) :
  bq_tables w !! fqn = Some t ->
  update_table fqn (mkTable (table_description t) (schema t)) w = (Return tt, w).
Proof.
  intros Ht. unfold update_table, modify. f_equal.
  destruct t as [descr sch]. simpl. rewrite (insert_id _ _ _ Ht). apply world_eta.
Qed.

(** The loop of [_update_column_bq_description] for a description that
    cannot be sliced: it fails at the first column that bears the name. *)
Lemma rewrite_loop_unsliceable (c : Constants) (column_name : string) (d : PyVal)
    (columns acc : list SchemaField) (w : World) :
  slice_description c d = Raise TypeError ->
  for_fold columns acc
    (fun updated column =>
       if String.eqb (name column) column_name
       then column' ← lift (_get_updated_column c column d); ret (updated ++ [column'])
       else ret (updated ++ [column])) w
  = (if existsb (fun column => String.eqb (name column) column_name) columns
     then Raise TypeError else Return (acc ++ columns), w).
Proof.
  intros Hd. revert acc. induction columns as [|column columns IH]; intros acc.
  - simpl. now rewrite app_nil_r.
  - cbn [for_fold existsb]. rewrite run_bind.
    destruct (String.eqb (name column) column_name).
    + rewrite run_bind. unfold lift, _get_updated_column. now rewrite Hd.
    + unfold ret at 1. cbv beta iota. rewrite IH. simpl. now rewrite <- app_assoc.
Qed.

Lemma rewrite_loop_pure (c : Constants) (column_name : string) (d : PyVal)
    (columns acc : list SchemaField) :
  preserves eq
    (for_fold columns acc
       (fun updated column =>
          if String.eqb (name column) column_name
          then column' ← lift (_get_updated_column c column d); ret (updated ++ [column'])
          else ret (updated ++ [column]))).
Proof. frame_by fail. Qed.

Lemma _table_exists_pure (fqn : string) : preserves eq (_table_exists fqn).
Proof. unfold _table_exists. frame_by fail. Qed.

Lemma _get_table_schema_pure (fqn : string) : preserves eq (_get_table_schema fqn).
Proof. unfold _get_table_schema. frame_by fail. Qed.

Lemma _update_table_schema_Raise (fqn : string) (s : list SchemaField) (w : World)
    (e : exn) (w' : World) :
  _update_table_schema fqn s w = (Raise e, w') -> w' = w.
Proof.
  unfold _update_table_schema. rewrite run_bind. unfold get_table.
  destruct (bq_tables w !! fqn); [discriminate|]. now intros [= _ <-].
Qed.

(** X11: the update of the description of a column that the table does not
    have is not an error: whatever the description given, the method returns
    and the warehouse, like the rest of the world, is as it was. *)
Theorem column_update_of_unknown_column (c : Constants) (fqn column_name : string)
    (d : PyVal) (w : World) (t : Table) :
  bq_tables w !! fqn = Some t ->
  (forall column, column ∈ schema t -> name column <> column_name) ->
  _update_column_bq_description c fqn column_name d w = (Return tt, w).
Proof.
  intros Ht Hnone. unfold _update_column_bq_description.
  rewrite run_try_except, run_bind, (_table_exists_Some _ _ _ Ht).
  rewrite run_bind, (_get_table_schema_Some _ _ _ Ht). cbv beta iota.
  rewrite run_bind.
  rewrite (for_fold_map (fun column => column)).
  - simpl app. rewrite map_id, (_update_table_schema_Some _ _ _ _ Ht).
    now rewrite (update_table_same _ _ _ Ht).
  - intros acc x Hx. apply Hnone in Hx. apply String.eqb_neq in Hx. now rewrite Hx.
Qed.

Lemma column_update_of_unknown_column_witness :
  _update_column_bq_description sample_constants "p.d.a" "Name" (PStr "The name")
    (sample_world sample_options)
  = (Return tt, sample_world sample_options)
  /\ _update_column_bq_description sample_constants "p.d.a" "Name" PNone
       (sample_world sample_options)
     = (Return tt, sample_world sample_options).
Proof.
  assert (Hnone : forall column,
            column ∈ [ sample_column "id" "INTEGER" None;
                       sample_column "name" "STRING" None;
                       sample_column "amount" "NUMERIC" (Some 2%Z) ] ->
            name column <> "Name").
  { intros column Hin.
    repeat (apply elem_of_cons in Hin as [->|Hin]; [discriminate|]).
    now apply not_elem_of_nil in Hin. }
  split.
  - exact (column_update_of_unknown_column sample_constants "p.d.a" "Name" (PStr "The name")
             (sample_world sample_options) _ eq_refl Hnone).
  - exact (column_update_of_unknown_column sample_constants "p.d.a" "Name" PNone
             (sample_world sample_options) _ eq_refl Hnone).
Defined.

(** X12: whatever goes wrong in the update of the description of a column,
    the caller gets a [TypeError], the handler calling the exception it
    caught, and the world is as it was: so for a table that does not exist,
    and so for a description [None] given for a column that the table has. *)
Theorem column_update_fails_with_TypeError (c : Constants) (fqn column_name : string)
    (d : PyVal) (w : World) :
  (forall e w', _update_column_bq_description c fqn column_name d w = (Raise e, w') ->
     e = TypeError /\ w' = w)
  /\ (bq_tables w !! fqn = None ->
      _update_column_bq_description c fqn column_name d w = (Raise TypeError, w))
  /\ (forall t column,
        bq_tables w !! fqn = Some t -> column ∈ schema t -> name column = column_name ->
        _update_column_bq_description c fqn column_name PNone w = (Raise TypeError, w)).
Proof.
  split; [|split].
  - intros e w'. unfold _update_column_bq_description.
    rewrite run_try_except, run_bind.
    destruct (_table_exists fqn w) as [[e1|[]] w1] eqn:H1;
      pose proof (_table_exists_pure fqn _ _ _ H1) as <-;
      [now intros [= <- <-]|].
    rewrite run_bind.
    destruct (_get_table_schema fqn w) as [[e2|[s table_schema]] w2] eqn:H2;
      pose proof (_get_table_schema_pure fqn _ _ _ H2) as <-;
      [now intros [= <- <-]|].
    rewrite run_bind.
    destruct (for_fold table_schema [] _ w) as [[e3|updated] w3] eqn:H3;
      pose proof (rewrite_loop_pure c column_name d table_schema [] _ _ _ H3) as <-;
      [now intros [= <- <-]|].
    destruct (_update_table_schema fqn updated w) as [[e4|[]] w4] eqn:H4; [|discriminate].
    apply _update_table_schema_Raise in H4 as ->. now intros [= <- <-].
  - intros Hnone. unfold _update_column_bq_description.
    now rewrite run_try_except, run_bind, (_table_exists_None _ _ Hnone).
  - intros t column Ht Hin Hname. unfold _update_column_bq_description.
    rewrite run_try_except, run_bind, (_table_exists_Some _ _ _ Ht).
    rewrite run_bind, (_get_table_schema_Some _ _ _ Ht). cbv beta iota.
    rewrite run_bind, rewrite_loop_unsliceable by reflexivity.
    assert (Hex : existsb (fun column => String.eqb (name column) column_name) (schema t)
                  = true).
    { apply existsb_exists. exists column. split; [now apply list_elem_of_In|].
      now apply String.eqb_eq. }
    now rewrite Hex.
Qed.

Lemma column_update_fails_with_TypeError_witness :
  _update_column_bq_description sample_constants "p.d.missing" "name" (PStr "The name")
    (sample_world sample_options)
  = (Raise TypeError, sample_world sample_options)
  /\ _update_column_bq_description sample_constants "p.d.a" "name" PNone
       (sample_world sample_options)
     = (Raise TypeError, sample_world sample_options).
Proof.
  split.
  - exact (proj1 (proj2 (column_update_fails_with_TypeError sample_constants "p.d.missing"
                           "name" (PStr "The name") (sample_world sample_options)))
             eq_refl).
  - exact (proj2 (proj2 (column_update_fails_with_TypeError sample_constants "p.d.a"
                           "name" PNone (sample_world sample_options)))
             _ (sample_column "name" "STRING" None) eq_refl
             (list_elem_of_further _ _ _ (list_elem_of_here _ _)) eq_refl).
Defined.

(** ** Accepting a draft that is not there *)

Lemma get_entry_None (entry_name : string) (requested : list string) (w : World) :
  catalog w !! entry_name = None ->
  get_entry entry_name requested w
  = (Raise (NotFound ("Not found: Entry " +:+ entry_name)), w).
Proof. intros H. unfold get_entry. now rewrite H. Qed.

Lemma update_entry_None (entry_name key : string) (a : Aspect) (w : World) :
  catalog w !! entry_name = None ->
  update_entry entry_name key a w
  = (Raise (NotFound ("Not found: Entry " +:+ entry_name)), w).
Proof. intros H. unfold update_entry. now rewrite H. Qed.

Lemma find_table_overview_none (c : Constants) (entry : Entry) :
  (forall ka, ka ∈ entry -> is_staging_aspect c (snd ka) = true ->
     data (snd ka) !! "contents" = None) ->
  find_table_overview c entry = None.
Proof.
  unfold find_table_overview. induction entry as [|[k a] entry IH]; intros Hnone;
    [reflexivity|].
  simpl. fold (is_staging_aspect c a).
  destruct (is_staging_aspect c a) eqn:Htest.
  - pose proof (Hnone (k, a) (list_elem_of_here _ _) Htest) as Hc. simpl in Hc.
    rewrite Hc. apply IH. intros ka Hka. apply Hnone. now apply list_elem_of_further.
  - apply IH. intros ka Hka. apply Hnone. now apply list_elem_of_further.
Qed.

Lemma find_column_overview_none (c : Constants) (entry : Entry) (column_name : string) :
  (forall ka, ka ∈ entry -> is_column_draft c column_name (snd ka) = true ->
     data (snd ka) !! "contents" = None) ->
  find_column_overview c entry column_name = PNone.
Proof.
  unfold find_column_overview. induction entry as [|[k a] entry IH]; intros Hnone;
    [reflexivity|].
  simpl. fold (is_staging_aspect c a). fold (is_column_draft c column_name a).
  destruct (is_column_draft c column_name a) eqn:Htest.
  - pose proof (Hnone (k, a) (list_elem_of_here _ _) Htest) as Hc. simpl in Hc.
    rewrite Hc. apply IH. intros ka Hka. apply Hnone. now apply list_elem_of_further.
  - apply IH. intros ka Hka. apply Hnone. now apply list_elem_of_further.
Qed.

(** X13: accepting the draft of a table that has none.  When the catalog
    has no entry for the table the call ends with the [NotFound] of the
    catalog; when the entry has no staging aspect with contents, the variable
    [overview] is never bound and the call ends with [UnboundLocalError].  In
    both cases nothing is written. *)
Theorem accept_table_without_draft (c : Constants) (E : Env)
    (fqn p d t location : string) (w : World) :
  _split_table_fqn fqn = Return (p, d, t) ->
  get_dataset_location E (p +:+ "." +:+ d) = Return location ->
  (catalog w !! entry_name_for p d t location = None ->
   exists message,
     accept_table_draft_description c E fqn w = (Raise (NotFound message), w))
  /\ (forall entry,
        catalog w !! entry_name_for p d t location = Some entry ->
        (forall ka, ka ∈ entry -> is_staging_aspect c (snd ka) = true ->
           data (snd ka) !! "contents" = None) ->
        accept_table_draft_description c E fqn w = (Raise UnboundLocalError, w)).
Proof.
  intros Hs Hl. split.
  - intros Hnone. eexists. unfold accept_table_draft_description.
    rewrite run_bind, (entry_name_of_run E fqn p d t location w Hs Hl). cbv beta iota.
    now rewrite run_bind, (get_entry_None _ _ w Hnone).
  - intros entry Hentry Hnone. unfold accept_table_draft_description.
    rewrite run_bind, (entry_name_of_run E fqn p d t location w Hs Hl). cbv beta iota.
    rewrite run_bind, (get_entry_run _ _ entry w Hentry). cbv beta iota.
    rewrite find_table_overview_none; [reflexivity|].
    intros ka Hka. apply list_elem_of_filter in Hka as [_ Hka]. now apply Hnone.
Qed.

Lemma accept_table_without_draft_witness :
  accept_table_draft_description sample_constants (sample_env answering) "p.d.a"
    (mkWorld sample_options (bq_tables (sample_world sample_options))
       {[ sample_entry_name "a" :=
            [("dataplex-types.global.overview", overview_aspect (PStr "Orders"))] ]}
       ∅ 0 0 [] [])
  = (Raise UnboundLocalError,
     mkWorld sample_options (bq_tables (sample_world sample_options))
       {[ sample_entry_name "a" :=
            [("dataplex-types.global.overview", overview_aspect (PStr "Orders"))] ]}
       ∅ 0 0 [] [])
  /\ exists message,
       accept_table_draft_description sample_constants (sample_env answering) "p.d.c"
         (sample_world sample_options)
       = (Raise (NotFound message), sample_world sample_options).
Proof.
  split.
  - apply (proj2 (accept_table_without_draft sample_constants (sample_env answering)
                    "p.d.a" "p" "d" "a" "US" _ eq_refl eq_refl)
             [("dataplex-types.global.overview", overview_aspect (PStr "Orders"))]).
    + reflexivity.
    + intros ka Hka. apply list_elem_of_singleton in Hka as ->. discriminate.
  - exact (proj1 (accept_table_without_draft sample_constants (sample_env answering)
                    "p.d.c" "p" "d" "c" "US" (sample_world sample_options)
                    eq_refl eq_refl) eq_refl).
Defined.

(** X14: accepting the draft of a column that has none: the description
    passed on is [None].  If the table has the column, the slice of [None]
    fails and the caller gets a [TypeError]; if the table has no such column
    the call returns.  In both cases nothing is written. *)
Theorem accept_column_without_draft (c : Constants) (E : Env)
    (fqn p d t location column_name : string) (entry : Entry) (tbl : Table) (w : World) :
  _split_table_fqn fqn = Return (p, d, t) ->
  get_dataset_location E (p +:+ "." +:+ d) = Return location ->
  catalog w !! entry_name_for p d t location = Some entry ->
  bq_tables w !! fqn = Some tbl ->
  (forall ka, ka ∈ entry -> is_column_draft c column_name (snd ka) = true ->
     data (snd ka) !! "contents" = None) ->
  ((exists column, column ∈ schema tbl /\ name column = column_name) ->
   accept_column_draft_description c E fqn column_name w = (Raise TypeError, w))
  /\ ((forall column, column ∈ schema tbl -> name column <> column_name) ->
      accept_column_draft_description c E fqn column_name w = (Return tt, w)).
Proof.
  intros Hs Hl Hentry Htbl Hnone.
  assert (Hrun : accept_column_draft_description c E fqn column_name w
                 = _update_column_bq_description c fqn column_name PNone w).
  { unfold accept_column_draft_description.
    rewrite run_bind, (entry_name_of_run E fqn p d t location w Hs Hl). cbv beta iota.
    rewrite run_bind, (get_entry_run _ _ entry w Hentry). cbv beta iota.
    rewrite find_column_overview_none; [reflexivity|].
    intros ka Hka. apply list_elem_of_filter in Hka as [_ Hka]. now apply Hnone. }
  rewrite Hrun. split.
  - intros (column & Hin & Hname).
    unfold _update_column_bq_description.
    rewrite run_try_except, run_bind, (_table_exists_Some _ _ _ Htbl).
    rewrite run_bind, (_get_table_schema_Some _ _ _ Htbl). cbv beta iota.
    rewrite run_bind, rewrite_loop_unsliceable by reflexivity.
    assert (Hex : existsb (fun column => String.eqb (name column) column_name) (schema tbl)
                  = true).
    { apply existsb_exists. exists column. split; [now apply list_elem_of_In|].
      now apply String.eqb_eq. }
    now rewrite Hex.
  - intros Hunknown. unfold _update_column_bq_description.
    rewrite run_try_except, run_bind, (_table_exists_Some _ _ _ Htbl).
    rewrite run_bind, (_get_table_schema_Some _ _ _ Htbl). cbv beta iota.
    rewrite run_bind, rewrite_loop_unsliceable by reflexivity.
    assert (Hex : existsb (fun column => String.eqb (name column) column_name) (schema tbl)
                  = false).
    { apply not_true_is_false. intros Hex. apply existsb_exists in Hex as (column & Hin & Hn).
      apply String.eqb_eq in Hn. apply list_elem_of_In in Hin.
      exact (Hunknown column Hin Hn). }
    rewrite Hex. simpl app. rewrite (_update_table_schema_Some _ _ _ _ Htbl).
    now rewrite (update_table_same _ _ _ Htbl).
Qed.

Lemma accept_column_without_draft_witness :
  accept_column_draft_description sample_constants (sample_env answering) "p.d.a" "id"
    (sample_world sample_options)
  = (Raise TypeError, sample_world sample_options)
  /\ accept_column_draft_description sample_constants (sample_env answering) "p.d.a" "city"
       (sample_world sample_options)
     = (Return tt, sample_world sample_options).
Proof.
  assert (Hnone : forall column_name,
            is_column_draft sample_constants column_name
              (sample_draft "" "Orders of the shop") = false ->
            is_column_draft sample_constants column_name
              (sample_draft "Schema.name" "Name of the customer who placed the order")
            = false ->
            forall ka,
              ka ∈ [ ("p.global.draft-description", sample_draft "" "Orders of the shop");
                     ("p.global.draft-description@Schema.name",
                      sample_draft "Schema.name" "Name of the customer who placed the order") ] ->
              is_column_draft sample_constants column_name (snd ka) = true ->
              data (snd ka) !! "contents" = None).
  { intros column_name H1 H2 ka Hka Htest. exfalso.
    apply elem_of_cons in Hka as [->|Hka]; [simpl in Htest; congruence|].
    apply list_elem_of_singleton in Hka as ->. simpl in Htest. congruence. }
  split.
  - apply (proj1 (accept_column_without_draft sample_constants (sample_env answering)
                    "p.d.a" "p" "d" "a" "US" "id" _ _ (sample_world sample_options)
                    eq_refl eq_refl eq_refl eq_refl (Hnone "id" eq_refl eq_refl))).
    exists (sample_column "id" "INTEGER" None). split; [apply list_elem_of_here|reflexivity].
  - apply (proj2 (accept_column_without_draft sample_constants (sample_env answering)
                    "p.d.a" "p" "d" "a" "US" "city" _ _ (sample_world sample_options)
                    eq_refl eq_refl eq_refl eq_refl (Hnone "city" eq_refl eq_refl))).
    intros column Hin.
    repeat (apply elem_of_cons in Hin as [->|Hin]; [discriminate|]).
    now apply not_elem_of_nil in Hin.
Defined.

(** ** What a generation reads and writes *)

#[local] Instance gathers_preorder : PreOrder gathers.
Proof.
  split.
  - intros w. split; [apply lineage_switched_off_refl | now repeat split].
  - intros w1 w2 w3 (Ho & Hb & Hc & Ha) (Ho' & Hb' & Hc' & Ha').
    split; [exact (transitivity (R := options_frame) Ho Ho')|].
    repeat split; congruence.
Qed.

Lemma gathers_stage (w w' : World) :
  gathers w w' ->
  _stage_for_review (_client_options w') = _stage_for_review (_client_options w)
  /\ _persist_to_dataplex_catalog (_client_options w')
     = _persist_to_dataplex_catalog (_client_options w)
  /\ _add_ai_warning (_client_options w') = _add_ai_warning (_client_options w).
Proof. intros ((_ & _ & _ & Hp & Hs & Ha & _) & _). now repeat split. Qed.

#[local] Instance within_0_preorder : PreOrder (within 0).
Proof.
  split.
  - intros w. split; [reflexivity | lia].
  - intros w1 w2 w3 [G H] [G' H']. split; [exact (transitivity G G') | lia].
Qed.

Lemma within_trans (a b : nat) (w1 w2 w3 : World) :
  within a w1 w2 -> within b w2 w3 -> within (a + b) w1 w3.
Proof. intros [G H] [G' H']. split; [exact (transitivity G G') | lia]. Qed.

Lemma within_le (a b : nat) (w w' : World) : (a <= b)%nat -> within a w w' -> within b w w'.
Proof. intros Hab [G H]. split; [exact G | lia]. Qed.

Lemma reads_modify (f : World -> World) :
  (forall w, within 0 w (f w)) -> preserves (within 0) (modify f).
Proof. intros Hf w r w' [= <- <-]. apply Hf. Qed.

Lemma reads_log (record : LogRecord) : preserves (within 0) (log_info record).
Proof.
  apply reads_modify. intros w. split; [|simpl; lia].
  split; [apply lineage_switched_off_refl | now repeat split].
Qed.

Lemma reads_disable_tables : preserves (within 0) (set_options disable_lineage_tables).
Proof.
  apply reads_modify. intros w. split; [|simpl; lia]. split; [|now repeat split].
  unfold lineage_switched_off. simpl. repeat split; auto; discriminate.
Qed.

Lemma reads_disable_processes :
  preserves (within 0) (set_options disable_lineage_processes).
Proof.
  apply reads_modify. intros w. split; [|simpl; lia]. split; [|now repeat split].
  unfold lineage_switched_off. simpl. repeat split; auto; discriminate.
Qed.

Ltac reads_writes :=
  first [ apply reads_log | apply reads_disable_tables | apply reads_disable_processes ].

Lemma reads_table_exists (fqn : string) : preserves (within 0) (_table_exists fqn).
Proof. unfold _table_exists. frame_by reads_writes. Qed.

Lemma reads_table_schema (fqn : string) : preserves (within 0) (_get_table_schema fqn).
Proof. unfold _get_table_schema. frame_by reads_writes. Qed.

Lemma reads_table_sample (E : Env) (fqn : string) (n : nat) :
  preserves (within 0) (_get_table_sample E fqn n).
Proof. unfold _get_table_sample. frame_by reads_writes. Qed.

Lemma reads_profile_quality (E : Env) (use_enabled : bool) (fqn : string) :
  preserves (within 0) (_get_table_profile_quality E use_enabled fqn).
Proof.
  unfold _get_table_profile_quality, _get_table_scan_reference. frame_by reads_writes.
Qed.

Lemma reads_table_quality (E : Env) (use_enabled : bool) (fqn : string) :
  preserves (within 0) (_get_table_quality E use_enabled fqn).
Proof.
  unfold _get_table_quality. apply (preserves_bind (within 0));
    [apply reads_profile_quality | intros ?; apply (preserves_ret (within 0))].
Qed.

Lemma reads_table_profile (E : Env) (use_enabled : bool) (fqn : string) :
  preserves (within 0) (_get_table_profile E use_enabled fqn).
Proof.
  unfold _get_table_profile. apply (preserves_bind (within 0));
    [apply reads_profile_quality | intros ?; apply (preserves_ret (within 0))].
Qed.

Lemma reads_table_sources_info (E : Env) (use_enabled : bool) (fqn : string) :
  preserves (within 0) (_get_table_sources_info E use_enabled fqn).
Proof.
  unfold _get_table_sources_info, _get_table_sources, _get_dataset_location,
    _get_table_description, _get_table_schema.
  frame_by reads_writes.
Qed.

Lemma reads_job_sources (E : Env) (use_enabled : bool) (fqn : string) :
  preserves (within 0) (_get_job_sources E use_enabled fqn).
Proof.
  unfold _get_job_sources, job_sources_of_links, _get_dataset_location, _bq_job_info.
  frame_by reads_writes.
Qed.

Lemma gathers_modify (f : World -> World) :
  (forall w, gathers w (f w)) -> preserves gathers (modify f).
Proof. intros Hf w r w' [= <- <-]. apply Hf. Qed.

Lemma gathers_count : preserves gathers count_llm_call.
Proof.
  intros w r w' [= <- <-]. split; [apply lineage_switched_off_refl | now repeat split].
Qed.

Lemma gathers_sleep (n : nat) : preserves gathers (sleep n).
Proof.
  apply gathers_modify. intros w.
  split; [apply lineage_switched_off_refl | now repeat split].
Qed.

(** The calls of the model that the attempts make: one each, at most. *)
Lemma llm_attempts_calls (c : Constants) (E : Env) (attempts : list nat)
    (prompt : string) (doc : option string) (w : World) (r : result (option string))
    (w' : World) :
  llm_attempts c E attempts prompt doc w = (r, w') ->
  (llm_calls w <= llm_calls w' <= llm_calls w + length attempts)%nat.
Proof.
  revert w. induction attempts as [|attempt rest IH]; intros w.
  - intros [= <- <-]. simpl. lia.
  - cbn [llm_attempts]. rewrite run_try_except, run_bind.
    unfold llm_attempt at 1. rewrite run_bind. unfold options at 1. cbv beta iota.
    rewrite run_bind. unfold count_llm_call at 1. cbv beta iota. unfold lift at 1.
    destruct (generate_content E (llm_calls w) _ doc prompt) as [e|text].
    + destruct (attempt =? retries)%nat; [intros [= <- <-]; simpl; lia|].
      rewrite run_bind. unfold sleep at 1, modify at 1. cbv beta iota.
      intros H. apply IH in H. simpl in *. lia.
    + intros [= <- <-]. simpl. lia.
Qed.

Lemma within_llm_inference (c : Constants) (E : Env) (prompt : string)
    (doc : option string) (w : World) (r : result (option string)) (w' : World) :
  _llm_inference c E prompt doc w = (r, w') -> within 4 w w'.
Proof.
  intros H. split.
  - revert H. unfold _llm_inference.
    apply (frame_llm_attempts gathers); [apply gathers_sleep | apply gathers_count].
  - apply llm_attempts_calls in H. simpl in H. exact H.
Qed.

Lemma llm_attempts_answer (c : Constants) (E : Env) (attempts : list nat)
    (prompt : string) (doc : option string) (w : World) (x : option string) (w' : World) :
  retries ∈ attempts ->
  llm_attempts c E attempts prompt doc w = (Return x, w') ->
  exists text, x = Some text /\ is_answer E text.
Proof.
  revert w. induction attempts as [|attempt rest IH]; intros w Hin;
    [now apply not_elem_of_nil in Hin|].
  cbn [llm_attempts]. rewrite run_try_except, run_bind.
  unfold llm_attempt at 1. rewrite run_bind. unfold options at 1. cbv beta iota.
  rewrite run_bind. unfold count_llm_call at 1. cbv beta iota. unfold lift at 1.
  destruct (generate_content E (llm_calls w) _ doc prompt) as [e|text] eqn:Hcall.
  - destruct (Nat.eqb_spec attempt retries) as [->|Hne]; [discriminate|].
    rewrite run_bind. unfold sleep at 1, modify at 1. cbv beta iota.
    apply IH. apply elem_of_cons in Hin as [Heq|Hin]; [congruence | exact Hin].
  - intros [= <- <-]. exists text. split; [reflexivity|].
    unfold is_answer. eexists _, _, _, _. exact Hcall.
Qed.

Lemma _llm_inference_answer (c : Constants) (E : Env) (prompt : string)
    (doc : option string) (w : World) (x : option string) (w' : World) :
  _llm_inference c E prompt doc w = (Return x, w') ->
  exists text, x = Some text /\ is_answer E text.
Proof.
  apply llm_attempts_answer. unfold retries. simpl.
  do 3 apply list_elem_of_further. apply list_elem_of_here.
Qed.

Lemma _table_exists_Return (fqn : string) (w w' : World) :
  _table_exists fqn w = (Return tt, w') -> w' = w /\ exists t, bq_tables w !! fqn = Some t.
Proof.
  unfold _table_exists. rewrite run_try_except, run_bind. unfold get_table.
  destruct (bq_tables w !! fqn) as [t|].
  - intros [= <-]. split; [reflexivity | now exists t].
  - unfold on_NotFound. simpl. discriminate.
Qed.

(** A table generation either fails while it gathers the context and asks the
    model, or it publishes a description made of an answer of the model. *)
Lemma generate_table_description_inv (c : Constants) (E : Env) (fqn : string)
    (doc : option string) (hc : PyVal) (w : World) (r : result string) (w' : World) :
  generate_table_description c E fqn doc hc w = (r, w') ->
  (exists e, r = Raise e /\ within 4 w w')
  \/ (exists text w1 r1,
        within 4 w w1 /\ is_answer E text
        /\ (exists t, bq_tables w !! fqn = Some t)
        /\ publish c E fqn (with_ai_warning c (_client_options w1) (Some text)) w1 = (r1, w')
        /\ r = match r1 with
               | Raise e => Raise e
               | Return _ => Return "Table description generated successfully"
               end).
Proof.
  unfold generate_table_description. intros H.
  rewrite run_bind, log_info_run in H. cbv beta iota in H.
  pose proof (reads_log (GeneratingTable fqn) w _ _ (log_info_run _ w)) as G.
  set (w0 := snd (log_info (GeneratingTable fqn) w)) in *.
  rewrite run_bind in H.
  destruct (_table_exists fqn w0) as [[e|[]] w1] eqn:H1;
    pose proof (transitivity G (reads_table_exists fqn _ _ _ H1)) as G1;
    [injection H as <- <-; left; exists e; split;
       [reflexivity | apply (within_le 0 4); [lia | assumption]]|].
  apply _table_exists_Return in H1 as [-> Ht].
  rewrite run_bind in H.
  destruct (_get_table_schema fqn w0) as [[e|[table_schema_str s]] w2] eqn:H2;
    pose proof (transitivity G1 (reads_table_schema fqn _ _ _ H2)) as G2;
    [injection H as <- <-; left; exists e; split;
       [reflexivity | apply (within_le 0 4); [lia | assumption]]|].
  rewrite run_bind in H.
  destruct (_get_table_sample E fqn (NUM_ROWS_TO_SAMPLE c) w2) as [[e|table_sample] w3] eqn:H3;
    pose proof (transitivity G2 (reads_table_sample E fqn _ _ _ _ H3)) as G3;
    [injection H as <- <-; left; exists e; split;
       [reflexivity | apply (within_le 0 4); [lia | assumption]]|].
  rewrite run_bind in H. unfold options at 1 in H. cbv beta iota in H.
  rewrite run_bind in H.
  destruct (_get_table_quality E _ fqn w3) as [[e|table_quality] w4] eqn:H4;
    pose proof (transitivity G3 (reads_table_quality E _ fqn _ _ _ H4)) as G4;
    [injection H as <- <-; left; exists e; split;
       [reflexivity | apply (within_le 0 4); [lia | assumption]]|].
  rewrite run_bind in H. unfold options at 1 in H. cbv beta iota in H.
  rewrite run_bind in H.
  destruct (_get_table_profile E _ fqn w4) as [[e|table_profile] w5] eqn:H5;
    pose proof (transitivity G4 (reads_table_profile E _ fqn _ _ _ H5)) as G5;
    [injection H as <- <-; left; exists e; split;
       [reflexivity | apply (within_le 0 4); [lia | assumption]]|].
  rewrite run_bind in H. unfold options at 1 in H. cbv beta iota in H.
  rewrite run_bind in H.
  destruct (_get_table_sources_info E _ fqn w5) as [[e|table_sources_info] w6] eqn:H6;
    pose proof (transitivity G5 (reads_table_sources_info E _ fqn _ _ _ H6)) as G6;
    [injection H as <- <-; left; exists e; split;
       [reflexivity | apply (within_le 0 4); [lia | assumption]]|].
  rewrite run_bind in H. unfold options at 1 in H. cbv beta iota in H.
  rewrite run_bind in H.
  destruct (_get_job_sources E _ fqn w6) as [[e|job_sources_info] w7] eqn:H7;
    pose proof (transitivity G6 (reads_job_sources E _ fqn _ _ _ H7)) as G7;
    [injection H as <- <-; left; exists e; split;
       [reflexivity | apply (within_le 0 4); [lia | assumption]]|].
  rewrite run_bind in H. unfold options at 1 in H. cbv beta iota in H.
  rewrite run_bind in H. unfold lift at 1 in H.
  destruct (str_format E _ _) as [e|prompt];
    [injection H as <- <-; left; exists e; split;
       [reflexivity | apply (within_le 0 4); [lia | assumption]]|].
  cbv beta iota in H. rewrite run_bind in H.
  destruct (_llm_inference c E prompt (no_empty_uri doc) w7) as [[e|x] w8] eqn:H8;
    pose proof (within_trans 0 4 _ _ _ G7 (within_llm_inference c E _ _ _ _ _ H8)) as G8;
    [injection H as <- <-; left; now exists e|].
  apply _llm_inference_answer in H8 as (text & -> & Hanswer).
  right. exists text, w8.
  destruct (publish c E fqn (with_ai_warning c (_client_options w8) (Some text)) w8)
    as [r1 w9] eqn:Hp.
  exists r1. split; [exact G8|]. split; [exact Hanswer|]. split; [exact Ht|].
  unfold publish in Hp. rewrite run_bind in Hp. unfold options at 1 in Hp.
  cbv beta iota in Hp.
  rewrite run_bind in H. unfold options at 1 in H. cbv beta iota in H.
  rewrite run_bind in H. unfold options at 1 in H. cbv beta iota in H.
  rewrite run_bind, Hp in H.
  destruct r1 as [e|[]]; injection H as <- <-; now split.
Qed.

(** The description published for an answer of the model. *)
Lemma with_ai_warning_Some (c : Constants) (o : ClientOptions) (text : string) :
  with_ai_warning c o (Some text)
  = PStr (if _add_ai_warning o then AI_WARNING c +:+ text else text).
Proof. unfold with_ai_warning. now destruct (_add_ai_warning o). Qed.

Lemma entry_name_of_pure (E : Env) (fqn : string) : preserves eq (entry_name_of E fqn).
Proof. unfold entry_name_of, _get_dataset_location. frame_by fail. Qed.

Lemma entry_name_of_Return (E : Env) (fqn entry_name : string) (w w' : World) :
  entry_name_of E fqn w = (Return entry_name, w') ->
  exists p d t location,
    _split_table_fqn fqn = Return (p, d, t)
    /\ get_dataset_location E (p +:+ "." +:+ d) = Return location
    /\ entry_name = entry_name_for p d t location.
Proof.
  unfold entry_name_of, _get_dataset_location.
  rewrite run_bind. unfold lift at 1.
  destruct (_split_table_fqn fqn) as [e|[[p d] t]] eqn:Hs; [discriminate|].
  cbv beta iota. rewrite run_bind, run_bind. unfold lift at 1. cbv beta iota.
  rewrite run_bind. unfold lift at 1.
  destruct (get_dataset_location E (p +:+ "." +:+ d)) as [e|location] eqn:Hl;
    [discriminate|].
  intros [= <- <-]. now exists p, d, t, location.
Qed.

(** The update of the overview: it raises, before any write, when the entry
    cannot be named; otherwise it returns, having written the overview when
    the catalog has the entry and nothing when it has not. *)
Lemma _update_table_dataplex_description_cases (E : Env) (fqn : string) (v : PyVal)
    (w : World) (r : result bool) (w' : World) :
  _update_table_dataplex_description E fqn v w = (r, w') ->
  (w' = w /\ r <> Return true)
  \/ (exists p d t location entry,
        r = Return true
        /\ _split_table_fqn fqn = Return (p, d, t)
        /\ get_dataset_location E (p +:+ "." +:+ d) = Return location
        /\ catalog w !! entry_name_for p d t location = Some entry
        /\ w' = with_aspect w (entry_name_for p d t location)
                  "dataplex-types.global.overview" (overview_aspect v) entry).
Proof.
  unfold _update_table_dataplex_description. rewrite run_bind.
  destruct (entry_name_of E fqn w) as [[e|entry_name] w1] eqn:Hname;
    pose proof (entry_name_of_pure E fqn _ _ _ Hname) as <-.
  - intros [= <- <-]. left. split; [reflexivity|discriminate].
  - apply entry_name_of_Return in Hname as (p & d & t & location & Hs & Hl & ->).
    cbv beta iota. rewrite run_try_except, run_bind.
    destruct (catalog w !! entry_name_for p d t location) as [entry|] eqn:Hentry.
    + rewrite (update_entry_run _ _ _ entry w Hentry). intros [= <- <-].
      right. now exists p, d, t, location, entry.
    + rewrite (update_entry_None _ _ _ w Hentry). intros [= <- <-].
      left. split; [reflexivity|discriminate].
Qed.

Lemma publish_direct (c : Constants) (E : Env) (fqn text : string) (t : Table)
    (w : World) (r : result unit) (w' : World) :
  _stage_for_review (_client_options w) = false ->
  bq_tables w !! fqn = Some t ->
  publish c E fqn (PStr text) w = (r, w') ->
  bq_tables w' = <[fqn := mkTable (Some text) (schema t)]> (bq_tables w)
  /\ aspect_types w' = aspect_types w
  /\ _client_options w' = _client_options w
  /\ (_persist_to_dataplex_catalog (_client_options w) = false ->
      r = Return tt /\ catalog w' = catalog w)
  /\ (catalog w' = catalog w
      \/ exists p d tb location entry,
           r = Return tt
           /\ _split_table_fqn fqn = Return (p, d, tb)
           /\ get_dataset_location E (p +:+ "." +:+ d) = Return location
           /\ catalog w !! entry_name_for p d tb location = Some entry
           /\ catalog w'
              = <[entry_name_for p d tb location
                  := set_aspect "dataplex-types.global.overview"
                       (overview_aspect (PStr text)) entry]> (catalog w)).
Proof.
  intros Hstage Ht. unfold publish. rewrite run_bind. unfold options at 1.
  cbv beta iota. rewrite Hstage. cbn [negb].
  rewrite run_bind, (_update_table_bq_description_run _ _ _ _ Ht). cbv beta iota.
  rewrite run_bind. unfold options at 1. cbv beta iota.
  change (_client_options (with_description w fqn t (Some text))) with (_client_options w).
  destruct (_persist_to_dataplex_catalog (_client_options w)).
  - rewrite run_bind.
    destruct (_update_table_dataplex_description E fqn (PStr text) _) as [[e|b] w1] eqn:Hd;
      destruct (_update_table_dataplex_description_cases _ _ _ _ _ _ Hd)
        as [[-> Hr]|(p & d & tb & location & entry & Hr & Hs & Hl & Hentry & ->)];
      try discriminate; intros [= <- <-]; simpl;
      (split; [reflexivity|]); (split; [reflexivity|]); (split; [reflexivity|]);
      (split; [discriminate|]); try (now left).
    right. now exists p, d, tb, location, entry.
  - intros [= <- <-]. simpl. repeat split; try reflexivity. now left.
Qed.

Lemma merge_table_draft_contents (c : Constants) (E : Env) (entry : Entry) (d : PyVal)
    (init : gmap string PyVal) :
  init !! "contents" = Some d ->
  merge_table_draft c E entry d init !! "contents" = Some d.
Proof.
  unfold merge_table_draft. revert init.
  induction entry as [|[k a] entry IH]; intros init Hinit; [exact Hinit|].
  simpl. apply IH. destruct (_ && _); [|exact Hinit].
  unfold refresh_draft. now rewrite lookup_insert_ne, lookup_insert_ne, lookup_insert_eq.
Qed.

Lemma publish_staged (c : Constants) (E : Env) (fqn : string) (d : PyVal)
    (w : World) (r : result unit) (w' : World) :
  _stage_for_review (_client_options w) = true ->
  publish c E fqn d w = (r, w') ->
  bq_tables w' = bq_tables w
  /\ _client_options w' = _client_options w
  /\ (r = Return tt ->
      draft_aspect_type c E ∈ aspect_types w'
      /\ exists p dt t location entry new_data,
           _split_table_fqn fqn = Return (p, dt, t)
           /\ get_dataset_location E (p +:+ "." +:+ dt) = Return location
           /\ catalog w !! entry_name_for p dt t location = Some entry
           /\ new_data !! "contents" = Some d
           /\ catalog w'
              = <[entry_name_for p dt t location
                  := set_aspect (draft_key c E)
                       (mkAspect (draft_aspect_type c E) "" new_data) entry]> (catalog w)).
Proof.
  intros Hstage. unfold publish. rewrite run_bind. unfold options at 1.
  cbv beta iota. rewrite Hstage. cbn [negb].
  rewrite run_bind. unfold _check_if_exists_aspect_type at 1, aspect_type_exists at 1.
  cbv beta iota. rewrite run_bind.
  set (type_name := "projects/" +:+ _project_id E +:+ "/locations/global/aspectTypes/"
                    +:+ ASPECT_TEMPLATE_name c).
  set (w1 := if negb (bool_decide (type_name ∈ aspect_types w))
             then snd (_create_aspect_type E (ASPECT_TEMPLATE_name c) w) else w).
  assert (Hcreate : (if negb (bool_decide (type_name ∈ aspect_types w))
                     then _create_aspect_type E (ASPECT_TEMPLATE_name c) else ret tt) w
                    = (Return tt, w1)).
  { unfold w1. now destruct (negb _). }
  rewrite Hcreate. cbv beta iota.
  assert (Hw1 : bq_tables w1 = bq_tables w /\ _client_options w1 = _client_options w
                /\ catalog w1 = catalog w /\ type_name ∈ aspect_types w1).
  { unfold w1. destruct (bool_decide (type_name ∈ aspect_types w)) eqn:Hknown; cbn [negb].
    - repeat split. now apply bool_decide_eq_true in Hknown.
    - repeat split. simpl. fold type_name. set_solver. }
  destruct Hw1 as (Hbq & Hopts & Hcat & Htype). clearbody w1.
  rewrite run_bind. unfold _update_table_draft_description. rewrite run_bind.
  destruct (entry_name_of E fqn w1) as [[e|entry_name] w2] eqn:Hname;
    pose proof (entry_name_of_pure E fqn _ _ _ Hname) as <-.
  { intros [= <- <-]. repeat split; try assumption. discriminate. }
  apply entry_name_of_Return in Hname as (p & dt & t & location & Hs & Hl & ->).
  cbv beta iota. rewrite run_bind.
  destruct (catalog w1 !! entry_name_for p dt t location) as [entry|] eqn:Hentry.
  - rewrite (get_entry_run _ _ entry w1 Hentry). cbv beta iota.
    rewrite run_try_except, run_bind, (update_entry_run _ _ _ entry w1 Hentry).
    cbv beta iota. intros [= <- <-]. simpl.
    split; [exact Hbq|]. split; [exact Hopts|]. intros _. split; [exact Htype|].
    exists p, dt, t, location, entry. eexists.
    split; [exact Hs|]. split; [exact Hl|]. split; [now rewrite <- Hcat|].
    split; [|rewrite Hcat; reflexivity].
    now apply merge_table_draft_contents.
  - rewrite (get_entry_None _ _ w1 Hentry). intros [= <- <-].
    repeat split; try assumption. discriminate.
Qed.

(** ** The outcome of a table generation *)

(** X15: a table generation that is not staged and returns has rewritten
    the description of that one table in the warehouse, and nothing else
    there: the schema of the table and the other tables are as they were.
    The new description is an answer of the model, behind the warning when
    the warning is asked for.  The aspect types of the catalog are as they
    were; its entries are as they were, or, if the catalog is to be kept in
    step, the overview of the entry of the table has become the description. *)
Theorem table_generation_publishes (c : Constants) (E : Env) (fqn : string)
    (doc : option string) (hc : PyVal) (w : World) (s : string) (w' : World) :
  _stage_for_review (_client_options w) = false ->
  generate_table_description c E fqn doc hc w = (Return s, w') ->
  s = "Table description generated successfully"
  /\ exists t text,
       bq_tables w !! fqn = Some t /\ is_answer E text
       /\ bq_tables w'
          = <[fqn := mkTable (Some (published c (_client_options w) text)) (schema t)]>
              (bq_tables w)
       /\ aspect_types w' = aspect_types w
       /\ (_persist_to_dataplex_catalog (_client_options w) = false ->
           catalog w' = catalog w)
       /\ (catalog w' = catalog w
           \/ exists p d tb location entry,
                _split_table_fqn fqn = Return (p, d, tb)
                /\ get_dataset_location E (p +:+ "." +:+ d) = Return location
                /\ catalog w !! entry_name_for p d tb location = Some entry
                /\ catalog w'
                   = <[entry_name_for p d tb location
                       := set_aspect "dataplex-types.global.overview"
                            (overview_aspect (PStr (published c (_client_options w) text)))
                            entry]> (catalog w)).
Proof.
  intros Hstage H.
  apply generate_table_description_inv in H
    as [(e & He & _)|(text & w1 & r1 & [G _] & Hanswer & [t Ht] & Hp & Hr)];
    [discriminate|].
  destruct (gathers_stage _ _ G) as (Hs1 & Hp1 & Ha1).
  destruct G as (_ & Hbq & Hcat & Hasp).
  rewrite with_ai_warning_Some, Ha1 in Hp. fold (published c (_client_options w) text) in Hp.
  rewrite Hstage in Hs1.
  assert (Ht1 : bq_tables w1 !! fqn = Some t) by now rewrite Hbq.
  destruct (publish_direct c E fqn _ t w1 r1 w' Hs1 Ht1 Hp)
    as (Hbq' & Hasp' & _ & Hoff & Hcat').
  destruct r1 as [e|[]]; [discriminate|]. injection Hr as ->.
  split; [reflexivity|]. exists t, text.
  split; [exact Ht|]. split; [exact Hanswer|].
  split; [now rewrite Hbq', Hbq|]. split; [now rewrite Hasp', Hasp|].
  split.
  - intros Hpersist. rewrite <- Hp1 in Hpersist.
    destruct (Hoff Hpersist) as [_ ->]. exact Hcat.
  - destruct Hcat' as [->|(p & d & tb & location & entry & _ & Hsplit & Hl & Hentry & ->)];
      [left; exact Hcat|].
    right. exists p, d, tb, location, entry.
    split; [exact Hsplit|]. split; [exact Hl|]. split; [now rewrite <- Hcat|].
    now rewrite Hcat.
Qed.

Lemma table_generation_publishes_witness :
  exists t text,
    bq_tables (sample_world sample_options) !! "p.d.b" = Some t
    /\ is_answer (sample_env answering) text
    /\ bq_tables (snd (generate_table_description sample_constants (sample_env answering)
                         "p.d.b" None PNone (sample_world sample_options)))
       = <[ "p.d.b" := mkTable (Some (published sample_constants sample_options text))
                         (schema t) ]> (bq_tables (sample_world sample_options)).
Proof.
  destruct (table_generation_publishes sample_constants (sample_env answering) "p.d.b"
              None PNone (sample_world sample_options)
              "Table description generated successfully"
              (snd (generate_table_description sample_constants (sample_env answering)
                      "p.d.b" None PNone (sample_world sample_options)))
              eq_refl)
    as (_ & t & text & Ht & Hanswer & Hbq & _).
  - vm_compute. reflexivity.
  - exists t, text. repeat split; assumption.
Defined.

(** X16: a table generation that is staged for review never writes to the
    warehouse, whether it returns or raises.  When it returns, the staging
    aspect type was there or its creation has been asked for, and the entries
    of the catalog are as they were, the outcome of the write of the draft
    being dropped by the generation, or differ at most by the draft: the
    entry of the table then holds, under the key of the staging aspect, a
    draft at table scope whose contents are the answer of the model, behind
    the warning when the warning is asked for. *)
Theorem staged_generation_leaves_warehouse (c : Constants) (E : Env) (fqn : string)
    (doc : option string) (hc : PyVal) (w : World) (r : result string) (w' : World) :
  _stage_for_review (_client_options w) = true ->
  generate_table_description c E fqn doc hc w = (r, w') ->
  bq_tables w' = bq_tables w
  /\ (forall s, r = Return s ->
        draft_aspect_type c E ∈ aspect_types w'
        /\ (catalog w' = catalog w
            \/ exists p d t location entry new_data text,
                 _split_table_fqn fqn = Return (p, d, t)
                 /\ get_dataset_location E (p +:+ "." +:+ d) = Return location
                 /\ catalog w !! entry_name_for p d t location = Some entry
                 /\ is_answer E text
                 /\ new_data !! "contents"
                    = Some (PStr (published c (_client_options w) text))
                 /\ catalog w'
                    = <[entry_name_for p d t location
                        := set_aspect (draft_key c E)
                             (mkAspect (draft_aspect_type c E) "" new_data) entry]>
                        (catalog w))).
Proof.
  intros Hstage H.
  apply generate_table_description_inv in H
    as [(e & -> & [G _])|(text & w1 & r1 & [G _] & Hanswer & _ & Hp & Hr)].
  - split; [apply G | discriminate].
  - destruct (gathers_stage _ _ G) as (Hs1 & _ & Ha1).
    destruct G as (_ & Hbq & Hcat & Hasp).
    rewrite with_ai_warning_Some, Ha1 in Hp.
    fold (published c (_client_options w) text) in Hp.
    rewrite Hstage in Hs1.
    destruct (publish_staged c E fqn _ w1 r1 w' Hs1 Hp) as (Hbq' & _ & Hok).
    split; [now rewrite Hbq', Hbq|].
    intros s ->. destruct r1 as [e|[]]; [discriminate|].
    destruct (Hok eq_refl)
      as (Htype & p & d & t & location & entry & new_data & Hs & Hl & Hentry & Hc & Hcat').
    split; [exact Htype|]. right. exists p, d, t, location, entry, new_data, text.
    split; [exact Hs|]. split; [exact Hl|]. split; [now rewrite <- Hcat|].
    split; [exact Hanswer|]. split; [exact Hc|]. now rewrite Hcat', Hcat.
Qed.

Lemma staged_generation_leaves_warehouse_witness :
  bq_tables (snd (generate_table_description sample_constants (sample_env answering)
                    "p.d.b" None PNone (sample_world staged_options)))
  = bq_tables (sample_world staged_options)
  /\ fst (generate_table_description sample_constants (sample_env answering)
            "p.d.b" None PNone (sample_world staged_options))
     = Return "Table description generated successfully".
Proof.
  split; [|vm_compute; reflexivity].
  exact (proj1 (staged_generation_leaves_warehouse sample_constants (sample_env answering)
                  "p.d.b" None PNone (sample_world staged_options) _ _ eq_refl
                  (surjective_pairing _))).
Defined.

(** X17: a table generation that is neither staged nor to be kept in step
    with the catalog leaves the catalog, entries and aspect types, as it was;
    and it is all or nothing on the warehouse: when it raises, the warehouse
    is as it was. *)
Theorem warehouse_only_generation (c : Constants) (E : Env) (fqn : string)
    (doc : option string) (hc : PyVal) (w : World) (r : result string) (w' : World) :
  _stage_for_review (_client_options w) = false ->
  _persist_to_dataplex_catalog (_client_options w) = false ->
  generate_table_description c E fqn doc hc w = (r, w') ->
  catalog w' = catalog w
  /\ aspect_types w' = aspect_types w
  /\ (forall e, r = Raise e -> bq_tables w' = bq_tables w).
Proof.
  intros Hstage Hpersist H.
  apply generate_table_description_inv in H
    as [(e & -> & [G _])|(text & w1 & r1 & [G _] & Hanswer & [t Ht] & Hp & Hr)].
  - destruct G as (_ & Hbq & Hcat & Hasp). now repeat split.
  - destruct (gathers_stage _ _ G) as (Hs1 & Hp1 & _).
    destruct G as (_ & Hbq & Hcat & Hasp).
    rewrite with_ai_warning_Some in Hp.
    rewrite Hstage in Hs1. rewrite Hpersist in Hp1.
    assert (Ht1 : bq_tables w1 !! fqn = Some t) by now rewrite Hbq.
    destruct (publish_direct c E fqn _ t w1 r1 w' Hs1 Ht1 Hp)
      as (_ & Hasp' & _ & Hoff & _).
    destruct (Hoff Hp1) as [-> Hcat'].
    split; [now rewrite Hcat', Hcat|]. split; [now rewrite Hasp', Hasp|].
    intros e ->. discriminate.
Qed.

Lemma warehouse_only_generation_witness :
  catalog (snd (generate_table_description sample_constants (sample_env answering)
                  "p.d.b" None PNone (sample_world warehouse_options)))
  = catalog (sample_world warehouse_options)
  /\ bq_tables (snd (generate_table_description sample_constants
                       (sample_env (failing_first 4))
                       "p.d.b" None PNone (sample_world warehouse_options)))
     = bq_tables (sample_world warehouse_options).
Proof.
  split.
  - exact (proj1 (warehouse_only_generation sample_constants (sample_env answering)
                    "p.d.b" None PNone (sample_world warehouse_options) _ _
                    eq_refl eq_refl (surjective_pairing _))).
  - apply (proj2 (proj2 (warehouse_only_generation sample_constants
                           (sample_env (failing_first 4))
                           "p.d.b" None PNone (sample_world warehouse_options) _ _
                           eq_refl eq_refl (surjective_pairing _)))
             (ServiceError "unavailable 3")).
    vm_compute. reflexivity.
Defined.

(** ** The outcome of a columns generation *)

Lemma published_gathers (c : Constants) (w w' : World) (text : string) :
  gathers w w' ->
  published c (_client_options w') text = published c (_client_options w) text.
Proof.
  intros G. destruct (gathers_stage _ _ G) as (_ & _ & Ha). unfold published. now rewrite Ha.
Qed.

Lemma describe_column_inv (c : Constants) (E : Env) (fqn : string) (doc : option string)
    (hc : PyVal) (prompt : string) (schema_str : PyVal) (sample : string)
    (profile quality : list PyVal) (sources : list SourceInfo) (jobs : list string)
    (updated : list SchemaField) (column : SchemaField)
    (w : World) (r : result (list SchemaField)) (w' : World) :
  describe_column c E fqn doc hc prompt schema_str sample profile quality sources jobs
    updated column w = (r, w') ->
  within 4 w w'
  /\ (forall updated', r = Return updated' ->
        exists column', described c E (_client_options w) column column'
                        /\ updated' = updated ++ [column']).
Proof.
  unfold describe_column. rewrite run_bind. unfold lift at 1.
  destruct (str_format E _ _) as [e|expanded].
  { intros [= <- <-]. split; [|discriminate]. apply (within_le 0 4); [lia|reflexivity]. }
  cbv beta iota. rewrite run_bind.
  destruct (_llm_inference c E expanded doc w) as [[e|x] w1] eqn:Hinf;
    pose proof (within_llm_inference c E _ _ _ _ _ Hinf) as G.
  { intros [= <- <-]. split; [exact G | discriminate]. }
  apply _llm_inference_answer in Hinf as (text & -> & Hanswer).
  rewrite run_bind. unfold options at 1. cbv beta iota.
  rewrite run_bind. unfold lift at 1. rewrite with_ai_warning_Some.
  fold (published c (_client_options w1) text).
  rewrite (published_gathers c w w1 text (proj1 G)).
  destruct (_get_updated_column c column _) as [e|column'] eqn:Hcol.
  { intros [= <- <-]. split; [exact G | discriminate]. }
  intros [= <- <-]. split; [exact G|].
  intros updated' [= <-]. exists column'. split; [|reflexivity]. now exists text.
Qed.

Lemma describe_loop_inv (c : Constants) (E : Env) (fqn : string) (doc : option string)
    (hc : PyVal) (prompt : string) (schema_str : PyVal) (sample : string)
    (profile quality : list PyVal) (sources : list SourceInfo) (jobs : list string)
    (columns : list SchemaField) (acc : list SchemaField)
    (w : World) (r : result (list SchemaField)) (w' : World) :
  for_fold columns acc
    (describe_column c E fqn doc hc prompt schema_str sample profile quality sources jobs)
    w = (r, w') ->
  within (4 * length columns) w w'
  /\ (forall updated, r = Return updated ->
        exists new, updated = acc ++ new
                    /\ Forall2 (described c E (_client_options w)) columns new).
Proof.
  revert acc w. induction columns as [|column columns IH]; intros acc w.
  - intros [= <- <-]. split; [reflexivity|].
    intros updated [= <-]. exists []. now rewrite app_nil_r.
  - cbn [for_fold]. rewrite run_bind.
    destruct (describe_column _ _ _ _ _ _ _ _ _ _ _ _ acc column w) as [[e|acc'] w1] eqn:Hd;
      destruct (describe_column_inv _ _ _ _ _ _ _ _ _ _ _ _ _ _ _ _ _ Hd) as [G Hok].
    + intros [= <- <-]. split; [|discriminate].
      apply (within_le 4); [simpl; lia | exact G].
    + destruct (Hok _ eq_refl) as (column' & Hcol & ->).
      intros Hrest. destruct (IH _ _ Hrest) as [G' Hok'].
      split.
      * apply (within_le (4 + 4 * length columns)); [simpl; lia|].
        exact (within_trans _ _ _ _ _ G G').
      * intros updated ->. destruct (Hok' _ eq_refl) as (new & -> & Hall).
        exists (column' :: new). split; [now rewrite <- app_assoc|].
        constructor; [exact Hcol|].
        eapply Forall2_impl; [exact Hall|].
        intros col col' (text & Hanswer & Hrun). exists text. split; [exact Hanswer|].
        now rewrite <- (published_gathers c w w1 text (proj1 G)).
Qed.

Lemma _get_table_schema_Return (fqn : string) (w : World) (s : PyVal)
    (columns : list SchemaField) (w' : World) :
  _get_table_schema fqn w = (Return (s, columns), w') ->
  w' = w /\ exists t, bq_tables w !! fqn = Some t /\ columns = schema t.
Proof.
  unfold _get_table_schema. rewrite run_try_except, run_bind. unfold get_table.
  destruct (bq_tables w !! fqn) as [t|].
  - intros [= <- <- <-]. split; [reflexivity|]. now exists t.
  - unfold on_NotFound. simpl. discriminate.
Qed.

(** A generation of the descriptions of the columns fails with a [TypeError]
    while it gathers the context and asks the model, or it writes, in one
    call, the schema made of the columns described. *)
Lemma generate_columns_descriptions_inv (c : Constants) (E : Env) (fqn : string)
    (doc : option string) (hc : PyVal) (w : World) (r : result unit) (w' : World) :
  generate_columns_descriptions c E fqn doc hc w = (r, w') ->
  (r = Raise TypeError /\ within (4 * columns_of w fqn) w w')
  \/ (exists t new_schema w1,
        r = Return tt
        /\ bq_tables w !! fqn = Some t
        /\ within (4 * length (schema t)) w w1
        /\ Forall2 (described c E (_client_options w)) (schema t) new_schema
        /\ w' = with_schema w1 fqn t new_schema).
Proof.
  unfold generate_columns_descriptions. rewrite run_try_except. intros H.
  rewrite run_bind, log_info_run in H. cbv beta iota in H.
  pose proof (reads_log (GeneratingColumns fqn) w _ _ (log_info_run _ w)) as G.
  set (w0 := snd (log_info (GeneratingColumns fqn) w)) in *.
  assert (Hle : forall w2, within 0 w w2 -> within (4 * columns_of w fqn) w w2)
    by (intros w2; apply within_le; lia).
  rewrite run_bind in H.
  destruct (_table_exists fqn w0) as [[e|[]] w1] eqn:H1;
    pose proof (transitivity G (reads_table_exists fqn _ _ _ H1)) as G1;
    [injection H as <- <-; left; split; [reflexivity | now apply Hle]|].
  apply _table_exists_Return in H1 as [-> _].
  rewrite run_bind in H.
  destruct (_get_table_schema fqn w0) as [[e|[table_schema_str columns]] w2] eqn:H2;
    pose proof (transitivity G1 (reads_table_schema fqn _ _ _ H2)) as G2;
    [injection H as <- <-; left; split; [reflexivity | now apply Hle]|].
  apply _get_table_schema_Return in H2 as (-> & t & Ht & ->).
  change (bq_tables w0) with (bq_tables w) in Ht.
  assert (Hcols : columns_of w fqn = length (schema t))
    by (unfold columns_of; now rewrite Ht).
  rewrite Hcols in Hle |- *. clear Hcols.
  cbv beta iota in H. rewrite run_bind in H.
  destruct (_get_table_sample E fqn (NUM_ROWS_TO_SAMPLE c) w0) as [[e|table_sample] w3] eqn:H3;
    pose proof (transitivity G2 (reads_table_sample E fqn _ _ _ _ H3)) as G3;
    [injection H as <- <-; left; split; [reflexivity | now apply Hle]|].
  rewrite run_bind in H. unfold options at 1 in H. cbv beta iota in H.
  rewrite run_bind in H.
  destruct (_get_table_quality E _ fqn w3) as [[e|table_quality] w4] eqn:H4;
    pose proof (transitivity G3 (reads_table_quality E _ fqn _ _ _ H4)) as G4;
    [injection H as <- <-; left; split; [reflexivity | now apply Hle]|].
  rewrite run_bind in H. unfold options at 1 in H. cbv beta iota in H.
  rewrite run_bind in H.
  destruct (_get_table_profile E _ fqn w4) as [[e|table_profile] w5] eqn:H5;
    pose proof (transitivity G4 (reads_table_profile E _ fqn _ _ _ H5)) as G5;
    [injection H as <- <-; left; split; [reflexivity | now apply Hle]|].
  rewrite run_bind in H. unfold options at 1 in H. cbv beta iota in H.
  rewrite run_bind in H.
  destruct (_get_table_sources_info E _ fqn w5) as [[e|table_sources_info] w6] eqn:H6;
    pose proof (transitivity G5 (reads_table_sources_info E _ fqn _ _ _ H6)) as G6;
    [injection H as <- <-; left; split; [reflexivity | now apply Hle]|].
  rewrite run_bind in H. unfold options at 1 in H. cbv beta iota in H.
  rewrite run_bind in H.
  destruct (_get_job_sources E _ fqn w6) as [[e|job_sources_info] w7] eqn:H7;
    pose proof (transitivity G6 (reads_job_sources E _ fqn _ _ _ H7)) as G7;
    [injection H as <- <-; left; split; [reflexivity | now apply Hle]|].
  rewrite run_bind in H. unfold options at 1 in H. cbv beta iota in H.
  rewrite run_bind in H.
  destruct (for_fold (schema t) [] _ w7) as [[e|updated] w8] eqn:H8;
    destruct (describe_loop_inv _ _ _ _ _ _ _ _ _ _ _ _ _ _ _ _ _ H8) as [G8 Hok];
    pose proof (within_trans 0 _ _ _ _ G7 G8) as G9; simpl "+" in G9.
  { injection H as <- <-. left. now split. }
  destruct (Hok _ eq_refl) as (new & -> & Hall). simpl app in H.
  assert (Ht8 : bq_tables w8 !! fqn = Some t).
  { destruct G9 as [(_ & -> & _) _]. exact Ht. }
  rewrite (_update_table_schema_Some _ _ _ _ Ht8) in H.
  injection H as <- <-. right. exists t, new, w8.
  split; [reflexivity|]. split; [exact Ht|]. split; [exact G9|]. split; [|reflexivity].
  eapply Forall2_impl; [exact Hall|].
  intros col col' (text & Hanswer & Hrun). exists text. split; [exact Hanswer|].
  now rewrite <- (published_gathers c w w7 text (proj1 G7)).
Qed.

Lemma _get_updated_column_PStr (c : Constants) (column column' : SchemaField) (s : string) :
  _get_updated_column c column (PStr s) = Return column' ->
  description column' = PStr (slice_to (MAX_COLUMN_DESC_LENGTH c) s)
  /\ name column' = name column /\ field_type column' = field_type column
  /\ mode column' = mode column /\ fields column' = fields column
  /\ policy_tags column' = policy_tags column.
Proof. intros [= <-]. now repeat split. Qed.

(** X18: the generation of the descriptions of the columns is all or
    nothing on the warehouse, and never touches the catalog, whatever the
    options say about staging and the catalog.  When it raises, the error is
    a [TypeError] and the warehouse is as it was.  When it returns, the
    schema of that one table has been replaced in one write by a schema with
    the same columns in the same order, each with its name, type, mode,
    sub-fields and policy tags, and with a description that is an answer of
    the model, behind the warning when the warning is asked for, cut to the
    maximum length; the description of the table is as it was. *)
Theorem columns_generation_is_all_or_nothing (c : Constants) (E : Env) (fqn : string)
    (doc : option string) (hc : PyVal) (w : World) (r : result unit) (w' : World) :
  generate_columns_descriptions c E fqn doc hc w = (r, w') ->
  catalog w' = catalog w
  /\ aspect_types w' = aspect_types w
  /\ (forall e, r = Raise e -> e = TypeError /\ bq_tables w' = bq_tables w)
  /\ (r = Return tt ->
      exists t new_schema,
        bq_tables w !! fqn = Some t
        /\ bq_tables w'
           = <[fqn := mkTable (table_description t) new_schema]> (bq_tables w)
        /\ length new_schema = length (schema t)
        /\ forall i column, schema t !! i = Some column ->
             exists column' text,
               new_schema !! i = Some column' /\ is_answer E text
               /\ description column'
                  = PStr (slice_to (MAX_COLUMN_DESC_LENGTH c)
                            (published c (_client_options w) text))
               /\ name column' = name column /\ field_type column' = field_type column
               /\ mode column' = mode column /\ fields column' = fields column
               /\ policy_tags column' = policy_tags column).
Proof.
  intros H. apply generate_columns_descriptions_inv in H
    as [[-> [(_ & Hbq & Hcat & Hasp) _]]
       |(t & new_schema & w1 & -> & Ht & [(_ & Hbq & Hcat & Hasp) _] & Hall & ->)].
  - split; [exact Hcat|]. split; [exact Hasp|]. split; [|discriminate].
    intros e [= <-]. now split.
  - split; [exact Hcat|]. split; [exact Hasp|]. split; [discriminate|].
    intros _. exists t, new_schema. split; [exact Ht|].
    split; [simpl; now rewrite Hbq|].
    split; [symmetry; exact (Forall2_length _ _ _ Hall)|].
    intros i column Hi.
    destruct (Forall2_lookup_l _ _ _ _ _ Hall Hi) as (column' & Hi' & text & Hanswer & Hrun).
    exists column', text. split; [exact Hi'|]. split; [exact Hanswer|].
    now apply _get_updated_column_PStr.
Qed.

Lemma columns_generation_is_all_or_nothing_witness :
  catalog (snd (generate_columns_descriptions sample_constants (sample_env answering)
                  "p.d.a" None PNone (sample_world staged_options)))
  = catalog (sample_world staged_options)
  /\ (fun t => description <$> schema t)
       <$> (bq_tables (snd (generate_columns_descriptions sample_constants
                              (sample_env answering)
                              "p.d.a" None PNone (sample_world staged_options))) !! "p.d.a")
     = Some [PStr "[AI generated] d"; PStr "[AI generated] d"; PStr "[AI generated] d"]
  /\ bq_tables (snd (generate_columns_descriptions sample_constants
                       (sample_env (failing_first 5))
                       "p.d.a" None PNone (sample_world staged_options)))
     = bq_tables (sample_world staged_options).
Proof.
  split; [|split].
  - exact (proj1 (columns_generation_is_all_or_nothing sample_constants
                    (sample_env answering) "p.d.a" None PNone
                    (sample_world staged_options) _ _ (surjective_pairing _))).
  - vm_compute. reflexivity.
  - apply (proj1 (proj2 (proj2 (columns_generation_is_all_or_nothing sample_constants
                                  (sample_env (failing_first 5)) "p.d.a" None PNone
                                  (sample_world staged_options) _ _
                                  (surjective_pairing _))))
             TypeError).
    vm_compute. reflexivity.
Defined.

#[local] Instance same_calls_preorder : PreOrder same_calls.
Proof.
  split; [intros w; reflexivity|].
  intros w1 w2 w3 H12 H23. unfold same_calls in *. congruence.
Qed.

Lemma same_calls_update_table (fqn : string) (t : Table) :
  preserves same_calls (update_table fqn t).
Proof. intros w r w' [= <- <-]. reflexivity. Qed.

Lemma same_calls_update_entry (n k : string) (a : Aspect) :
  preserves same_calls (update_entry n k a).
Proof.
  intros w r w'. unfold update_entry.
  destruct (catalog w !! n); intros [= <- <-]; reflexivity.
Qed.

Lemma same_calls_create (n : string) : preserves same_calls (create_aspect_type n).
Proof. intros w r w' [= <- <-]. reflexivity. Qed.

Lemma same_calls_publish (c : Constants) (E : Env) (fqn : string) (d : PyVal) :
  preserves same_calls (publish c E fqn d).
Proof.
  unfold publish, _update_table_bq_description, _update_table_dataplex_description,
    _update_table_draft_description, entry_name_of, _get_dataset_location,
    _check_if_exists_aspect_type, _create_aspect_type.
  frame_by (first [ apply same_calls_update_table | apply same_calls_update_entry
                  | apply same_calls_create ]).
Qed.

(** X19: what a generation costs in calls of the model: at most four for a
    table, the attempts of its one inference, and at most four for each column
    of the table for its columns; none is made for a table that the warehouse
    does not have. *)
Theorem generations_call_the_model_boundedly (c : Constants) (E : Env) (fqn : string)
    (doc : option string) (hc : PyVal) (w : World) :
  (llm_calls w <= llm_calls (snd (generate_table_description c E fqn doc hc w))
   <= llm_calls w + 4)%nat
  /\ (llm_calls w <= llm_calls (snd (generate_columns_descriptions c E fqn doc hc w))
      <= llm_calls w + 4 * columns_of w fqn)%nat
  /\ (bq_tables w !! fqn = None ->
      llm_calls (snd (generate_table_description c E fqn doc hc w)) = llm_calls w
      /\ llm_calls (snd (generate_columns_descriptions c E fqn doc hc w)) = llm_calls w).
Proof.
  assert (Htable : (llm_calls w
                    <= llm_calls (snd (generate_table_description c E fqn doc hc w))
                    <= llm_calls w + columns_of w fqn * 0 + 4)%nat
                   /\ (bq_tables w !! fqn = None ->
                       llm_calls (snd (generate_table_description c E fqn doc hc w))
                       = llm_calls w)).
  { destruct (generate_table_description c E fqn doc hc w) as [r w'] eqn:H. simpl.
    pose proof H as Hinv. apply generate_table_description_inv in Hinv
      as [(e & -> & [_ Hcalls])|(text & w1 & r1 & [_ Hcalls] & _ & [t Ht] & Hp & _)].
    - split; [lia|]. intros Hnone.
      unfold generate_table_description in H.
      rewrite run_bind, log_info_run in H. cbv beta iota in H.
      rewrite run_bind, _table_exists_None in H by exact Hnone.
      now injection H as _ <-.
    - apply same_calls_publish in Hp. unfold same_calls in Hp.
      split; [lia|]. intros Hnone. congruence. }
  assert (Hcolumns : (llm_calls w
                      <= llm_calls (snd (generate_columns_descriptions c E fqn doc hc w))
                      <= llm_calls w + 4 * columns_of w fqn)%nat).
  { destruct (generate_columns_descriptions c E fqn doc hc w) as [r w'] eqn:H. simpl.
    apply generate_columns_descriptions_inv in H
      as [[-> [_ Hcalls]]|(t & new_schema & w1 & -> & Ht & [_ Hcalls] & _ & ->)].
    - exact Hcalls.
    - unfold columns_of. rewrite Ht. simpl. exact Hcalls. }
  split; [lia|]. split; [exact Hcolumns|].
  intros Hnone. split; [now apply Htable|].
  unfold columns_of in Hcolumns. rewrite Hnone in Hcolumns. lia.
Qed.

(** ** The batches *)

Lemma strategy_code_unknown (c : Constants) (strategy : string) :
  strategy ∉ strategy_names -> strategy_code c strategy = None.
Proof.
  unfold strategy_names. rewrite !not_elem_of_cons. intros (H1 & H2 & H3 & H4 & H5 & _).
  unfold strategy_code, GENERATION_STRATEGY. cbn [find fst].
  rewrite !(proj2 (String.eqb_neq _ strategy)) by congruence.
  reflexivity.
Qed.

(** X20: a strategy that is not one of the five names, written as they are,
    is refused by both batches with a [ValueError] before anything is asked of
    a service: the world is as it was. *)
Theorem unknown_strategy_is_refused (c : Constants) (E : Env)
    (dataset_fqn strategy : string) (uri : option string) (w : World) :
  strategy ∉ strategy_names ->
  generate_dataset_tables_descriptions c E dataset_fqn strategy uri w
  = (Raise (ValueError (InvalidStrategy strategy)), w)
  /\ generate_dataset_tables_columns_descriptions c E dataset_fqn strategy uri w
     = (Raise (ValueError (InvalidStrategy strategy)), w).
Proof.
  intros Hunknown. apply (strategy_code_unknown c) in Hunknown.
  unfold generate_dataset_tables_descriptions, generate_dataset_tables_columns_descriptions.
  rewrite !try_rethrow, Hunknown. now split.
Qed.

Lemma unknown_strategy_is_refused_witness :
  generate_dataset_tables_descriptions sample_constants (sample_env answering)
    "p.d" "naive" None (sample_world sample_options)
  = (Raise (ValueError (InvalidStrategy "naive")), sample_world sample_options)
  /\ generate_dataset_tables_columns_descriptions sample_constants (sample_env answering)
       "p.d" "" None (sample_world sample_options)
     = (Raise (ValueError (InvalidStrategy "")), sample_world sample_options).
Proof.
  split.
  - apply unknown_strategy_is_refused. unfold strategy_names.
    rewrite !not_elem_of_cons. repeat split; try discriminate. apply not_elem_of_nil.
  - apply unknown_strategy_is_refused. unfold strategy_names.
    rewrite !not_elem_of_cons. repeat split; try discriminate. apply not_elem_of_nil.
Defined.

(** ** The generations of a batch, by its log *)

(** A generation of column descriptions logs its start once. *)
Lemma generate_columns_descriptions_log (c : Constants) (E : Env) (fqn : string)
    (doc : option string) (hc : PyVal) (w : World) (r : result unit) (w' : World) :
  generate_columns_descriptions c E fqn doc hc w = (r, w') ->
  logged w' = logged w ++ [GeneratingColumns fqn].
Proof.
  intros H.
  assert (Hrest : same_log (snd (log_info (GeneratingColumns fqn) w)) w').
  { eapply (frame_generate_columns_descriptions same_log); [..|exact H];
      first [ apply same_log_count
            | intros; apply same_log_modify; reflexivity ]. }
  exact Hrest.
Qed.

(** The log of a loop whose turns log the records of their element, up to
    the point where they fail. *)
Lemma for_each_log {A} (records : A -> list LogRecord) (body : A -> M unit)
    (l : list A) (w : World) (r : result unit) (w' : World) :
  (forall x w r w', body x w = (r, w') ->
     exists done, done `prefix_of` records x
                  /\ logged w' = logged w ++ done
                  /\ (r = Return tt -> done = records x)) ->
  for_each l body w = (r, w') ->
  exists done, done `prefix_of` concat (map records l)
               /\ logged w' = logged w ++ done
               /\ (r = Return tt -> done = concat (map records l)).
Proof.
  intros Hbody. revert w. induction l as [|x l IH]; intros w; simpl.
  - intros [= <- <-]. exists []. rewrite app_nil_r. repeat split. apply prefix_nil.
  - rewrite run_bind. destruct (body x w) as [[e|[]] w1] eqn:Hx;
      destruct (Hbody _ _ _ _ Hx) as (done1 & Hpre1 & Hlog1 & Hall1).
    + intros [= <- <-]. exists done1. split; [now apply prefix_app_r|].
      split; [exact Hlog1 | discriminate].
    + rewrite (Hall1 eq_refl) in Hlog1. intros Hrest.
      destruct (IH _ Hrest) as (done & Hpre & Hlog & Hall).
      exists (records x ++ done). split; [now apply prefix_app|].
      split; [now rewrite Hlog, Hlog1, <- app_assoc|].
      intros Hr. now rewrite (Hall Hr).
Qed.

Lemma table_turn_log (c : Constants) (E : Env) (doc : option string)
    (table : string) (w : World) (r : result unit) (w' : World) :
  (generate_table_description c E table doc PNone ;; ret tt) w = (r, w') ->
  exists done, done `prefix_of` [GeneratingTable table]
               /\ logged w' = logged w ++ done
               /\ (r = Return tt -> done = [GeneratingTable table]).
Proof.
  rewrite run_bind.
  destruct (generate_table_description c E table doc PNone w) as [[e|s] w1] eqn:Hgen;
    pose proof (generate_table_description_log _ _ _ _ _ _ _ _ Hgen) as Hlog;
    intros [= <- <-]; exists [GeneratingTable table]; now repeat split.
Qed.

Lemma table_and_columns_turn_log (c : Constants) (E : Env) (doc : option string)
    (table : string) (w : World) (r : result unit) (w' : World) :
  (generate_table_description c E table doc PNone ;;
   generate_columns_descriptions c E table doc PNone) w = (r, w') ->
  exists done, done `prefix_of` table_and_columns table
               /\ logged w' = logged w ++ done
               /\ (r = Return tt -> done = table_and_columns table).
Proof.
  rewrite run_bind.
  destruct (generate_table_description c E table doc PNone w) as [[e|s] w1] eqn:Hgen;
    pose proof (generate_table_description_log _ _ _ _ _ _ _ _ Hgen) as Hlog.
  - intros [= <- <-]. exists [GeneratingTable table].
    split; [now exists [GeneratingColumns table]|]. split; [exact Hlog | discriminate].
  - intros Hcols. pose proof (generate_columns_descriptions_log _ _ _ _ _ _ _ _ Hcols) as Hlog'.
    exists (table_and_columns table). split; [reflexivity|].
    split; [|reflexivity]. rewrite Hlog', Hlog. now rewrite <- app_assoc.
Qed.

(** The order of the tables for one of the ordering strategies. *)
Lemma ordering_run (c : Constants) (E : Env) (strategy : string) (code : Z)
    (tables : list string) (w : World) :
  strategies_distinct c ->
  (strategy, code) ∈ ordering_strategies c ->
  exists ordered w1,
    _order_tables_to_strategy c E tables code w = (Return ordered, w1)
    /\ logged w1 = logged w
    /\ ordered ≡ₚ tables
    /\ (strategy = "NAIVE" -> ordered = tables)
    /\ (strategy = "ALPHABETICAL" -> StronglySorted String.le ordered).
Proof.
  intros Hc Hin. destruct (strategies_distinct_codes c Hc) as (Hrn & Han & Har & _).
  unfold ordering_strategies in Hin. unfold _order_tables_to_strategy.
  apply elem_of_cons in Hin as [[= -> ->]|Hin];
    [|apply elem_of_cons in Hin as [[= -> ->]|Hin];
      [|apply list_elem_of_singleton in Hin as [= -> ->]]].
  - rewrite Z.eqb_refl. eexists _, _. split; [reflexivity|]. split; [reflexivity|].
    split; [reflexivity|]. split; [reflexivity | discriminate].
  - rewrite (proj2 (Z.eqb_neq _ _) Hrn), Z.eqb_refl.
    eexists _, _. split; [reflexivity|]. split; [reflexivity|].
    split; [apply shuffle_from_Permutation|]. split; discriminate.
  - rewrite (proj2 (Z.eqb_neq _ _) Han), (proj2 (Z.eqb_neq _ _) Har), Z.eqb_refl.
    eexists _, _. split; [reflexivity|]. split; [reflexivity|].
    split; [exact (merge_sort_Permutation String.le tables)|]. split; [discriminate|].
    intros _. apply Sorted_StronglySorted; [apply _|].
    exact (Sorted_merge_sort String.le tables).
Qed.

Lemma ordering_code (c : Constants) (strategy : string) (code : Z) :
  strategies_distinct c ->
  (strategy, code) ∈ ordering_strategies c ->
  strategy_code c strategy = Some code
  /\ (code =? STRATEGY_DOCUMENTED c)%Z = false
  /\ (code =? STRATEGY_DOCUMENTED_THEN_REST c)%Z = false
  /\ bool_decide (code ∈ [STRATEGY_NAIVE c; STRATEGY_RANDOM c; STRATEGY_ALPHABETICAL c])
     = true.
Proof.
  intros Hc Hin.
  destruct (strategies_distinct_codes c Hc)
    as (_ & _ & _ & _ & Hdn & Hdr & Hda & Htn & Htr & Hta).
  unfold ordering_strategies in Hin.
  apply elem_of_cons in Hin as [[= -> ->]|Hin];
    [|apply elem_of_cons in Hin as [[= -> ->]|Hin];
      [|apply list_elem_of_singleton in Hin as [= -> ->]]];
    (split; [reflexivity|]);
    (split; [apply Z.eqb_neq; congruence|]);
    (split; [apply Z.eqb_neq; congruence|]);
    apply bool_decide_eq_true; set_solver.
Qed.

(** X21: with NAIVE, RANDOM and ALPHABETICAL the batch over the tables
    generates for the tables of the dataset, each once, in the order of the
    strategy, and stops at the first generation that raises: the generations
    started, by the log, are a prefix of that order, and the whole of it when
    the batch returns.  The order is a permutation of the listing, the
    listing itself for NAIVE and sorted for ALPHABETICAL; the mapping URI
    plays no part. *)
Theorem ordered_batch_generates_each_table_once (c : Constants) (E : Env)
    (dataset_fqn strategy p d : string) (code : Z) (ids : list string)
    (uri : option string) (w : World) (r : result unit) (w' : World) :
  strategies_distinct c ->
  (strategy, code) ∈ ordering_strategies c ->
  _split_dataset_fqn dataset_fqn = Return (p, d) ->
  list_tables E p d = Return ids ->
  generate_dataset_tables_descriptions c E dataset_fqn strategy uri w = (r, w') ->
  exists ordered done,
    ordered ≡ₚ map dotted ids
    /\ (strategy = "NAIVE" -> ordered = map dotted ids)
    /\ (strategy = "ALPHABETICAL" -> StronglySorted String.le ordered)
    /\ done `prefix_of` map GeneratingTable ordered
    /\ logged w' = logged w ++ done
    /\ (r = Return tt -> done = map GeneratingTable ordered).
Proof.
  intros Hc Hin Hs Hl.
  destruct (ordering_code c strategy code Hc Hin) as (Hcode & Hnd & Hnt & Hord).
  rewrite (batch_run c E dataset_fqn strategy p d code ids uri w Hcode) by
    (try assumption; intros ->; now rewrite Z.eqb_refl in Hnd).
  rewrite Hnd, Hnt, Hord.
  rewrite run_bind. unfold ret at 1. cbv beta iota.
  rewrite run_bind. unfold ret at 1. cbv beta iota.
  rewrite run_bind.
  destruct (ordering_run c E strategy code (map (replace ":" ".") ids) w Hc Hin)
    as (ordered & w1 & -> & Hlog1 & Hperm & Hnaive & Hsorted).
  cbv beta iota. intros Hloop.
  assert (Hids : map (replace ":" ".") ids = map dotted ids)
    by (apply map_ext; intros id; apply replace_colon).
  rewrite Hids in *.
  destruct (for_each_log (fun table => [GeneratingTable table]) _ ordered w1 r w'
              (table_turn_log c E None) Hloop) as (done & Hpre & Hlog & Hall).
  assert (Hflat : concat (map (fun table => [GeneratingTable table]) ordered)
                  = map GeneratingTable ordered)
    by (clear; induction ordered as [|x l IH]; [reflexivity|]; simpl; now rewrite IH).
  rewrite Hflat in *.
  exists ordered, done. repeat split; try assumption. now rewrite Hlog, Hlog1.
Qed.

Lemma ordered_batch_generates_each_table_once_witness :
  exists ordered done,
    ordered ≡ₚ ["p.d.c"; "p.d.a"; "p.d.b"]
    /\ StronglySorted String.le ordered
    /\ done `prefix_of` map GeneratingTable ordered
    /\ logged (snd (generate_dataset_tables_descriptions sample_constants
                      (sample_env answering) "p.d" "ALPHABETICAL" None
                      (sample_world sample_options)))
       = done.
Proof.
  destruct (ordered_batch_generates_each_table_once sample_constants (sample_env answering)
              "p.d" "ALPHABETICAL" "p" "d" 5 ["p:d.c"; "p:d.a"; "p:d.b"] None
              (sample_world sample_options) _ _ sample_strategies_distinct
              (list_elem_of_further _ _ _ (list_elem_of_further _ _ _ (list_elem_of_here _ _)))
              eq_refl eq_refl (surjective_pairing _))
    as (ordered & done & Hperm & _ & Hsorted & Hpre & Hlog & _).
  exists ordered, done. split; [exact Hperm|]. split; [exact (Hsorted eq_refl)|].
  split; [exact Hpre | exact Hlog].
Defined.

(** The batch over tables and columns up to the loops, for a strategy whose
    code is known and that passes the check of the URI. *)
Lemma columns_batch_run (c : Constants) (E : Env) (dataset_fqn strategy p d : string)
    (code : Z) (ids : list string) (uri : option string) (w : World) :
  strategy_code c strategy = Some code ->
  (code = STRATEGY_DOCUMENTED c -> uri <> None) ->
  _split_dataset_fqn dataset_fqn = Return (p, d) ->
  list_tables E p d = Return ids ->
  generate_dataset_tables_columns_descriptions c E dataset_fqn strategy uri w
  = ((if (code =? STRATEGY_DOCUMENTED c)%Z then
        tables_from_uri ← _get_tables_from_uri E uri;
        for_each tables_from_uri
          (fun table =>
             if py_not_in (PStr (fst table)) (str_list (map (replace ":" ".") ids))
             then raise (ValueError (TableNotInDataset (PStr (fst table)) dataset_fqn))
             else generate_table_description c E (fst table) (Some (snd table)) PNone ;;
                  generate_columns_descriptions c E (fst table) (Some (snd table)) PNone)
      else ret tt) ;;
     (if (code =? STRATEGY_DOCUMENTED_THEN_REST c)%Z then
        tables_from_uri ← _get_tables_from_uri E uri;
        for_each tables_from_uri
          (fun table =>
             if py_not_in (pair_tuple table) (str_list (map (replace ":" ".") ids))
             then raise (ValueError (TableNotInDataset (PStr (fst table)) dataset_fqn))
             else generate_table_description c E (fst table) (Some (snd table)) PNone ;;
                  generate_columns_descriptions c E (fst table) (Some (snd table)) PNone) ;;
        for_each (map (replace ":" ".") ids)
          (fun table =>
             if py_not_in (PStr table) (str_list (map fst tables_from_uri))
             then generate_table_description c E table None PNone ;;
                  generate_columns_descriptions c E table None PNone
             else ret tt)
      else ret tt) ;;
     (if bool_decide (code ∈ [STRATEGY_NAIVE c; STRATEGY_RANDOM c;
                              STRATEGY_ALPHABETICAL c]) then
        tables_sorted ← _order_tables_to_strategy c E (map (replace ":" ".") ids) code;
        for_each tables_sorted
          (fun table => generate_table_description c E table None PNone ;;
                        generate_columns_descriptions c E table None PNone)
      else ret tt)) w.
Proof.
  intros Hcode Huri Hs Hl.
  unfold generate_dataset_tables_columns_descriptions. rewrite try_rethrow, Hcode.
  rewrite run_bind, (code_in_strategies c strategy code Hcode).
  unfold ret at 1. cbv beta iota.
  rewrite run_bind.
  assert (Hcheck : (if (code =? STRATEGY_DOCUMENTED c)%Z
                    then match uri with
                         | Some _ => ret ()
                         | None => raise (ValueError DocumentationURIRequired)
                         end
                    else ret ()) w = (Return tt, w)).
  { destruct (Z.eqb_spec code (STRATEGY_DOCUMENTED c)) as [Heq|]; [|reflexivity].
    destruct uri; [reflexivity|]. now destruct (Huri Heq). }
  rewrite Hcheck.
  rewrite run_bind, (_list_tables_in_dataset_run E dataset_fqn p d ids w Hs Hl).
  reflexivity.
Qed.

(** X22: with NAIVE, RANDOM and ALPHABETICAL the batch over tables and
    columns takes the tables of the dataset, each once, in the order of the
    strategy, and for each generates the description of the table and then
    those of its columns; it stops at the first generation that raises.  By
    the log, the generations started are a prefix of that sequence, and the
    whole of it when the batch returns. *)
Theorem ordered_batch_generates_tables_then_columns (c : Constants) (E : Env)
    (dataset_fqn strategy p d : string) (code : Z) (ids : list string)
    (uri : option string) (w : World) (r : result unit) (w' : World) :
  strategies_distinct c ->
  (strategy, code) ∈ ordering_strategies c ->
  _split_dataset_fqn dataset_fqn = Return (p, d) ->
  list_tables E p d = Return ids ->
  generate_dataset_tables_columns_descriptions c E dataset_fqn strategy uri w = (r, w') ->
  exists ordered done,
    ordered ≡ₚ map dotted ids
    /\ (strategy = "NAIVE" -> ordered = map dotted ids)
    /\ (strategy = "ALPHABETICAL" -> StronglySorted String.le ordered)
    /\ done `prefix_of` concat (map table_and_columns ordered)
    /\ logged w' = logged w ++ done
    /\ (r = Return tt -> done = concat (map table_and_columns ordered)).
Proof.
  intros Hc Hin Hs Hl.
  destruct (ordering_code c strategy code Hc Hin) as (Hcode & Hnd & Hnt & Hord).
  rewrite (columns_batch_run c E dataset_fqn strategy p d code ids uri w Hcode) by
    (try assumption; intros ->; now rewrite Z.eqb_refl in Hnd).
  rewrite Hnd, Hnt, Hord.
  rewrite run_bind. unfold ret at 1. cbv beta iota.
  rewrite run_bind. unfold ret at 1. cbv beta iota.
  rewrite run_bind.
  destruct (ordering_run c E strategy code (map (replace ":" ".") ids) w Hc Hin)
    as (ordered & w1 & -> & Hlog1 & Hperm & Hnaive & Hsorted).
  cbv beta iota. intros Hloop.
  assert (Hids : map (replace ":" ".") ids = map dotted ids)
    by (apply map_ext; intros id; apply replace_colon).
  rewrite Hids in *.
  destruct (for_each_log table_and_columns _ ordered w1 r w'
              (table_and_columns_turn_log c E None) Hloop) as (done & Hpre & Hlog & Hall).
  exists ordered, done. repeat split; try assumption. now rewrite Hlog, Hlog1.
Qed.

Lemma ordered_batch_generates_tables_then_columns_witness :
  exists done,
    done `prefix_of` concat (map table_and_columns ["p.d.c"; "p.d.a"; "p.d.b"])
    /\ logged (snd (generate_dataset_tables_columns_descriptions sample_constants
                      (sample_env answering) "p.d" "NAIVE" None
                      (sample_world sample_options)))
       = done.
Proof.
  destruct (ordered_batch_generates_tables_then_columns sample_constants
              (sample_env answering)
              "p.d" "NAIVE" "p" "d" 1 ["p:d.c"; "p:d.a"; "p:d.b"] None
              (sample_world sample_options) _ _ sample_strategies_distinct
              (list_elem_of_here _ _) eq_refl eq_refl (surjective_pairing _))
    as (ordered & done & _ & Hnaive & _ & Hpre & Hlog & _).
  exists done. rewrite (Hnaive eq_refl) in Hpre. split; [exact Hpre | exact Hlog].
Defined.

(** The loop over a mapping all of whose tables are in the dataset. *)
Lemma documented_loop_all (c : Constants) (E : Env) (dataset_fqn : string)
    (tables : list string) (mapping : list (string * string)) (w : World) :
  (forall t, t ∈ mapping -> fst t ∈ tables) ->
  for_each mapping
    (fun table =>
       if py_not_in (PStr (fst table)) (str_list tables)
       then raise (ValueError (TableNotInDataset (pair_tuple table) dataset_fqn))
       else generate_table_description c E (fst table) (Some (snd table)) PNone ;; ret tt) w
  = for_each mapping (generate_mapped c E) w.
Proof.
  intros Hall. revert w. induction mapping as [|x mapping IH]; intros w; [reflexivity|].
  simpl. rewrite !run_bind.
  rewrite py_not_in_str_false by (apply Hall, list_elem_of_here).
  fold (generate_mapped c E x).
  destruct (generate_mapped c E x w) as [[e|[]] w1]; [reflexivity|].
  apply IH. intros t Ht. apply Hall. now apply list_elem_of_further.
Qed.

(** X23: with DOCUMENTED and a mapping all of whose tables are in the
    dataset, the batch generates for the tables of the mapping, in the order
    of the file and each with its document, once for each line that names it;
    it stops at the first generation that raises, and the tables of the
    dataset that the mapping does not name are not generated. *)
Theorem documented_batch_generates_the_mapped_tables (c : Constants) (E : Env)
    (dataset_fqn p d uri : string) (ids : list string)
    (mapping : list (string * string)) (w : World) (r : result unit) (w' : World) :
  strategies_distinct c ->
  _split_dataset_fqn dataset_fqn = Return (p, d) ->
  list_tables E p d = Return ids ->
  _get_tables_from_uri E (Some uri) w = (Return mapping, w) ->
  (forall t, t ∈ mapping -> fst t ∈ map dotted ids) ->
  generate_dataset_tables_descriptions c E dataset_fqn "DOCUMENTED" (Some uri) w = (r, w') ->
  generate_dataset_tables_descriptions c E dataset_fqn "DOCUMENTED" (Some uri) w
  = for_each mapping (generate_mapped c E) w
  /\ exists done,
       done `prefix_of` map fst mapping
       /\ logged w' = logged w ++ map GeneratingTable done
       /\ (r = Return tt -> done = map fst mapping).
Proof.
  intros Hc Hs Hl Hmap Hall H.
  destruct (strategies_distinct_codes c Hc)
    as (_ & _ & _ & Htd & Hdn & Hdr & Hda & _).
  assert (Hrun : generate_dataset_tables_descriptions c E dataset_fqn "DOCUMENTED"
                   (Some uri) w
                 = for_each mapping (generate_mapped c E) w).
  { rewrite (batch_run c E dataset_fqn "DOCUMENTED" p d (STRATEGY_DOCUMENTED c) ids
               (Some uri) w eq_refl ltac:(discriminate) Hs Hl).
    rewrite Z.eqb_refl.
    assert (Htd' : (STRATEGY_DOCUMENTED c =? STRATEGY_DOCUMENTED_THEN_REST c)%Z = false)
      by (apply Z.eqb_neq; congruence).
    assert (Hord : bool_decide (STRATEGY_DOCUMENTED c
                                ∈ [STRATEGY_NAIVE c; STRATEGY_RANDOM c;
                                   STRATEGY_ALPHABETICAL c]) = false)
      by (apply bool_decide_eq_false; rewrite !not_elem_of_cons;
          repeat split; try congruence; apply not_elem_of_nil).
    rewrite Htd', Hord.
    assert (Hids : map (replace ":" ".") ids = map dotted ids)
      by (apply map_ext; intros id; apply replace_colon).
    rewrite Hids.
    rewrite run_bind, run_bind, Hmap. cbv beta iota.
    rewrite (documented_loop_all c E dataset_fqn _ mapping w Hall).
    destruct (for_each mapping (generate_mapped c E) w) as [[e|[]] w1]; reflexivity. }
  split; [exact Hrun|]. rewrite Hrun in H.
  exact (generate_mapped_log c E mapping w r w' H).
Qed.

Lemma documented_batch_generates_the_mapped_tables_witness :
  exists done,
    done `prefix_of` ["p.d.a"; "p.d.b"]
    /\ logged (snd sample_mapped_batch) = map GeneratingTable done.
Proof.
  destruct (documented_batch_generates_the_mapped_tables sample_constants
              (sample_env_with_file (unlines ["p.d.a,gs://docs/a.pdf"; "p.d.b,gs://docs/b.pdf"; ""]))
              "p.d" "p" "d" "gs://docs/mapping.csv" ["p:d.c"; "p:d.a"; "p:d.b"]
              [("p.d.a", "gs://docs/a.pdf"); ("p.d.b", "gs://docs/b.pdf")]
              (sample_world warehouse_options)
              (fst sample_mapped_batch) (snd sample_mapped_batch)
              sample_strategies_distinct eq_refl eq_refl eq_refl)
    as (_ & done & Hpre & Hlog & _).
  - intros t Ht.
    apply elem_of_cons in Ht as [->|Ht];
      [apply list_elem_of_further, list_elem_of_here|].
    apply list_elem_of_singleton in Ht as ->.
    do 2 apply list_elem_of_further. apply list_elem_of_here.
  - apply surjective_pairing.
  - exists done. split; [exact Hpre | exact Hlog].
Defined.

(** ** Catalog entries, regeneration and scan results *)

(** X24: when the catalog has no entry for the table, the update of the
    overview does not raise: it returns [False] and nothing is written, so
    that a generation that is to keep the catalog in step goes on; the update
    of the draft, which reads the entry first, raises the [NotFound] of the
    catalog. *)
Theorem missing_catalog_entry (c : Constants) (E : Env) (fqn p d t location : string)
    (v : PyVal) (w : World) :
  _split_table_fqn fqn = Return (p, d, t) ->
  get_dataset_location E (p +:+ "." +:+ d) = Return location ->
  catalog w !! entry_name_for p d t location = None ->
  _update_table_dataplex_description E fqn v w = (Return false, w)
  /\ exists message,
       _update_table_draft_description c E fqn v w = (Raise (NotFound message), w).
Proof.
  intros Hs Hl Hnone. split.
  - unfold _update_table_dataplex_description.
    rewrite run_bind, (entry_name_of_run E fqn p d t location w Hs Hl). cbv beta iota.
    now rewrite run_try_except, run_bind, (update_entry_None _ _ _ w Hnone).
  - eexists. unfold _update_table_draft_description.
    rewrite run_bind, (entry_name_of_run E fqn p d t location w Hs Hl). cbv beta iota.
    now rewrite run_bind, (get_entry_None _ _ w Hnone).
Qed.

Lemma missing_catalog_entry_witness :
  _update_table_dataplex_description (sample_env answering) "p.d.c" (PStr "Clicks")
    (sample_world sample_options)
  = (Return false, sample_world sample_options)
  /\ exists message,
       _update_table_draft_description sample_constants (sample_env answering) "p.d.c"
         (PStr "Clicks") (sample_world sample_options)
       = (Raise (NotFound message), sample_world sample_options).
Proof.
  exact (missing_catalog_entry sample_constants (sample_env answering) "p.d.c" "p" "d" "c"
           "US" (PStr "Clicks") (sample_world sample_options) eq_refl eq_refl eq_refl).
Defined.

Lemma collect_comments_lists (c : Constants) (entry : Entry) :
  (forall ka, ka ∈ entry ->
     is_staging_aspect c (snd ka) && String.eqb (path (snd ka)) "" = true ->
     data (snd ka) !! "human-comments" = None
     \/ exists l, data (snd ka) !! "human-comments" = Some (PList l)) ->
  collect_comments c entry = Return (table_comments c entry).
Proof.
  unfold collect_comments, table_comments, Entry in *.
  assert (Hgen : forall acc,
            (forall ka, ka ∈ entry ->
               is_staging_aspect c (snd ka) && String.eqb (path (snd ka)) "" = true ->
               data (snd ka) !! "human-comments" = None
               \/ exists l, data (snd ka) !! "human-comments" = Some (PList l)) ->
            fold_left
              (fun acc '(_, a) =>
                 match acc with
                 | Raise e => Raise e
                 | Return comments =>
                     if endswith (aspect_type a) ("aspectTypes/" +:+ ASPECT_TEMPLATE_name c)
                        && String.eqb (path a) ""
                     then match data a !! "human-comments" with
                          | Some v =>
                              match py_iter v with
                              | Return l => Return (comments ++ l)
                              | Raise e => Raise e
                              end
                          | None => Return comments
                          end
                     else Return comments
                 end)
              entry (Return acc)
            = Return (acc ++ concat
                (map (fun ka => match data (snd ka) !! "human-comments" with
                                | Some (PList l) => l
                                | _ => []
                                end)
                   (filter (fun ka => is_staging_aspect c (snd ka)
                                      && String.eqb (path (snd ka)) "") entry)))).
  { induction entry as [|[k a] entry IH]; intros acc Hlists.
    - simpl. now rewrite app_nil_r.
    - assert (Htail : forall ka, ka ∈ entry ->
                is_staging_aspect c (snd ka) && String.eqb (path (snd ka)) "" = true ->
                data (snd ka) !! "human-comments" = None
                \/ exists l, data (snd ka) !! "human-comments" = Some (PList l))
        by (intros ka Hka; apply Hlists; now apply list_elem_of_further).
      cbn [fold_left]. fold (is_staging_aspect c a).
      destruct (is_staging_aspect c a && String.eqb (path a) "") eqn:Htest.
      + rewrite filter_cons_True by (simpl; now rewrite Htest).
        cbn [map concat snd].
        destruct (Hlists (k, a) (list_elem_of_here _ _) Htest) as [Hn|[l Hl]];
          simpl in Hn || simpl in Hl.
        * rewrite Hn. rewrite (IH acc Htail). reflexivity.
        * rewrite Hl. cbn [py_iter]. rewrite (IH _ Htail). now rewrite <- app_assoc.
      + rewrite filter_cons_False by (simpl; rewrite Htest; exact id).
        apply (IH acc Htail). }
  intros Hlists. exact (Hgen [] Hlists).
Qed.

(** X25: the regeneration of the description of a table is a generation
    with no document and with, as human comments, the comments of the drafts
    at table scope of the entry of the table, in the order of the entry: the
    empty list when there is no such draft, and never a comment of a draft of
    a column.  When the catalog has no entry for the table the regeneration
    ends with the [NotFound] of the catalog before any generation. *)
Theorem regeneration_passes_the_table_comments (c : Constants) (E : Env)
    (fqn p d t location : string) (w : World) :
  _split_table_fqn fqn = Return (p, d, t) ->
  get_dataset_location E (p +:+ "." +:+ d) = Return location ->
  (catalog w !! entry_name_for p d t location = None ->
   exists message, regenerate_table_description c E fqn w = (Raise (NotFound message), w))
  /\ (forall entry,
        catalog w !! entry_name_for p d t location = Some entry ->
        (forall ka, ka ∈ entry -> aspect_type (snd ka) = draft_aspect_type c E ->
           path (snd ka) = "" ->
           data (snd ka) !! "human-comments" = None
           \/ exists l, data (snd ka) !! "human-comments" = Some (PList l)) ->
        regenerate_table_description c E fqn w
        = (generate_table_description c E fqn None
             (PList (table_comments c
                       (filter (fun ka => bool_decide (aspect_type (snd ka)
                                                       ∈ [draft_aspect_type c E])) entry))) ;;
           ret tt) w).
Proof.
  intros Hs Hl. split.
  - intros Hnone. eexists. unfold regenerate_table_description.
    rewrite run_bind, (entry_name_of_run E fqn p d t location w Hs Hl). cbv beta iota.
    now rewrite run_bind, try_rethrow, (get_entry_None _ _ w Hnone).
  - intros entry Hentry Hlists. unfold regenerate_table_description.
    rewrite run_bind, (entry_name_of_run E fqn p d t location w Hs Hl). cbv beta iota.
    rewrite run_bind, try_rethrow, (get_entry_run _ _ entry w Hentry). cbv beta iota.
    rewrite run_bind. unfold lift at 1.
    rewrite collect_comments_lists; [reflexivity|].
    intros ka Hka Htest. apply list_elem_of_filter in Hka as [Hty Hka].
    apply bool_decide_unpack in Hty. apply list_elem_of_singleton in Hty.
    apply andb_true_iff in Htest as [_ Hpath]. apply String.eqb_eq in Hpath.
    now apply Hlists.
Qed.

Lemma regeneration_passes_the_table_comments_witness :
  regenerate_table_description sample_constants (sample_env answering) "p.d.a"
    (sample_world sample_options)
  = (generate_table_description sample_constants (sample_env answering) "p.d.a" None
       (PList [PStr "mention the currency"]) ;; ret tt) (sample_world sample_options).
Proof.
  apply (proj2 (regeneration_passes_the_table_comments sample_constants
                  (sample_env answering) "p.d.a" "p" "d" "a" "US"
                  (sample_world sample_options) eq_refl eq_refl)
           [ ("p.global.draft-description", sample_draft "" "Orders of the shop");
             ("p.global.draft-description@Schema.name",
              sample_draft "Schema.name" "Name of the customer who placed the order") ]
           eq_refl).
  intros ka Hka _ Hpath. right.
  apply elem_of_cons in Hka as [->|Hka]; [now eexists|].
  apply list_elem_of_singleton in Hka as ->. discriminate Hpath.
Defined.

(** ** The profile and quality results *)

Lemma collect_job_results_spec (jobs : list DataScanJob) (acc : list PyVal * list PyVal) :
  (forall r, r ∈ fst (collect_job_results jobs acc) ->
     r ∈ fst acc
     \/ exists job, job ∈ jobs /\ job_succeeded job = true /\ dataProfileResult job = Some r)
  /\ (forall r, r ∈ snd (collect_job_results jobs acc) ->
        r ∈ snd acc
        \/ exists job, job ∈ jobs /\ job_succeeded job = true
                       /\ dataQualityResult job = Some r).
Proof.
  unfold collect_job_results. revert acc.
  induction jobs as [|job jobs IH]; intros [profiles qualities]; [split; intros r; now left|].
  cbn [fold_left].
  match goal with
  | |- context [fold_left _ jobs ?a] => set (acc' := a)
  end.
  assert (Hacc' : acc' = if job_succeeded job
                         then (match dataProfileResult job with
                               | Some r => profiles ++ [r]
                               | None => profiles
                               end,
                               match dataQualityResult job with
                               | Some r => qualities ++ [r]
                               | None => qualities
                               end)
                         else (profiles, qualities)) by reflexivity.
  destruct (IH acc') as [IHp IHq]. clearbody acc'. subst acc'.
  split; intros r Hr.
  - destruct (IHp r Hr) as [Hacc|(j & Hj & Hok & Hres)];
      [|right; exists j; split; [now apply list_elem_of_further | now split]].
    destruct (job_succeeded job) eqn:Hs; [|now left].
    cbn [fst] in Hacc. destruct (dataProfileResult job) as [r'|] eqn:Hp; [|now left].
    apply elem_of_app in Hacc as [Hacc|Hacc]; [now left|].
    apply list_elem_of_singleton in Hacc as ->.
    right. exists job. split; [apply list_elem_of_here | now split].
  - destruct (IHq r Hr) as [Hacc|(j & Hj & Hok & Hres)];
      [|right; exists j; split; [now apply list_elem_of_further | now split]].
    destruct (job_succeeded job) eqn:Hs; [|now left].
    cbn [snd] in Hacc. destruct (dataQualityResult job) as [r'|] eqn:Hq; [|now left].
    apply elem_of_app in Hacc as [Hacc|Hacc]; [now left|].
    apply list_elem_of_singleton in Hacc as ->.
    right. exists job. split; [apply list_elem_of_here | now split].
Qed.

Lemma scan_jobs_loop (E : Env) (refs : list string) (acc : list PyVal * list PyVal)
    (w : World) (profiles qualities : list PyVal) (w' : World) :
  for_fold refs acc
    (fun acc table_scan_reference =>
       if String.eqb table_scan_reference "" then ret acc
       else jobs ← lift (list_data_scan_jobs E table_scan_reference);
            ret (collect_job_results jobs acc)) w
  = (Return (profiles, qualities), w') ->
  w' = w
  /\ (forall r, r ∈ profiles ->
        r ∈ fst acc
        \/ exists ref jobs job,
             ref ∈ refs /\ list_data_scan_jobs E ref = Return jobs /\ job ∈ jobs
             /\ job_succeeded job = true /\ dataProfileResult job = Some r)
  /\ (forall r, r ∈ qualities ->
        r ∈ snd acc
        \/ exists ref jobs job,
             ref ∈ refs /\ list_data_scan_jobs E ref = Return jobs /\ job ∈ jobs
             /\ job_succeeded job = true /\ dataQualityResult job = Some r).
Proof.
  revert acc w. induction refs as [|ref refs IH]; intros acc w.
  - intros [= -> <-]. split; [reflexivity|]. split; intros r Hr; now left.
  - cbn [for_fold]. rewrite run_bind.
    destruct (String.eqb ref "").
    + unfold ret at 1. cbv beta iota. intros H.
      destruct (IH _ _ H) as (-> & Hp & Hq). split; [reflexivity|].
      split; intros r Hr;
        [destruct (Hp r Hr) as [?|(ref' & jobs & job & Hin & Hrest)]
        |destruct (Hq r Hr) as [?|(ref' & jobs & job & Hin & Hrest)]];
        try (now left); right; exists ref', jobs, job;
        (split; [now apply list_elem_of_further | exact Hrest]).
    + rewrite run_bind. unfold lift at 1.
      destruct (list_data_scan_jobs E ref) as [e|jobs] eqn:Hjobs; [discriminate|].
      cbv beta iota. unfold ret at 1. cbv beta iota. intros H.
      destruct (IH _ _ H) as (-> & Hp & Hq). split; [reflexivity|].
      destruct (collect_job_results_spec jobs acc) as [Hcp Hcq].
      split; intros r Hr.
      * destruct (Hp r Hr) as [Hacc|(ref' & jobs' & job & Hin & Hrest)];
          [|right; exists ref', jobs', job;
            split; [now apply list_elem_of_further | exact Hrest]].
        destruct (Hcp r Hacc) as [?|(job & Hj & Hok & Hres)]; [now left|].
        right. exists ref, jobs, job. split; [apply list_elem_of_here | now repeat split].
      * destruct (Hq r Hr) as [Hacc|(ref' & jobs' & job & Hin & Hrest)];
          [|right; exists ref', jobs', job;
            split; [now apply list_elem_of_further | exact Hrest]].
        destruct (Hcq r Hacc) as [?|(job & Hj & Hok & Hres)]; [now left|].
        right. exists ref, jobs, job. split; [apply list_elem_of_here | now repeat split].
Qed.

(** X26: a profile or quality result that reaches a prompt is the result of
    a job that succeeded, among the jobs of a data scan whose resource is the
    resource string of the table: the results of failed jobs and of the scans
    of other tables are left out.  Reading them leaves the world as it was,
    and when the signal is not enabled both lists are empty. *)
Theorem scan_results_come_from_succeeded_jobs (E : Env) (fqn : string) (w : World) :
  _get_table_profile_quality E false fqn w = (Return ([], []), w)
  /\ forall profiles qualities w',
       _get_table_profile_quality E true fqn w = (Return (profiles, qualities), w') ->
       w' = w
       /\ _get_table_profile E true fqn w = (Return profiles, w)
       /\ _get_table_quality E true fqn w = (Return qualities, w)
       /\ exists resource scans,
            _construct_bq_resource_string fqn = Return resource
            /\ list_data_scans E (scans_parent E) = Return scans
            /\ (forall r, r ∈ profiles ->
                  from_succeeded_job E scans resource dataProfileResult r)
            /\ (forall r, r ∈ qualities ->
                  from_succeeded_job E scans resource dataQualityResult r).
Proof.
  split; [reflexivity|]. intros profiles qualities w' H.
  assert (Hw : w' = w /\ exists resource scans,
            _construct_bq_resource_string fqn = Return resource
            /\ list_data_scans E (scans_parent E) = Return scans
            /\ (forall r, r ∈ profiles ->
                  from_succeeded_job E scans resource dataProfileResult r)
            /\ (forall r, r ∈ qualities ->
                  from_succeeded_job E scans resource dataQualityResult r)).
  { revert H. unfold _get_table_profile_quality, _get_table_scan_reference.
    rewrite run_bind, run_bind. unfold lift at 1. fold (scans_parent E).
    destruct (list_data_scans E (scans_parent E)) as [e|scans] eqn:Hscans; [discriminate|].
    cbv beta iota. rewrite run_bind. unfold lift at 1.
    destruct (_construct_bq_resource_string fqn) as [e|resource] eqn:Hres; [discriminate|].
    cbv beta iota. unfold ret at 1. cbv beta iota. intros H.
    destruct (scan_jobs_loop E _ _ _ _ _ _ H) as (-> & Hp & Hq).
    split; [reflexivity|]. exists resource, scans.
    split; [reflexivity|]. split; [reflexivity|].
    assert (Href : forall ref,
              ref ∈ map scan_name
                      (filter (fun scan => String.eqb (scan_resource scan) resource) scans) ->
              exists scan, scan ∈ scans /\ scan_resource scan = resource
                           /\ scan_name scan = ref).
    { intros ref Hin. apply list_elem_of_fmap in Hin as (scan & -> & Hin).
      apply list_elem_of_filter in Hin as [Hmatch Hin].
      exists scan. split; [exact Hin|]. split; [|reflexivity].
      apply Is_true_true in Hmatch. now apply String.eqb_eq. }
    split; intros r Hr.
    - destruct (Hp r Hr) as [Hnil|(ref & jobs & job & Hin & Hjobs & Hj & Hok & Hresult)];
        [now apply not_elem_of_nil in Hnil|].
      destruct (Href ref Hin) as (scan & Hscan & Hmatch & <-).
      now exists scan, jobs, job.
    - destruct (Hq r Hr) as [Hnil|(ref & jobs & job & Hin & Hjobs & Hj & Hok & Hresult)];
        [now apply not_elem_of_nil in Hnil|].
      destruct (Href ref Hin) as (scan & Hscan & Hmatch & <-).
      now exists scan, jobs, job. }
  destruct Hw as [-> Hrest]. split; [reflexivity|].
  unfold _get_table_profile, _get_table_quality. rewrite !run_bind, H.
  split; [reflexivity|]. split; [reflexivity | exact Hrest].
Qed.

(** ** The draft of a column *)

Lemma set_aspect_other (key : string) (new : Aspect) (entry : Entry) (k : string)
    (a : Aspect) :
  k <> key -> (k, a) ∈ set_aspect key new entry <-> (k, a) ∈ entry.
Proof.
  intros Hne. unfold Entry in *. induction entry as [|[k' old] entry IH]; simpl.
  - rewrite list_elem_of_singleton. split; [intros [= -> _]; contradiction|].
    intros H. now apply not_elem_of_nil in H.
  - destruct (String.eqb_spec k' key) as [->|Hk].
    + rewrite !elem_of_cons. split; intros [[= -> _]|H]; try contradiction; now right.
    + rewrite !elem_of_cons, IH. reflexivity.
Qed.

Lemma touches_only_refl (entry_name key : string) (cat : gmap string Entry) :
  touches_only entry_name key cat cat.
Proof.
  split; [reflexivity|]. split; [tauto|]. intros entry Hentry. now exists entry.
Qed.

Lemma touches_only_with_aspect (w : World) (entry_name key : string) (a : Aspect)
    (entry : Entry) :
  catalog w !! entry_name = Some entry ->
  touches_only entry_name key (catalog w) (catalog (with_aspect w entry_name key a entry)).
Proof.
  intros Hentry. simpl. split; [|split].
  - intros n Hn. now rewrite lookup_insert_ne.
  - congruence.
  - intros entry0 Hentry0. rewrite Hentry in Hentry0. injection Hentry0 as <-.
    eexists. split; [apply lookup_insert_eq|]. intros k a' Hk. now apply set_aspect_other.
Qed.

Lemma merge_column_draft_keep (c : Constants) (E : Env) (column_name : string)
    (entry : Entry) (d : PyVal) (old : gmap string PyVal) :
  (forall ka, ka ∈ entry -> is_draft_of_column c column_name ka = true ->
     data (snd ka) = old) ->
  merge_column_draft c E column_name entry d (refresh_draft E old d) = refresh_draft E old d.
Proof.
  unfold merge_column_draft. induction entry as [|[k a] entry IH]; intros Hsame;
    [reflexivity|]. simpl.
  destruct (endswith k _ && String.eqb (path a) _) eqn:Htest.
  - pose proof (Hsame (k, a) (list_elem_of_here _ _) Htest) as Hd. simpl in Hd.
    rewrite Hd. apply IH.
    intros ka Hin. apply Hsame. now apply list_elem_of_further.
  - apply IH. intros ka Hin. apply Hsame. now apply list_elem_of_further.
Qed.

Lemma merge_column_draft_found (c : Constants) (E : Env) (column_name : string)
    (entry : Entry) (d : PyVal) (init : gmap string PyVal) (ka0 : string * Aspect) :
  ka0 ∈ entry -> is_draft_of_column c column_name ka0 = true ->
  (forall ka, ka ∈ entry -> is_draft_of_column c column_name ka = true ->
     data (snd ka) = data (snd ka0)) ->
  merge_column_draft c E column_name entry d init = refresh_draft E (data (snd ka0)) d.
Proof.
  revert init. induction entry as [|[k a] entry IH]; intros init Hin Htest Hsame;
    [now apply not_elem_of_nil in Hin|].
  assert (Htail : forall ka, ka ∈ entry -> is_draft_of_column c column_name ka = true ->
                             data (snd ka) = data (snd ka0))
    by (intros ka Hka; apply Hsame; now apply list_elem_of_further).
  apply elem_of_cons in Hin as [->|Hin].
  - unfold merge_column_draft. simpl. unfold is_draft_of_column in Htest. simpl in Htest.
    rewrite Htest. now apply merge_column_draft_keep.
  - unfold merge_column_draft. simpl. now apply IH.
Qed.

Lemma merge_column_draft_none (c : Constants) (E : Env) (column_name : string)
    (entry : Entry) (d : PyVal) (init : gmap string PyVal) :
  (forall ka, ka ∈ entry -> is_draft_of_column c column_name ka = false) ->
  merge_column_draft c E column_name entry d init = init.
Proof.
  unfold merge_column_draft. induction entry as [|[k a] entry IH]; intros Hnone;
    [reflexivity|]. simpl.
  pose proof (Hnone (k, a) (list_elem_of_here _ _)) as Htest.
  unfold is_draft_of_column in Htest. simpl in Htest. rewrite Htest.
  apply IH. intros ka Hka. apply Hnone. now apply list_elem_of_further.
Qed.

Lemma merge_column_draft_contents (c : Constants) (E : Env) (column_name : string)
    (entry : Entry) (d : PyVal) (init : gmap string PyVal) :
  init !! "contents" = Some d ->
  merge_column_draft c E column_name entry d init !! "contents" = Some d.
Proof.
  unfold merge_column_draft. revert init.
  induction entry as [|[k a] entry IH]; intros init Hinit; [exact Hinit|].
  simpl. apply IH. destruct (_ && _); [|exact Hinit].
  unfold refresh_draft. now rewrite lookup_insert_ne, lookup_insert_ne, lookup_insert_eq.
Qed.

Lemma column_draft_key_endswith (c : Constants) (E : Env) (column_name : string) :
  endswith (column_draft_key c E column_name)
    ("global." +:+ ASPECT_TEMPLATE_name c +:+ "@Schema." +:+ column_name) = true.
Proof.
  unfold column_draft_key.
  change (".global." +:+ ASPECT_TEMPLATE_name c +:+ "@Schema." +:+ column_name)
    with ("." +:+ ("global." +:+ ASPECT_TEMPLATE_name c +:+ "@Schema." +:+ column_name)).
  rewrite <- append_assoc. apply endswith_append.
Qed.

(** X27: the staging of the draft of a column.  The draft is written under
    the key of the column, with the staging aspect type.  When the entry has
    no draft for the column, its data are those of a new draft: the
    description as contents and no human comment; when it has one, and only
    one, its data are the data of that draft with the contents replaced by the
    description, the generation date set to the current time and the
    regeneration mark set to false: the human comments and the negative
    examples are kept. *)
Theorem column_draft_is_staged_under_its_key (c : Constants) (E : Env)
    (fqn p d t location column_name : string) (entry : Entry)
    (new_description : PyVal) (w : World) :
  _split_table_fqn fqn = Return (p, d, t) ->
  get_dataset_location E (p +:+ "." +:+ d) = Return location ->
  catalog w !! entry_name_for p d t location = Some entry ->
  exists written,
    _update_column_draft_description c E fqn column_name new_description w
    = (Return true,
       with_aspect w (entry_name_for p d t location) (column_draft_key c E column_name)
         written entry)
    /\ aspect_type written = draft_aspect_type c E
    /\ data written !! "contents" = Some new_description
    /\ ((forall ka, ka ∈ entry -> aspect_type (snd ka) = draft_aspect_type c E ->
           is_draft_of_column c column_name ka = false) ->
        data written = new_aspect_content new_description
        /\ data written !! "human-comments" = Some (PList []))
    /\ (forall a,
          (column_draft_key c E column_name, a) ∈ entry ->
          aspect_type a = draft_aspect_type c E ->
          path a = "Schema." +:+ column_name ->
          (forall ka, ka ∈ entry -> aspect_type (snd ka) = draft_aspect_type c E ->
             is_draft_of_column c column_name ka = true ->
             ka = (column_draft_key c E column_name, a)) ->
          data written !! "generation-date" = Some (PStr (now E))
          /\ data written !! "to-be-regenerated" = Some (PStr "false")
          /\ forall field, field <> "contents" -> field <> "generation-date" ->
                           field <> "to-be-regenerated" ->
                           data written !! field = data a !! field).
Proof.
  intros Hs Hl Hentry.
  set (read := filter (fun ka => bool_decide (aspect_type (snd ka) ∈ [draft_aspect_type c E]))
                 entry).
  exists (mkAspect (draft_aspect_type c E) ""
            (merge_column_draft c E column_name read new_description
               (new_aspect_content new_description))).
  split; [|split; [reflexivity|split; [|split]]].
  - unfold _update_column_draft_description.
    rewrite run_bind, (entry_name_of_run E fqn p d t location w Hs Hl). cbv beta iota.
    rewrite run_bind, try_rethrow, (get_entry_run _ _ entry w Hentry). cbv beta iota.
    rewrite run_try_except, run_bind.
    rewrite (update_entry_run _ _ _ entry w Hentry). reflexivity.
  - cbn [data]. now apply merge_column_draft_contents.
  - intros Hnone. cbn [data]. rewrite merge_column_draft_none; [now split|].
    intros ka Hka. apply list_elem_of_filter in Hka as [Hty Hka].
    apply bool_decide_unpack in Hty. apply list_elem_of_singleton in Hty.
    now apply Hnone.
  - intros a Hin Hty Hpath Honly. cbn [data].
    rewrite (merge_column_draft_found c E column_name read new_description _
               (column_draft_key c E column_name, a)).
    + cbn [snd]. unfold refresh_draft. split; [|split].
      * now rewrite lookup_insert_ne, lookup_insert_eq.
      * now rewrite lookup_insert_eq.
      * intros field H1 H2 H3. rewrite !lookup_insert_ne; [reflexivity|congruence..].
    + apply list_elem_of_filter. split; [|exact Hin]. simpl.
      apply bool_decide_pack. rewrite Hty. apply list_elem_of_here.
    + unfold is_draft_of_column. simpl.
      now rewrite column_draft_key_endswith, Hpath, String.eqb_refl.
    + intros ka Hka Htest. apply list_elem_of_filter in Hka as [Hdraft Hka].
      apply bool_decide_unpack in Hdraft. apply list_elem_of_singleton in Hdraft.
      now rewrite (Honly ka Hka Hdraft Htest).
Qed.

Lemma column_draft_is_staged_under_its_key_witness :
  exists written,
    _update_column_draft_description sample_constants (sample_env answering) "p.d.a" "name"
      (PStr "Customer name") (sample_world sample_options)
    = (Return true,
       with_aspect (sample_world sample_options) (entry_name_for "p" "d" "a" "US")
         "p.global.draft-description@Schema.name" written
         [ ("p.global.draft-description", sample_draft "" "Orders of the shop");
           ("p.global.draft-description@Schema.name",
            sample_draft "Schema.name" "Name of the customer who placed the order") ])
    /\ data written !! "contents" = Some (PStr "Customer name").
Proof.
  destruct (column_draft_is_staged_under_its_key sample_constants (sample_env answering)
              "p.d.a" "p" "d" "a" "US" "name"
              [ ("p.global.draft-description", sample_draft "" "Orders of the shop");
                ("p.global.draft-description@Schema.name",
                 sample_draft "Schema.name" "Name of the customer who placed the order") ]
              (PStr "Customer name") (sample_world sample_options)
              eq_refl eq_refl eq_refl)
    as (written & Hrun & _ & Hcontents & _).
  exists written. split; [exact Hrun | exact Hcontents].
Defined.

Lemma update_entry_touches (entry_name key : string) (a : Aspect) (w : World)
    (r : result unit) (w' : World) :
  update_entry entry_name key a w = (r, w') ->
  touches_only entry_name key (catalog w) (catalog w') /\ bq_tables w' = bq_tables w.
Proof.
  destruct (catalog w !! entry_name) as [entry|] eqn:Hentry.
  - rewrite (update_entry_run _ _ _ entry w Hentry). intros [= <- <-].
    split; [now apply touches_only_with_aspect | reflexivity].
  - rewrite (update_entry_None _ _ _ w Hentry). intros [= <- <-].
    split; [apply touches_only_refl | reflexivity].
Qed.

Lemma get_entry_pure (entry_name : string) (requested : list string) :
  preserves eq (get_entry entry_name requested).
Proof. intros w r w'. unfold get_entry. destruct (catalog w !! entry_name); now intros [= <- <-]. Qed.

Lemma write_aspect_touches (entry_name key : string) (a : Aspect) (w : World)
    (r : result bool) (w' : World) :
  try_except (update_entry entry_name key a ;; ret true) (fun _ => ret false) w = (r, w') ->
  touches_only entry_name key (catalog w) (catalog w') /\ bq_tables w' = bq_tables w.
Proof.
  rewrite run_try_except, run_bind.
  destruct (update_entry entry_name key a w) as [[e|[]] w1] eqn:Hupdate;
    apply update_entry_touches in Hupdate; cbv beta iota; now intros [= <- <-].
Qed.

(** X28: a write to the catalog touches one aspect of one entry.  Whatever
    the outcome of [_update_table_dataplex_description],
    [_update_table_draft_description] and [_update_column_draft_description],
    the tables of the warehouse and the other entries of the catalog are as
    before, and in the entry of the table only the aspect under the key of
    the method (the overview, the draft of the table, the draft of the
    column) can differ: a draft of a column never replaces the draft of the
    table or of another column. *)
Theorem catalog_writes_touch_one_aspect (c : Constants) (E : Env)
    (fqn p d t location column_name : string) (description : PyVal) (w : World) :
  _split_table_fqn fqn = Return (p, d, t) ->
  get_dataset_location E (p +:+ "." +:+ d) = Return location ->
  (forall r w', _update_table_dataplex_description E fqn description w = (r, w') ->
     touches_only (entry_name_for p d t location) "dataplex-types.global.overview"
       (catalog w) (catalog w')
     /\ bq_tables w' = bq_tables w)
  /\ (forall r w', _update_table_draft_description c E fqn description w = (r, w') ->
        touches_only (entry_name_for p d t location) (draft_key c E) (catalog w) (catalog w')
        /\ bq_tables w' = bq_tables w)
  /\ (forall r w',
        _update_column_draft_description c E fqn column_name description w = (r, w') ->
        touches_only (entry_name_for p d t location) (column_draft_key c E column_name)
          (catalog w) (catalog w')
        /\ bq_tables w' = bq_tables w).
Proof.
  intros Hs Hl. split; [|split]; intros r w'.
  - unfold _update_table_dataplex_description.
    rewrite run_bind, (entry_name_of_run E fqn p d t location w Hs Hl). cbv beta iota.
    apply write_aspect_touches.
  - unfold _update_table_draft_description.
    rewrite run_bind, (entry_name_of_run E fqn p d t location w Hs Hl). cbv beta iota.
    rewrite run_bind.
    destruct (get_entry _ _ w) as [[e|entry] w1] eqn:Hget;
      pose proof (get_entry_pure _ _ _ _ _ Hget) as <-; cbv beta iota.
    + intros [= <- <-]. split; [apply touches_only_refl | reflexivity].
    + apply write_aspect_touches.
  - unfold _update_column_draft_description.
    rewrite run_bind, (entry_name_of_run E fqn p d t location w Hs Hl). cbv beta iota.
    rewrite run_bind, try_rethrow.
    destruct (get_entry _ _ w) as [[e|entry] w1] eqn:Hget;
      pose proof (get_entry_pure _ _ _ _ _ Hget) as <-; cbv beta iota.
    + intros [= <- <-]. split; [apply touches_only_refl | reflexivity].
    + apply write_aspect_touches.
Qed.

Lemma catalog_writes_touch_one_aspect_witness :
  touches_only (entry_name_for "p" "d" "a" "US") "p.global.draft-description@Schema.name"
    (catalog (sample_world sample_options))
    (catalog (snd (_update_column_draft_description sample_constants (sample_env answering)
                     "p.d.a" "name" (PStr "Customer name") (sample_world sample_options))))
  /\ bq_tables (snd (_update_column_draft_description sample_constants (sample_env answering)
                       "p.d.a" "name" (PStr "Customer name") (sample_world sample_options)))
     = bq_tables (sample_world sample_options).
Proof.
  exact (proj2 (proj2 (catalog_writes_touch_one_aspect sample_constants (sample_env answering)
                         "p.d.a" "p" "d" "a" "US" "name" (PStr "Customer name")
                         (sample_world sample_options) eq_refl eq_refl))
           _ _ (surjective_pairing _)).
Defined.

Lemma scan_results_come_from_succeeded_jobs_witness :
  _get_table_profile_quality sample_env_with_scans true "p.d.a" (sample_world sample_options)
  = (Return ([PStr "profile of a"], [PStr "quality of a"]), sample_world sample_options)
  /\ _get_table_profile sample_env_with_scans true "p.d.a" (sample_world sample_options)
     = (Return [PStr "profile of a"], sample_world sample_options).
Proof.
  split; [reflexivity|].
  exact (proj1 (proj2 (proj2 (scan_results_come_from_succeeded_jobs sample_env_with_scans
                                "p.d.a" (sample_world sample_options))
                         [PStr "profile of a"] [PStr "quality of a"]
                         (sample_world sample_options) eq_refl))).
Defined.
